(** * IoT dashboard: session gateway, live feeds and view state

    A shallow embedding of the [Dashboard] of [src/pages/DashBoard_v2.tsx]
    that subscribes to server-sent events (the first component of that file):
    the axios interceptors that attach the bearer token and refresh it once
    on a 401, the login form, and the parts of the component that own the
    three [EventSource] feeds, the bounded buffers and the device form.
    [handleUpdateDevice] and the markup are not modelled.

    Conventions of the embedding.
    - Browser and network effects are threaded through an explicit [World]:
      [localStorage], [window.location.href], the calls put on the wire, the
      [EventSource] operations, [console.error] and [window.alert].
    - The backend is a family of oracles, one per endpoint, each a function of
      the calls made so far and of the call being answered, so every sequence
      of replies is some oracle.
    - Response bodies and feed payloads carry the TypeScript interface the
      source declares for them; a body outside that interface is not an input
      of the model.
    - A function of the component reads state variables from the render whose
      closure it belongs to, and reads refs and [localStorage] live.
    - An [async] function that is awaited, or that an event of the page
      calls as its handler, runs to completion where it is called;
      interleavings at its [await]s are not modelled.  A call that is not
      awaited returns once its request is sent: the request is recorded as
      in flight, and the rest of the function runs when the event loop
      delivers the reply, at any later turn and in any order; the
      response interceptor, with the refresh and the retry it may make, runs
      within that turn.  Assigning
      [window.location.href] is recorded; the reload it causes is a new run
      from [App_initial] with the [localStorage] left behind. *)

From stdpp Require Import gmap strings list.
From Stdlib Require Import ZArith Lia.

Open Scope Z_scope.

(** ** Requests, replies and settled promises *)

Inductive Method := GET | POST | PATCH | DELETE.

(** Which axios object sends a call: the configured [axiosInstance]
    (base URL, interceptors) or the bare [axios] import. *)
Inductive Via := ViaInstance | ViaAxios.

Inductive RequestBody :=
| NoBody
| Credentials (username password : string)
| RefreshBody (refreshToken accessToken : string)
| DeviceForm (deviceId name location type status : string).

(** The request config object: [error.config] / [originalRequest].  The
    [_retry] flag set on it travels with it when it is handed back to the
    instance. *)
Record Config := {
  method : Method;
  url : string;
  data : RequestBody;
  Authorization : option string;   (* config.headers.Authorization *)
  _retry : bool                    (* the ad-hoc flag, absent = false *)
}.

(** What reaches the server. *)
Record NetCall := {
  nc_via : Via;
  nc_method : Method;
  nc_url : string;
  nc_auth : option string;
  nc_body : RequestBody
}.

(** axios' default [validateStatus]. *)
Definition validateStatus (status : Z) : bool :=
  (200 <=? status) && (status <? 300).

Inductive Outcome (A : Type) :=
| Replied (status : Z) (body : A)
    (* a response whose body has the endpoint's type *)
| Refused (status : Z) (message : option string)
          (Hstatus : validateStatus status = false)
    (* an error response: a body with at most a [message] field *)
| NoResponse.
    (* network failure *)
Arguments Replied {A} status body.
Arguments Refused {A} status message Hstatus.
Arguments NoResponse {A}.

Definition Oracle (A : Type) : Type := list NetCall → NetCall → Outcome A.

Record Response (A : Type) := { status : Z; body : A }.
Arguments status {A} r.
Arguments body {A} r.

(** [err.response]: the status and [err.response.data.message]. *)
Record ErrorResponse := { err_status : Z; err_message : option string }.

Inductive Failure :=
| AxiosError (config : Config) (response : option ErrorResponse)
| OtherError (message : string).

Definition isAxiosError (e : Failure) : bool :=
  match e with AxiosError _ _ => true | OtherError _ => false end.

(** A promise once the call that made it has run: [Pending] is a promise
    that never settles. *)
Inductive Settled (A : Type) :=
| Resolved (response : Response A)
| Rejected (error : Failure)
| Pending.
Arguments Resolved {A} response.
Arguments Rejected {A} error.
Arguments Pending {A}.

(** ** Data model *)

Record TokenPair := { accessToken : string; refreshToken : string }.

Record User := { username : string; displayName : string; role : string }.

Record Device := {
  deviceId : string;
  name : string;
  location : string;
  dev_status : string;
  type : string;
  registeredAt : option string
}.

Record SensorData := {
  sd_deviceId : string;
  sensorType : string;
  value : Z;
  timestamp : string
}.

Record Alert := {
  al_deviceId : string;
  al_timestamp : string;
  al_sensorType : string;
  al_message : string;
  severity : string;
  al_value : Z
}.

Record DeviceEvent := {
  ev_deviceId : string;
  eventTime : string;
  description : string;
  eventType : string
}.

Record Analytics := {
  an_deviceId : string;
  analysisDate : string;
  an_sensorType : string;
  avgValue : Z;
  dataPoints : Z;
  maxValue : Z;
  minValue : Z;
  predictedValue : option Z;
  processedAt : string
}.

Record SensorThreshold := {
  th_sensorType : string;
  th_minValue : Z;
  th_maxValue : Z
}.

Record NewDevice := {
  nd_deviceId : string;
  nd_name : string;
  nd_location : string;
  nd_type : string;
  nd_status : string
}.

(** ** Requests in flight

    A request sent by a call that is not awaited.  The function that sent it
    has returned; what it does after its [await] runs when the reply is
    delivered.  A task holds the reply, as axios settled what the oracle
    answered when the request was sent, and the state variables the rest of
    the function reads from its closure. *)
Inductive Task :=
| ProfileRequest (reply : Settled User)
| DevicesRequest (selectedDeviceId : string) (reply : Settled (list Device))
| AlertsRequest (reply : Settled (option (list Alert)))
| EventsRequest (reply : Settled (option (list DeviceEvent)))
| ThresholdsRequest (reply : Settled (option (list SensorThreshold)))
| LatestRequest (selectedSensorType : string)
    (reply : Settled (list SensorData + SensorData))
| AnalyticsRequest (reply : Settled (list Analytics + Analytics))
| HistoryRequest (selectedSensorType : string)
    (reply : Settled (list SensorData + SensorData)).

(** ** The browser *)

Inductive FeedKind :=
| AlertsFeed
| EventsFeed
| SensorFeed (selectedSensorType : string).
    (* the sensor type the [onmessage] closure captured *)

(** [new EventSource(url)] and [eventSource.close()]; the handle of a source
    is the number of sources opened before it. *)
Inductive FeedOp :=
| FOpen (kind : FeedKind) (url : string)
| FClose (handle : nat).

Record World := {
  localStorage : gmap string string;
  location_href : string;
  net_log : list NetCall;        (* newest first *)
  feed_log : list FeedOp;        (* newest first *)
  console : list string;         (* console.error, newest first *)
  alert_log : list string;       (* newest first *)
  in_flight : list Task          (* requests not awaited, oldest first *)
}.

Definition with_localStorage (ls : gmap string string) (w : World) : World :=
  {| localStorage := ls; location_href := location_href w;
     net_log := net_log w; feed_log := feed_log w;
     console := console w; alert_log := alert_log w;
     in_flight := in_flight w |}.

Definition with_href (h : string) (w : World) : World :=
  {| localStorage := localStorage w; location_href := h;
     net_log := net_log w; feed_log := feed_log w;
     console := console w; alert_log := alert_log w;
     in_flight := in_flight w |}.

Definition with_net_log (l : list NetCall) (w : World) : World :=
  {| localStorage := localStorage w; location_href := location_href w;
     net_log := l; feed_log := feed_log w;
     console := console w; alert_log := alert_log w;
     in_flight := in_flight w |}.

Definition with_feed_log (l : list FeedOp) (w : World) : World :=
  {| localStorage := localStorage w; location_href := location_href w;
     net_log := net_log w; feed_log := l;
     console := console w; alert_log := alert_log w;
     in_flight := in_flight w |}.

Definition console_error (msg : string) (w : World) : World :=
  {| localStorage := localStorage w; location_href := location_href w;
     net_log := net_log w; feed_log := feed_log w;
     console := msg :: console w; alert_log := alert_log w;
     in_flight := in_flight w |}.

Definition alert (msg : string) (w : World) : World :=
  {| localStorage := localStorage w; location_href := location_href w;
     net_log := net_log w; feed_log := feed_log w;
     console := console w; alert_log := msg :: alert_log w;
     in_flight := in_flight w |}.

Definition with_in_flight (l : list Task) (w : World) : World :=
  {| localStorage := localStorage w; location_href := location_href w;
     net_log := net_log w; feed_log := feed_log w;
     console := console w; alert_log := alert_log w; in_flight := l |}.

(** The request of a call that is not awaited joins those in flight. *)
Definition enqueue (t : Task) (w : World) : World :=
  with_in_flight (in_flight w ++ [t]) w.

Definition getItem (key : string) (w : World) : option string :=
  localStorage w !! key.

Definition setItem (key val : string) (w : World) : World :=
  with_localStorage (<[key := val]> (localStorage w)) w.

Definition clear (w : World) : World := with_localStorage ∅ w.

(** JavaScript truthiness of a string. *)
Definition nonempty (s : string) : bool :=
  match s with EmptyString => false | String _ _ => true end.

(** Truthiness of what [localStorage.getItem] returns: [null] and the empty
    string are falsy. *)
Definition truthy (o : option string) : bool :=
  match o with Some s => nonempty s | None => false end.

(** [a || b] where [a] is a string or [undefined]. *)
Definition js_or (a : option string) (b : string) : string :=
  match a with
  | Some s => if nonempty s then s else b
  | None => b
  end.

(** ** The backend *)

Record Timestamps := {
  ts_now : string;
  ts_week_ago : string;
  ts_today : string
}.

(** An optional body is [None] when the body is falsy; a body that is an
    array or a single object is a sum. *)
Class Backend := {
  API_BASE : string;
  (* POST /auth/refresh *)
  refresh_api : Oracle TokenPair;
  (* POST /auth/login *)
  login_api : Oracle (option TokenPair);
  (* POST /auth/logout *)
  logout_api : Oracle unit;
  (* GET /auth/profile *)
  profile_api : Oracle User;
  (* GET /devices *)
  devices_api : Oracle (list Device);
  (* POST /devices *)
  create_device_api : Oracle unit;
  (* GET /sensor-data/:id/latest *)
  latest_api : Oracle (list SensorData + SensorData);
  (* GET /sensor-data/:id?date= *)
  history_api : Oracle (list SensorData + SensorData);
  (* GET /alerts *)
  alerts_api : Oracle (option (list Alert));
  (* GET /device-events?start=&end= *)
  events_api : Oracle (option (list DeviceEvent));
  (* GET /analytics/:id?date= *)
  analytics_api : Oracle (list Analytics + Analytics);
  (* GET /sensor-thresholds *)
  thresholds_api : Oracle (option (list SensorThreshold));
  (* DELETE /devices/:id *)
  delete_device_api : Oracle unit;
  (* JSON.parse on a feed payload: [None] when it throws *)
  parse_alert : string → option Alert;
  parse_event : string → option DeviceEvent;
  parse_sensor : string → option SensorData;
  (* JSON.stringify *)
  stringify_user : User → string;
  (* new Date(), as the strings the requests are built from *)
  clock : list NetCall → Timestamps
}.

(** ** Authenticated request gateway *)

Section Gateway.
Context `{B : Backend}.

Definition wire (via : Via) (base : string) (config : Config) : NetCall :=
  {| nc_via := via; nc_method := method config;
     nc_url := base +:+ url config;
     nc_auth := Authorization config; nc_body := data config |}.

(** How axios settles the promise of a request: by [validateStatus] when
    there is a response. *)
Definition settle {A} (config : Config) (o : Outcome A) : Settled A :=
  match o with
  | Replied s b =>
      if validateStatus s
      then Resolved {| status := s; body := b |}
      else Rejected (AxiosError config
             (Some {| err_status := s; err_message := None |}))
  | Refused s m _ =>
      Rejected (AxiosError config
        (Some {| err_status := s; err_message := m |}))
  | NoResponse => Rejected (AxiosError config None)
  end.

(** Sending a request: the call is put on the wire and the oracle
    answers. *)
Definition dispatch {A} (api : Oracle A) (via : Via) (base : string)
    (config : Config) (w : World) : Settled A * World :=
  let call := wire via base config in
  (settle config (api (net_log w) call),
   with_net_log (call :: net_log w) w).

(** [axios.post(url, data)] on the bare import: no base URL, no
    interceptor. *)
Definition axios_post {A} (api : Oracle A) (url : string)
    (data : RequestBody) (w : World) : Settled A * World :=
  dispatch api ViaAxios ""
    {| method := POST; url := url; data := data;
       Authorization := None; _retry := false |} w.

(** [config._retry = true]. *)
Definition mark_retry (c : Config) : Config :=
  {| method := method c; url := url c; data := data c;
     Authorization := Authorization c; _retry := true |}.

(** [config.headers.Authorization = ...]. *)
Definition set_Authorization (h : string) (c : Config) : Config :=
  {| method := method c; url := url c; data := data c;
     Authorization := Some h; _retry := _retry c |}.

(** Request interceptor. *)
Definition request_interceptor (config : Config) (w : World) : Config :=
  let token := getItem "accessToken" w in
  if truthy token
  then set_Authorization ("Bearer " +:+ default "" token) config
  else config.

Definition status_is (code : Z) (response : option ErrorResponse) : bool :=
  match response with
  | Some r => err_status r =? code
  | None => false
  end.

(** The [try] block of the response interceptor up to the [await]: read
    both tokens, throw when one is missing, else post them. *)
Definition refresh_tokens (w : World) : Settled TokenPair * World :=
  let refreshToken := getItem "refreshToken" w in
  let accessToken := getItem "accessToken" w in
  if negb (truthy refreshToken) || negb (truthy accessToken) then
    (Rejected (OtherError "No tokens available"), w)
  else
    axios_post refresh_api (API_BASE +:+ "/auth/refresh")
      (RefreshBody (default "" refreshToken) (default "" accessToken)) w.

(** The [catch (refreshError)] block of the response interceptor. *)
Definition refresh_failed {A} (refreshError : Failure) (w : World)
    : Settled A * World :=
  let w := clear w in
  let w := with_href "/" w in
  (Rejected refreshError, w).

(** Response interceptor, rejection handler.  [axiosInstance] is the
    instance itself, called on the original request after a refresh; the
    promise it returns is returned without [await], so its rejection does
    not reach the [catch]. *)
Definition response_rejected {A}
    (axiosInstance : Config → World → Settled A * World)
    (error : Failure) (w : World) : Settled A * World :=
  match error with
  | AxiosError originalRequest response =>
      if status_is 401 response && negb (_retry originalRequest) then
        let originalRequest := mark_retry originalRequest in
        match refresh_tokens w with
        | (Resolved response, w) =>
            let '{| accessToken := newAccessToken;
                    refreshToken := newRefreshToken |} := body response in
            let w := setItem "accessToken" newAccessToken w in
            let w := setItem "refreshToken" newRefreshToken w in
            let originalRequest :=
              set_Authorization ("Bearer " +:+ newAccessToken)
                originalRequest in
            axiosInstance originalRequest w
        | (Rejected refreshError, w) => refresh_failed refreshError w
        | (Pending, w) => (Pending, w)
        end
      else (Rejected error, w)
  | OtherError _ => (Rejected error, w)
  end.

(** [axiosInstance(config)]: request interceptor, dispatch, response
    interceptor.  [fuel] bounds the nesting of calls the response
    interceptor makes to the instance; a call out of fuel is a promise that
    never settles. *)
Fixpoint axiosInstance_fuel {A} (fuel : nat) (api : Oracle A)
    (config : Config) (w : World) : Settled A * World :=
  match fuel with
  | O => (Pending, w)
  | S fuel =>
      let config := request_interceptor config w in
      match dispatch api ViaInstance API_BASE config w with
      | (Resolved response, w) => (Resolved response, w)
      | (Rejected error, w) =>
          response_rejected (axiosInstance_fuel fuel api) error w
      | (Pending, w) => (Pending, w)
      end
  end.

(** Two levels are all the interceptor ever uses
    (see [axiosInstance_fuel_enough]). *)
Definition axiosInstance {A} (api : Oracle A) (config : Config) (w : World)
    : Settled A * World :=
  axiosInstance_fuel 2 api config w.

Definition request (m : Method) (path : string) (d : RequestBody) : Config :=
  {| method := m; url := path; data := d;
     Authorization := None; _retry := false |}.

(** [axiosInstance(config)] in a call that is not awaited.  The request
    interceptor runs and the request goes on the wire as soon as the code
    that made the call has returned, before any other turn of the event
    loop, and that code writes nothing to the store in between: so the
    request is sent at the call.  The reply is settled by axios and kept;
    the response interceptor runs when it is delivered, on the store as it
    is then.  Sending and delivering at once is [axiosInstance]
    (see [axiosInstance_split]). *)
Definition axiosInstance_send {A} (api : Oracle A) (config : Config)
    (w : World) : Settled A * World :=
  dispatch api ViaInstance API_BASE (request_interceptor config w) w.

Definition axiosInstance_deliver {A} (api : Oracle A) (reply : Settled A)
    (w : World) : Settled A * World :=
  match reply with
  | Resolved response => (Resolved response, w)
  | Rejected error => response_rejected (axiosInstance_fuel 1 api) error w
  | Pending => (Pending, w)
  end.

End Gateway.

(** ** Component state *)

(** State of [LoginPage]. *)
Record LoginPage := {
  lp_username : string;
  lp_password : string;
  error : string;
  loading : bool
}.

Definition LoginPage_initial : LoginPage :=
  {| lp_username := ""; lp_password := ""; error := ""; loading := false |}.

Definition setError (msg : string) (p : LoginPage) : LoginPage :=
  {| lp_username := lp_username p; lp_password := lp_password p;
     error := msg; loading := loading p |}.

Definition setLoading (b : bool) (p : LoginPage) : LoginPage :=
  {| lp_username := lp_username p; lp_password := lp_password p;
     error := error p; loading := b |}.

(** State and refs of [Dashboard] ([tab], [showEditDevice] and
    [editingDevice], which no function below reads or writes, are left
    out).  A ref holds the handle of an [EventSource] or [null]. *)
Record Dashboard := {
  isAuthenticated : bool;
  user : option User;
  devices : list Device;
  selectedDeviceId : string;
  selectedSensorType : string;
  sensorTypes : list string;
  latestData : list SensorData;
  alerts : list Alert;
  deviceEvents : list DeviceEvent;
  analytics : list Analytics;
  sensorHistory : list SensorData;
  thresholds : list SensorThreshold;
  showAddDevice : bool;
  newDevice : NewDevice;
  alertsSSERef : option nat;
  sensorSSERef : option nat;
  eventsSSERef : option nat
}.

Definition newDevice_initial : NewDevice :=
  {| nd_deviceId := ""; nd_name := ""; nd_location := "";
     nd_type := "TemperatureSensor"; nd_status := "Active" |}.

Definition Dashboard_initial : Dashboard :=
  {| isAuthenticated := false; user := None; devices := [];
     selectedDeviceId := ""; selectedSensorType := ""; sensorTypes := [];
     latestData := []; alerts := []; deviceEvents := []; analytics := [];
     sensorHistory := []; thresholds := []; showAddDevice := false;
     newDevice := newDevice_initial;
     alertsSSERef := None; sensorSSERef := None; eventsSSERef := None |}.

Definition setIsAuthenticated (x : bool) (s : Dashboard) : Dashboard :=
  {| isAuthenticated := x; user := user s; devices := devices s;
     selectedDeviceId := selectedDeviceId s;
     selectedSensorType := selectedSensorType s;
     sensorTypes := sensorTypes s; latestData := latestData s;
     alerts := alerts s; deviceEvents := deviceEvents s;
     analytics := analytics s; sensorHistory := sensorHistory s;
     thresholds := thresholds s; showAddDevice := showAddDevice s;
     newDevice := newDevice s; alertsSSERef := alertsSSERef s;
     sensorSSERef := sensorSSERef s; eventsSSERef := eventsSSERef s |}.

Definition setUser (x : option User) (s : Dashboard) : Dashboard :=
  {| isAuthenticated := isAuthenticated s; user := x; devices := devices s;
     selectedDeviceId := selectedDeviceId s;
     selectedSensorType := selectedSensorType s;
     sensorTypes := sensorTypes s; latestData := latestData s;
     alerts := alerts s; deviceEvents := deviceEvents s;
     analytics := analytics s; sensorHistory := sensorHistory s;
     thresholds := thresholds s; showAddDevice := showAddDevice s;
     newDevice := newDevice s; alertsSSERef := alertsSSERef s;
     sensorSSERef := sensorSSERef s; eventsSSERef := eventsSSERef s |}.

Definition setDevices (x : list Device) (s : Dashboard) : Dashboard :=
  {| isAuthenticated := isAuthenticated s; user := user s; devices := x;
     selectedDeviceId := selectedDeviceId s;
     selectedSensorType := selectedSensorType s;
     sensorTypes := sensorTypes s; latestData := latestData s;
     alerts := alerts s; deviceEvents := deviceEvents s;
     analytics := analytics s; sensorHistory := sensorHistory s;
     thresholds := thresholds s; showAddDevice := showAddDevice s;
     newDevice := newDevice s; alertsSSERef := alertsSSERef s;
     sensorSSERef := sensorSSERef s; eventsSSERef := eventsSSERef s |}.

Definition setSelectedDeviceId (x : string) (s : Dashboard) : Dashboard :=
  {| isAuthenticated := isAuthenticated s; user := user s;
     devices := devices s; selectedDeviceId := x;
     selectedSensorType := selectedSensorType s;
     sensorTypes := sensorTypes s; latestData := latestData s;
     alerts := alerts s; deviceEvents := deviceEvents s;
     analytics := analytics s; sensorHistory := sensorHistory s;
     thresholds := thresholds s; showAddDevice := showAddDevice s;
     newDevice := newDevice s; alertsSSERef := alertsSSERef s;
     sensorSSERef := sensorSSERef s; eventsSSERef := eventsSSERef s |}.

Definition setSelectedSensorType (x : string) (s : Dashboard) : Dashboard :=
  {| isAuthenticated := isAuthenticated s; user := user s;
     devices := devices s; selectedDeviceId := selectedDeviceId s;
     selectedSensorType := x;
     sensorTypes := sensorTypes s; latestData := latestData s;
     alerts := alerts s; deviceEvents := deviceEvents s;
     analytics := analytics s; sensorHistory := sensorHistory s;
     thresholds := thresholds s; showAddDevice := showAddDevice s;
     newDevice := newDevice s; alertsSSERef := alertsSSERef s;
     sensorSSERef := sensorSSERef s; eventsSSERef := eventsSSERef s |}.

Definition setSensorTypes (x : list string) (s : Dashboard) : Dashboard :=
  {| isAuthenticated := isAuthenticated s; user := user s;
     devices := devices s; selectedDeviceId := selectedDeviceId s;
     selectedSensorType := selectedSensorType s;
     sensorTypes := x; latestData := latestData s;
     alerts := alerts s; deviceEvents := deviceEvents s;
     analytics := analytics s; sensorHistory := sensorHistory s;
     thresholds := thresholds s; showAddDevice := showAddDevice s;
     newDevice := newDevice s; alertsSSERef := alertsSSERef s;
     sensorSSERef := sensorSSERef s; eventsSSERef := eventsSSERef s |}.

Definition setLatestData (x : list SensorData) (s : Dashboard) : Dashboard :=
  {| isAuthenticated := isAuthenticated s; user := user s;
     devices := devices s; selectedDeviceId := selectedDeviceId s;
     selectedSensorType := selectedSensorType s;
     sensorTypes := sensorTypes s; latestData := x;
     alerts := alerts s; deviceEvents := deviceEvents s;
     analytics := analytics s; sensorHistory := sensorHistory s;
     thresholds := thresholds s; showAddDevice := showAddDevice s;
     newDevice := newDevice s; alertsSSERef := alertsSSERef s;
     sensorSSERef := sensorSSERef s; eventsSSERef := eventsSSERef s |}.

Definition setAlerts (x : list Alert) (s : Dashboard) : Dashboard :=
  {| isAuthenticated := isAuthenticated s; user := user s;
     devices := devices s; selectedDeviceId := selectedDeviceId s;
     selectedSensorType := selectedSensorType s;
     sensorTypes := sensorTypes s; latestData := latestData s;
     alerts := x; deviceEvents := deviceEvents s;
     analytics := analytics s; sensorHistory := sensorHistory s;
     thresholds := thresholds s; showAddDevice := showAddDevice s;
     newDevice := newDevice s; alertsSSERef := alertsSSERef s;
     sensorSSERef := sensorSSERef s; eventsSSERef := eventsSSERef s |}.

Definition setDeviceEvents (x : list DeviceEvent) (s : Dashboard) : Dashboard :=
  {| isAuthenticated := isAuthenticated s; user := user s;
     devices := devices s; selectedDeviceId := selectedDeviceId s;
     selectedSensorType := selectedSensorType s;
     sensorTypes := sensorTypes s; latestData := latestData s;
     alerts := alerts s; deviceEvents := x;
     analytics := analytics s; sensorHistory := sensorHistory s;
     thresholds := thresholds s; showAddDevice := showAddDevice s;
     newDevice := newDevice s; alertsSSERef := alertsSSERef s;
     sensorSSERef := sensorSSERef s; eventsSSERef := eventsSSERef s |}.

Definition setAnalytics (x : list Analytics) (s : Dashboard) : Dashboard :=
  {| isAuthenticated := isAuthenticated s; user := user s;
     devices := devices s; selectedDeviceId := selectedDeviceId s;
     selectedSensorType := selectedSensorType s;
     sensorTypes := sensorTypes s; latestData := latestData s;
     alerts := alerts s; deviceEvents := deviceEvents s;
     analytics := x; sensorHistory := sensorHistory s;
     thresholds := thresholds s; showAddDevice := showAddDevice s;
     newDevice := newDevice s; alertsSSERef := alertsSSERef s;
     sensorSSERef := sensorSSERef s; eventsSSERef := eventsSSERef s |}.

Definition setSensorHistory (x : list SensorData) (s : Dashboard) : Dashboard :=
  {| isAuthenticated := isAuthenticated s; user := user s;
     devices := devices s; selectedDeviceId := selectedDeviceId s;
     selectedSensorType := selectedSensorType s;
     sensorTypes := sensorTypes s; latestData := latestData s;
     alerts := alerts s; deviceEvents := deviceEvents s;
     analytics := analytics s; sensorHistory := x;
     thresholds := thresholds s; showAddDevice := showAddDevice s;
     newDevice := newDevice s; alertsSSERef := alertsSSERef s;
     sensorSSERef := sensorSSERef s; eventsSSERef := eventsSSERef s |}.

Definition setThresholds (x : list SensorThreshold) (s : Dashboard)
    : Dashboard :=
  {| isAuthenticated := isAuthenticated s; user := user s;
     devices := devices s; selectedDeviceId := selectedDeviceId s;
     selectedSensorType := selectedSensorType s;
     sensorTypes := sensorTypes s; latestData := latestData s;
     alerts := alerts s; deviceEvents := deviceEvents s;
     analytics := analytics s; sensorHistory := sensorHistory s;
     thresholds := x; showAddDevice := showAddDevice s;
     newDevice := newDevice s; alertsSSERef := alertsSSERef s;
     sensorSSERef := sensorSSERef s; eventsSSERef := eventsSSERef s |}.

Definition setShowAddDevice (x : bool) (s : Dashboard) : Dashboard :=
  {| isAuthenticated := isAuthenticated s; user := user s;
     devices := devices s; selectedDeviceId := selectedDeviceId s;
     selectedSensorType := selectedSensorType s;
     sensorTypes := sensorTypes s; latestData := latestData s;
     alerts := alerts s; deviceEvents := deviceEvents s;
     analytics := analytics s; sensorHistory := sensorHistory s;
     thresholds := thresholds s; showAddDevice := x;
     newDevice := newDevice s; alertsSSERef := alertsSSERef s;
     sensorSSERef := sensorSSERef s; eventsSSERef := eventsSSERef s |}.

Definition setNewDevice (x : NewDevice) (s : Dashboard) : Dashboard :=
  {| isAuthenticated := isAuthenticated s; user := user s;
     devices := devices s; selectedDeviceId := selectedDeviceId s;
     selectedSensorType := selectedSensorType s;
     sensorTypes := sensorTypes s; latestData := latestData s;
     alerts := alerts s; deviceEvents := deviceEvents s;
     analytics := analytics s; sensorHistory := sensorHistory s;
     thresholds := thresholds s; showAddDevice := showAddDevice s;
     newDevice := x; alertsSSERef := alertsSSERef s;
     sensorSSERef := sensorSSERef s; eventsSSERef := eventsSSERef s |}.

Definition set_alertsSSERef (x : option nat) (s : Dashboard) : Dashboard :=
  {| isAuthenticated := isAuthenticated s; user := user s;
     devices := devices s; selectedDeviceId := selectedDeviceId s;
     selectedSensorType := selectedSensorType s;
     sensorTypes := sensorTypes s; latestData := latestData s;
     alerts := alerts s; deviceEvents := deviceEvents s;
     analytics := analytics s; sensorHistory := sensorHistory s;
     thresholds := thresholds s; showAddDevice := showAddDevice s;
     newDevice := newDevice s; alertsSSERef := x;
     sensorSSERef := sensorSSERef s; eventsSSERef := eventsSSERef s |}.

Definition set_sensorSSERef (x : option nat) (s : Dashboard) : Dashboard :=
  {| isAuthenticated := isAuthenticated s; user := user s;
     devices := devices s; selectedDeviceId := selectedDeviceId s;
     selectedSensorType := selectedSensorType s;
     sensorTypes := sensorTypes s; latestData := latestData s;
     alerts := alerts s; deviceEvents := deviceEvents s;
     analytics := analytics s; sensorHistory := sensorHistory s;
     thresholds := thresholds s; showAddDevice := showAddDevice s;
     newDevice := newDevice s; alertsSSERef := alertsSSERef s;
     sensorSSERef := x; eventsSSERef := eventsSSERef s |}.

Definition set_eventsSSERef (x : option nat) (s : Dashboard) : Dashboard :=
  {| isAuthenticated := isAuthenticated s; user := user s;
     devices := devices s; selectedDeviceId := selectedDeviceId s;
     selectedSensorType := selectedSensorType s;
     sensorTypes := sensorTypes s; latestData := latestData s;
     alerts := alerts s; deviceEvents := deviceEvents s;
     analytics := analytics s; sensorHistory := sensorHistory s;
     thresholds := thresholds s; showAddDevice := showAddDevice s;
     newDevice := newDevice s; alertsSSERef := alertsSSERef s;
     sensorSSERef := sensorSSERef s; eventsSSERef := x |}.

(** ** Array helpers *)

(** [xs.slice(-n)]: the last [n] elements. *)
Definition slice_last {A} (n : nat) (xs : list A) : list A :=
  drop (length xs - n) xs.

(** [[...new Set(xs)]]: first occurrences, in order. *)
Definition uniq (xs : list string) : list string :=
  fold_left
    (λ acc x, if bool_decide (x ∈ acc) then acc else acc ++ [x]) xs [].

(** [Array.isArray(res.data) ? res.data : [res.data]]. *)
Definition as_array {A} (d : list A + A) : list A :=
  match d with inl xs => xs | inr x => [x] end.

(** ** Event sources *)

Definition is_FOpen (op : FeedOp) : bool :=
  match op with FOpen _ _ => true | FClose _ => false end.

Definition next_handle (log : list FeedOp) : nat :=
  length (List.filter is_FOpen log).

(** The sources that are open after the operations of a log, with their
    handles. *)
Fixpoint open_feeds (log : list FeedOp) : list (nat * FeedKind) :=
  match log with
  | [] => []
  | FOpen k _ :: log => (next_handle log, k) :: open_feeds log
  | FClose h :: log =>
      List.filter (λ p, negb (Nat.eqb (fst p) h)) (open_feeds log)
  end.

Definition new_EventSource (kind : FeedKind) (url : string) (w : World)
    : nat * World :=
  (next_handle (feed_log w),
   with_feed_log (FOpen kind url :: feed_log w) w).

Definition close (h : nat) (w : World) : World :=
  with_feed_log (FClose h :: feed_log w) w.

(** ** The Dashboard component *)

Section Component.
Context `{B : Backend}.

(** *** Feed handlers *)

Definition alerts_onmessage (data : string) (st : Dashboard) (w : World)
    : Dashboard * World :=
  match parse_alert data with
  | Some alert => (setAlerts (take 50 (alert :: alerts st)) st, w)
  | None => (st, console_error "Failed to parse alert SSE:" w)
  end.

Definition events_onmessage (data : string) (st : Dashboard) (w : World)
    : Dashboard * World :=
  match parse_event data with
  | Some deviceEvent =>
      (setDeviceEvents (take 50 (deviceEvent :: deviceEvents st)) st, w)
  | None => (st, console_error "Failed to parse event SSE:" w)
  end.

(** [selectedSensorType] is the value the closure captured when the source
    was set up. *)
Definition sensor_onmessage (selectedSensorType : string) (data : string)
    (st : Dashboard) (w : World) : Dashboard * World :=
  match parse_sensor data with
  | Some sensorData =>
      let filtered :=
        List.filter
          (λ d, negb (String.eqb (sensorType d) (sensorType sensorData)))
          (latestData st) in
      let st := setLatestData (filtered ++ [sensorData]) st in
      if String.eqb (sensorType sensorData) selectedSensorType
      then (setSensorHistory
              (slice_last 100 (sensorHistory st ++ [sensorData])) st, w)
      else (st, w)
  | None => (st, console_error "Failed to parse sensor SSE:" w)
  end.

Definition onmessage (kind : FeedKind) : string → Dashboard → World
    → Dashboard * World :=
  match kind with
  | AlertsFeed => alerts_onmessage
  | EventsFeed => events_onmessage
  | SensorFeed captured => sensor_onmessage captured
  end.

Definition onerror (kind : FeedKind) (h : nat) (w : World) : World :=
  let w :=
    console_error
      match kind with
      | AlertsFeed => "Alerts SSE error:"
      | EventsFeed => "Events SSE error:"
      | SensorFeed _ => "Sensor SSE error:"
      end w in
  close h w.

(** *** Feed set-up and tear-down

    [r] is the render whose closure the function belongs to: state
    variables are read from [r], refs and [localStorage] are read live. *)

Definition close_current (ref : option nat) (w : World) : World :=
  match ref with Some h => close h w | None => w end.

Definition setupAlertsSSE (st : Dashboard) (w : World) : Dashboard * World :=
  let token := getItem "accessToken" w in
  if negb (truthy token) then (st, w) else
  let w := close_current (alertsSSERef st) w in
  let '(eventSource, w) :=
    new_EventSource AlertsFeed (API_BASE +:+ "/alerts/sse") w in
  (set_alertsSSERef (Some eventSource) st, w).

Definition setupEventsSSE (st : Dashboard) (w : World) : Dashboard * World :=
  let token := getItem "accessToken" w in
  if negb (truthy token) then (st, w) else
  let w := close_current (eventsSSERef st) w in
  let '(eventSource, w) :=
    new_EventSource EventsFeed (API_BASE +:+ "/device-events/sse") w in
  (set_eventsSSERef (Some eventSource) st, w).

Definition setupSensorSSE (r : Dashboard) (st : Dashboard) (w : World)
    : Dashboard * World :=
  if negb (nonempty (selectedDeviceId r)) then (st, w) else
  let token := getItem "accessToken" w in
  if negb (truthy token) then (st, w) else
  let w := close_current (sensorSSERef st) w in
  let '(eventSource, w) :=
    new_EventSource (SensorFeed (selectedSensorType r))
      (API_BASE +:+ "/sensor-data/" +:+ selectedDeviceId r +:+ "/sse") w in
  (set_sensorSSERef (Some eventSource) st, w).

Definition closeSSEConnections (st : Dashboard) (w : World)
    : Dashboard * World :=
  let '(st, w) :=
    match alertsSSERef st with
    | Some h => (set_alertsSSERef None st, close h w)
    | None => (st, w)
    end in
  let '(st, w) :=
    match sensorSSERef st with
    | Some h => (set_sensorSSERef None st, close h w)
    | None => (st, w)
    end in
  match eventsSSERef st with
  | Some h => (set_eventsSSERef None st, close h w)
  | None => (st, w)
  end.

(** *** Fetches

    Each fetch is an [async] function with a single [await], on its
    request.  [f_start] is the function up to the [await], in a call that is
    not awaited: the request is sent and put in flight.  [f_then] is the
    function after the [await], given what the promise of the request
    settled to.  A fetch the component awaits ([fetchUserProfile], in
    [handleLoginSuccess]) runs as a whole. *)

Definition fetchUserProfile_then (settled : Settled User) (st : Dashboard)
    (w : World) : Dashboard * World :=
  match settled with
  | Resolved res =>
      let st := setUser (Some (body res)) st in
      (st, setItem "user" (stringify_user (body res)) w)
  | Rejected err =>
      let w := console_error "Failed to fetch profile:" w in
      let w := clear w in
      (setIsAuthenticated false st, w)
  | Pending => (st, w)
  end.

Definition fetchUserProfile_start (w : World) : World :=
  let '(reply, w) :=
    axiosInstance_send profile_api (request GET "/auth/profile" NoBody) w in
  enqueue (ProfileRequest reply) w.

(** [await fetchUserProfile()]. *)
Definition fetchUserProfile (st : Dashboard) (w : World)
    : Dashboard * World :=
  let '(settled, w) :=
    axiosInstance profile_api (request GET "/auth/profile" NoBody) w in
  fetchUserProfile_then settled st w.

(** [selectedDeviceId] is the value in the closure of the call. *)
Definition fetchDevices_then (selectedDeviceId : string)
    (settled : Settled (list Device)) (st : Dashboard) (w : World)
    : Dashboard * World :=
  match settled with
  | Resolved res =>
      let st := setDevices (body res) st in
      match body res with
      | d :: _ =>
          if negb (nonempty selectedDeviceId)
          then (setSelectedDeviceId (deviceId d) st, w)
          else (st, w)
      | [] => (st, w)
      end
  | Rejected err => (st, console_error "Failed to fetch devices:" w)
  | Pending => (st, w)
  end.

Definition fetchDevices_start (r : Dashboard) (w : World) : World :=
  let '(reply, w) :=
    axiosInstance_send devices_api (request GET "/devices" NoBody) w in
  enqueue (DevicesRequest (selectedDeviceId r) reply) w.

(** [selectedSensorType] is the value in the closure of the call. *)
Definition fetchLatestData_then (selectedSensorType : string)
    (settled : Settled (list SensorData + SensorData)) (st : Dashboard)
    (w : World) : Dashboard * World :=
  match settled with
  | Resolved res =>
      let dataArray := as_array (body res) in
      let st := setLatestData dataArray st in
      let types := uniq (map sensorType dataArray) in
      let st := setSensorTypes types st in
      match types with
      | t :: _ =>
          if negb (nonempty selectedSensorType)
          then (setSelectedSensorType t st, w)
          else (st, w)
      | [] => (st, w)
      end
  | Rejected err => (st, console_error "Failed to fetch latest data:" w)
  | Pending => (st, w)
  end.

Definition fetchLatestData_start (r : Dashboard) (w : World) : World :=
  if negb (nonempty (selectedDeviceId r)) then w else
  let '(reply, w) :=
    axiosInstance_send latest_api
      (request GET ("/sensor-data/" +:+ selectedDeviceId r +:+ "/latest")
         NoBody) w in
  enqueue (LatestRequest (selectedSensorType r) reply) w.

(** [fetchLatestData] as a whole: the reply delivered as soon as the
    request is sent. *)
Definition fetchLatestData (r : Dashboard) (st : Dashboard) (w : World)
    : Dashboard * World :=
  if negb (nonempty (selectedDeviceId r)) then (st, w) else
  let '(settled, w) :=
    axiosInstance latest_api
      (request GET ("/sensor-data/" +:+ selectedDeviceId r +:+ "/latest")
         NoBody) w in
  fetchLatestData_then (selectedSensorType r) settled st w.

Definition fetchRecentAlerts_then (settled : Settled (option (list Alert)))
    (st : Dashboard) (w : World) : Dashboard * World :=
  match settled with
  | Resolved res => (setAlerts (default [] (body res)) st, w)
  | Rejected err =>
      let w := console_error "Failed to fetch alerts:" w in
      (setAlerts [] st, w)
  | Pending => (st, w)
  end.

Definition fetchRecentAlerts_start (w : World) : World :=
  let '(reply, w) :=
    axiosInstance_send alerts_api (request GET "/alerts" NoBody) w in
  enqueue (AlertsRequest reply) w.

Definition fetchRecentEvents_then
    (settled : Settled (option (list DeviceEvent))) (st : Dashboard)
    (w : World) : Dashboard * World :=
  match settled with
  | Resolved res => (setDeviceEvents (default [] (body res)) st, w)
  | Rejected err =>
      let w := console_error "Failed to fetch events:" w in
      (setDeviceEvents [] st, w)
  | Pending => (st, w)
  end.

Definition fetchRecentEvents_start (w : World) : World :=
  let now := clock (net_log w) in
  let '(reply, w) :=
    axiosInstance_send events_api
      (request GET ("/device-events?start=" +:+ ts_week_ago now
                    +:+ "&end=" +:+ ts_now now) NoBody) w in
  enqueue (EventsRequest reply) w.

Definition fetchAnalytics_then
    (settled : Settled (list Analytics + Analytics)) (st : Dashboard)
    (w : World) : Dashboard * World :=
  match settled with
  | Resolved res => (setAnalytics (as_array (body res)) st, w)
  | Rejected err =>
      let w := console_error "Failed to fetch analytics:" w in
      (setAnalytics [] st, w)
  | Pending => (st, w)
  end.

Definition fetchAnalytics_start (r : Dashboard) (w : World) : World :=
  if negb (nonempty (selectedDeviceId r)) then w else
  let today := ts_today (clock (net_log w)) in
  let '(reply, w) :=
    axiosInstance_send analytics_api
      (request GET ("/analytics/" +:+ selectedDeviceId r
                    +:+ "?date=" +:+ today) NoBody) w in
  enqueue (AnalyticsRequest reply) w.

(** [selectedSensorType] is the value in the closure of the call. *)
Definition fetchSensorHistory_then (selectedSensorType : string)
    (settled : Settled (list SensorData + SensorData)) (st : Dashboard)
    (w : World) : Dashboard * World :=
  match settled with
  | Resolved res =>
      let data := as_array (body res) in
      (setSensorHistory
         (List.filter
            (λ s, String.eqb (sensorType s) selectedSensorType) data)
         st, w)
  | Rejected err =>
      let w := console_error "Failed to fetch sensor history:" w in
      (setSensorHistory [] st, w)
  | Pending => (st, w)
  end.

Definition fetchSensorHistory_start (r : Dashboard) (w : World) : World :=
  if negb (nonempty (selectedDeviceId r)) then w else
  let today := ts_today (clock (net_log w)) in
  let '(reply, w) :=
    axiosInstance_send history_api
      (request GET ("/sensor-data/" +:+ selectedDeviceId r
                    +:+ "?date=" +:+ today) NoBody) w in
  enqueue (HistoryRequest (selectedSensorType r) reply) w.

Definition fetchThresholds_then
    (settled : Settled (option (list SensorThreshold))) (st : Dashboard)
    (w : World) : Dashboard * World :=
  match settled with
  | Resolved res => (setThresholds (default [] (body res)) st, w)
  | Rejected err => (st, console_error "Failed to fetch thresholds:" w)
  | Pending => (st, w)
  end.

Definition fetchThresholds_start (w : World) : World :=
  let '(reply, w) :=
    axiosInstance_send thresholds_api
      (request GET "/sensor-thresholds" NoBody) w in
  enqueue (ThresholdsRequest reply) w.

(** The reply to a request in flight is delivered: the response interceptor
    runs, then the rest of the function that sent the request. *)
Definition resume (t : Task) (st : Dashboard) (w : World)
    : Dashboard * World :=
  match t with
  | ProfileRequest reply =>
      let '(settled, w) := axiosInstance_deliver profile_api reply w in
      fetchUserProfile_then settled st w
  | DevicesRequest selectedDeviceId reply =>
      let '(settled, w) := axiosInstance_deliver devices_api reply w in
      fetchDevices_then selectedDeviceId settled st w
  | AlertsRequest reply =>
      let '(settled, w) := axiosInstance_deliver alerts_api reply w in
      fetchRecentAlerts_then settled st w
  | EventsRequest reply =>
      let '(settled, w) := axiosInstance_deliver events_api reply w in
      fetchRecentEvents_then settled st w
  | ThresholdsRequest reply =>
      let '(settled, w) := axiosInstance_deliver thresholds_api reply w in
      fetchThresholds_then settled st w
  | LatestRequest selectedSensorType reply =>
      let '(settled, w) := axiosInstance_deliver latest_api reply w in
      fetchLatestData_then selectedSensorType settled st w
  | AnalyticsRequest reply =>
      let '(settled, w) := axiosInstance_deliver analytics_api reply w in
      fetchAnalytics_then settled st w
  | HistoryRequest selectedSensorType reply =>
      let '(settled, w) := axiosInstance_deliver history_api reply w in
      fetchSensorHistory_then selectedSensorType settled st w
  end.

(** The reply to the [i]-th request in flight arrives. *)
Definition deliver (i : nat) (st : Dashboard) (w : World)
    : Dashboard * World :=
  match in_flight w !! i with
  | Some t => resume t st (with_in_flight (delete i (in_flight w)) w)
  | None => (st, w)
  end.

(** *** Session *)

Definition handleLoginSuccess (st : Dashboard) (w : World)
    : Dashboard * World :=
  let st := setIsAuthenticated true st in
  fetchUserProfile st w.

Definition handleLogout (st : Dashboard) (w : World) : Dashboard * World :=
  match axiosInstance logout_api (request POST "/auth/logout" NoBody) w with
  | (Pending, w) => (st, w)
  | (settled, w) =>
      let w :=
        match settled with
        | Rejected err => console_error "Logout error:" w
        | _ => w
        end in
      (* finally *)
      let '(st, w) := closeSSEConnections st w in
      let w := clear w in
      let st := setIsAuthenticated false st in
      let st := setUser None st in
      (st, w)
  end.

(** [LoginPage.handleLogin]; [onLogin] is [handleLoginSuccess]. *)
Definition handleLogin (p : LoginPage) (st : Dashboard) (w : World)
    : LoginPage * Dashboard * World :=
  let p := setError "" p in
  let p := setLoading true p in
  match axiosInstance login_api
          (request POST "/auth/login"
             (Credentials (lp_username p) (lp_password p))) w with
  | (Resolved response, w) =>
      match status response =? 200, body response with
      | true, Some tokens =>
          let w := setItem "accessToken" (accessToken tokens) w in
          let w := setItem "refreshToken" (refreshToken tokens) w in
          let w := setItem "isAuthenticated" "true" w in
          let '(st, w) := handleLoginSuccess st w in
          (setLoading false p, st, w)
      | _, _ =>
          let p := setError "Unexpected response from server." p in
          (setLoading false p, st, w)
      end
  | (Rejected err, w) =>
      let p :=
        match err with
        | AxiosError _ response =>
            let msg :=
              js_or (response ≫= err_message)
                (if status_is 404 response
                 then "Invalid username or password"
                 else "Login failed, please try again.") in
            setError msg p
        | OtherError _ => setError "Unexpected error occurred." p
        end in
      (setLoading false p, st, w)
  | (Pending, w) => (p, st, w)
  end.

(** *** Device form *)

Definition handleAddDevice (r : Dashboard) (st : Dashboard) (w : World)
    : Dashboard * World :=
  let newDevice := newDevice r in
  if negb (nonempty (nd_deviceId newDevice))
     || negb (nonempty (nd_name newDevice))
     || negb (nonempty (nd_location newDevice))
  then (st, alert "Please fill all required fields" w)
  else
    let formData :=
      DeviceForm (nd_deviceId newDevice) (nd_name newDevice)
        (nd_location newDevice) (nd_type newDevice) (nd_status newDevice) in
    match axiosInstance create_device_api
            (request POST "/devices" formData) w with
    | (Resolved response, w) =>
        if status response =? 204 then
          let w := fetchDevices_start r w in
          let st := setNewDevice newDevice_initial st in
          let st := setShowAddDevice false st in
          (st, alert "Device added successfully!" w)
        else (st, w)
    | (Rejected err, w) =>
        match err with
        | AxiosError _ response =>
            if status_is 409 response
            then (st, alert "Device ID already exists!" w)
            else if status_is 403 response
            then (st, alert "You do not have permission to add devices!" w)
            else (st, alert "Failed to add device!" w)
        | OtherError _ => (st, w)
        end
    | (Pending, w) => (st, w)
    end.

Definition handleDeleteDevice (confirmed : bool) (deviceId : string)
    (r : Dashboard) (st : Dashboard) (w : World) : Dashboard * World :=
  if negb confirmed then (st, w) else
  match axiosInstance delete_device_api
          (request DELETE ("/devices/" +:+ deviceId) NoBody) w with
  | (Resolved response, w) =>
      if status response =? 204 then
        let w := fetchDevices_start r w in
        let st :=
          if String.eqb (selectedDeviceId r) deviceId
          then setSelectedDeviceId "" st else st in
        (st, alert "Device deleted successfully!" w)
      else (st, w)
  | (Rejected err, w) =>
      match err with
      | AxiosError _ response =>
          if status_is 404 response
          then (st, alert "Device not found!" w)
          else if status_is 403 response
          then (st, alert "You do not have permission to delete devices!" w)
          else (st, alert "Failed to delete device!" w)
      | OtherError _ => (st, w)
      end
  | (Pending, w) => (st, w)
  end.

(** Device drop-down [onChange]. *)
Definition selectDevice (value : string) (st : Dashboard) : Dashboard :=
  let st := setSelectedDeviceId value st in
  let st := setSelectedSensorType "" st in
  setSensorTypes [] st.

End Component.

(** ** Effects and the event loop *)

#[global] Instance User_eq_dec : EqDecision User.
Proof. solve_decision. Defined.

Record App := {
  page : LoginPage;
  dash : Dashboard;
  rendered : option Dashboard;   (* the state of the last committed render *)
  world : World
}.

Definition App_initial (w : World) : App :=
  {| page := LoginPage_initial; dash := Dashboard_initial;
     rendered := None; world := w |}.

Inductive Event :=
| Render                                   (* React commits a render *)
| TypeUsername (s : string)
| TypePassword (s : string)
| SubmitLogin
| ClickLogout
| SelectDevice (value : string)
| SelectSensorType (value : string)
| ToggleAddDevice
| EditNewDevice (d : NewDevice)
| ClickAddDevice
| ClickDeleteDevice (deviceId : string) (confirmed : bool)
| FeedMessage (handle : nat) (data : string)
| FeedError (handle : nat)
| Deliver (task : nat).                    (* the reply to a request in
                                               flight arrives *)

Section EventLoop.
Context `{B : Backend}.

Definition signed_in (r : Dashboard) : bool :=
  isAuthenticated r && bool_decide (is_Some (user r)).

(** [useEffect(..., [])]: initialize. *)
Definition effect_initialize (st : Dashboard) (w : World)
    : Dashboard * World :=
  let auth := getItem "isAuthenticated" w in
  let token := getItem "accessToken" w in
  if bool_decide (auth = Some "true") && truthy token then
    let st := setIsAuthenticated true st in
    (st, fetchUserProfile_start w)
  else (st, w).

(** [useEffect(..., [isAuthenticated, user])]: fetch data. *)
Definition effect_fetch (r : Dashboard) (st : Dashboard) (w : World)
    : Dashboard * World :=
  if signed_in r then
    let w := fetchDevices_start r w in
    let w := fetchRecentAlerts_start w in
    let w := fetchRecentEvents_start w in
    let w := fetchThresholds_start w in
    (st, w)
  else (st, w).

(** [useEffect(..., [isAuthenticated, user])]: alert and event feeds; its
    clean-up, registered only when the branch is taken, is
    [closeSSEConnections]. *)
Definition effect_feeds (r : Dashboard) (st : Dashboard) (w : World)
    : Dashboard * World :=
  if signed_in r then
    let '(st, w) := setupAlertsSSE st w in
    setupEventsSSE st w
  else (st, w).

(** [useEffect(..., [selectedDeviceId, isAuthenticated])]: sensor feed. *)
Definition effect_sensor (r : Dashboard) (st : Dashboard) (w : World)
    : Dashboard * World :=
  if nonempty (selectedDeviceId r) && isAuthenticated r then
    let '(st, w) := setupSensorSSE r st w in
    (st, fetchLatestData_start r w)
  else (st, w).

Definition effect_sensor_cleanup (st : Dashboard) (w : World)
    : Dashboard * World :=
  match sensorSSERef st with
  | Some h => (set_sensorSSERef None st, close h w)
  | None => (st, w)
  end.

(** [useEffect(..., [selectedDeviceId, selectedSensorType])]. *)
Definition effect_history (r : Dashboard) (st : Dashboard) (w : World)
    : Dashboard * World :=
  if nonempty (selectedDeviceId r) && nonempty (selectedSensorType r) then
    let w := fetchAnalytics_start r w in
    let w := fetchSensorHistory_start r w in
    (st, w)
  else (st, w).

Definition session_changed (prev r : Dashboard) : bool :=
  negb (Bool.eqb (isAuthenticated prev) (isAuthenticated r))
  || negb (bool_decide (user prev = user r)).

Definition sensor_deps_changed (prev r : Dashboard) : bool :=
  negb (String.eqb (selectedDeviceId prev) (selectedDeviceId r))
  || negb (Bool.eqb (isAuthenticated prev) (isAuthenticated r)).

Definition history_deps_changed (prev r : Dashboard) : bool :=
  negb (String.eqb (selectedDeviceId prev) (selectedDeviceId r))
  || negb (String.eqb (selectedSensorType prev) (selectedSensorType r)).

Definition when (b : bool) (f : Dashboard → World → Dashboard * World)
    (st : Dashboard) (w : World) : Dashboard * World :=
  if b then f st w else (st, w).

(** React commits the render of state [r]: on mount every effect runs; on
    an update the effects whose dependencies changed since the previous
    render [prev] run, all clean-ups first, then the bodies, in the order
    of declaration. *)
Definition run_effects (prev : option Dashboard) (r : Dashboard)
    (st : Dashboard) (w : World) : Dashboard * World :=
  match prev with
  | None =>
      let '(st, w) := effect_initialize st w in
      let '(st, w) := effect_fetch r st w in
      let '(st, w) := effect_feeds r st w in
      let '(st, w) := effect_sensor r st w in
      effect_history r st w
  | Some prev =>
      let '(st, w) :=
        when (session_changed prev r && signed_in prev)
          closeSSEConnections st w in
      let '(st, w) :=
        when (sensor_deps_changed prev r) effect_sensor_cleanup st w in
      let '(st, w) := when (session_changed prev r) (effect_fetch r) st w in
      let '(st, w) := when (session_changed prev r) (effect_feeds r) st w in
      let '(st, w) :=
        when (sensor_deps_changed prev r) (effect_sensor r) st w in
      when (history_deps_changed prev r) (effect_history r) st w
  end.

Definition commit (a : App) : App :=
  let r := dash a in
  let '(st, w) := run_effects (rendered a) r r (world a) in
  {| page := page a; dash := st; rendered := Some r; world := w |}.

(** An event handler of the rendered page, run on the closure [r]. *)
Definition handle (e : Event) (r : Dashboard) (a : App) : App :=
  let on_dash (f : Dashboard → World → Dashboard * World) : App :=
    let '(st, w) := f (dash a) (world a) in
    {| page := page a; dash := st; rendered := rendered a; world := w |} in
  match e with
  | Render => a
  | TypeUsername s =>
      {| page := {| lp_username := s; lp_password := lp_password (page a);
                    error := error (page a); loading := loading (page a) |};
         dash := dash a; rendered := rendered a; world := world a |}
  | TypePassword s =>
      {| page := {| lp_username := lp_username (page a); lp_password := s;
                    error := error (page a); loading := loading (page a) |};
         dash := dash a; rendered := rendered a; world := world a |}
  | SubmitLogin =>
      let '(p, st, w) := handleLogin (page a) (dash a) (world a) in
      {| page := p; dash := st; rendered := rendered a; world := w |}
  | ClickLogout => on_dash handleLogout
  | SelectDevice value => on_dash (λ st w, (selectDevice value st, w))
  | SelectSensorType value =>
      on_dash (λ st w, (setSelectedSensorType value st, w))
  | ToggleAddDevice =>
      on_dash (λ st w, (setShowAddDevice (negb (showAddDevice r)) st, w))
  | EditNewDevice d => on_dash (λ st w, (setNewDevice d st, w))
  | ClickAddDevice => on_dash (handleAddDevice r)
  | ClickDeleteDevice deviceId confirmed =>
      on_dash (handleDeleteDevice confirmed deviceId r)
  | FeedMessage _ _ | FeedError _ | Deliver _ => a
  end.

(** One turn of the event loop.  Feed events reach the handlers of a
    source only while it is open; page events need a committed render; a
    reply is delivered to a request that is in flight.  Events are not
    restricted to the controls the page currently shows, so the runs of the
    page are among the runs of [step]. *)
Definition step (a : App) (e : Event) : App :=
  match e with
  | Render => commit a
  | FeedMessage h data =>
      match list_find (λ p, fst p = h) (open_feeds (feed_log (world a))) with
      | Some (_, (_, kind)) =>
          let '(st, w) := onmessage kind data (dash a) (world a) in
          {| page := page a; dash := st; rendered := rendered a;
             world := w |}
      | None => a
      end
  | FeedError h =>
      match list_find (λ p, fst p = h) (open_feeds (feed_log (world a))) with
      | Some (_, (_, kind)) =>
          {| page := page a; dash := dash a; rendered := rendered a;
             world := onerror kind h (world a) |}
      | None => a
      end
  | Deliver i =>
      let '(st, w) := deliver i (dash a) (world a) in
      {| page := page a; dash := st; rendered := rendered a; world := w |}
  | _ =>
      match rendered a with
      | Some r => handle e r a
      | None => a
      end
  end.

Definition run (a : App) (events : list Event) : App :=
  fold_left step events a.

End EventLoop.

(** ** Vocabulary of the properties *)

(** The refresh is the only call made on the bare [axios] import. *)
Definition is_refresh_attempt (c : NetCall) : bool :=
  match nc_via c with ViaAxios => true | ViaInstance => false end.

Definition refresh_attempts (calls : list NetCall) : nat :=
  length (List.filter is_refresh_attempt calls).

Definition outcome_status {A} (o : Outcome A) : option Z :=
  match o with
  | Replied s _ | Refused s _ _ => Some s
  | NoResponse => None
  end.

(** A page just loaded: only [localStorage] survives from earlier visits. *)
Definition World_initial (ls : gmap string string) (href : string) : World :=
  {| localStorage := ls; location_href := href; net_log := [];
     feed_log := []; console := []; alert_log := []; in_flight := [] |}.

Definition is_sensor_feed (p : nat * FeedKind) : bool :=
  match snd p with SensorFeed _ => true | _ => false end.

(** The sensor feeds open after the operations of a log. *)
Definition open_sensor_feeds (log : list FeedOp) : list (nat * FeedKind) :=
  List.filter is_sensor_feed (open_feeds log).

Definition ref_for (ra rs re : option nat) (k : FeedKind) : option nat :=
  match k with
  | AlertsFeed => ra
  | SensorFeed _ => rs
  | EventsFeed => re
  end.

(** Every open source is the one its ref points to. *)
Definition tracked (ra rs re : option nat) (log : list FeedOp) : Prop :=
  ∀ h k, In (h, k) (open_feeds log) → ref_for ra rs re k = Some h.

(** At no moment of the log were two sensor feeds open. *)
Definition sensor_feeds_exclusive (log : list FeedOp) : Prop :=
  ∀ n, (length (open_sensor_feeds (drop n log)) ≤ 1)%nat.

Definition feeds_ok (ra rs re : option nat) (log : list FeedOp) : Prop :=
  tracked ra rs re log ∧ sensor_feeds_exclusive log.

Definition close_opt (ref : option nat) (log : list FeedOp) : list FeedOp :=
  match ref with Some h => FClose h :: log | None => log end.

(** The refs of a component and the log of its world agree. *)
Definition feeds_inv (x : Dashboard * World) : Prop :=
  feeds_ok (alertsSSERef (fst x)) (sensorSSERef (fst x))
    (eventsSSERef (fst x)) (feed_log (snd x)).

(** What the feed invariant depends on. *)
Definition feeds_of (x : Dashboard * World)
    : option nat * option nat * option nat * list FeedOp :=
  (alertsSSERef (fst x), sensorSSERef (fst x), eventsSSERef (fst x),
   feed_log (snd x)).

(** Invariants of the event loop are stated on the pair of the component
    state and the world. *)
Section Invariants.
Context `{B : Backend}.

Definition preserves (P : Dashboard * World → Prop)
    (f : Dashboard → World → Dashboard * World) : Prop :=
  ∀ st w, P (st, w) → P (f st w).

(** [P] is kept by every function the event loop is made of. *)
Record Respected (P : Dashboard * World → Prop) : Prop := {
  r_initialize : preserves P effect_initialize;
  r_fetchDevices : ∀ r, preserves P (λ st w, (st, fetchDevices_start r w));
  r_fetchRecentAlerts : preserves P (λ st w, (st, fetchRecentAlerts_start w));
  r_fetchRecentEvents : preserves P (λ st w, (st, fetchRecentEvents_start w));
  r_fetchThresholds : preserves P (λ st w, (st, fetchThresholds_start w));
  r_fetchLatestData :
    ∀ r, preserves P (λ st w, (st, fetchLatestData_start r w));
  r_fetchAnalytics :
    ∀ r, preserves P (λ st w, (st, fetchAnalytics_start r w));
  r_fetchSensorHistory :
    ∀ r, preserves P (λ st w, (st, fetchSensorHistory_start r w));
  r_deliver : ∀ i, preserves P (deliver i);
  r_setupAlertsSSE : preserves P setupAlertsSSE;
  r_setupEventsSSE : preserves P setupEventsSSE;
  r_setupSensorSSE : ∀ r, preserves P (setupSensorSSE r);
  r_closeSSEConnections : preserves P closeSSEConnections;
  r_sensor_cleanup : preserves P effect_sensor_cleanup;
  r_handleLogin : ∀ p,
    preserves P (λ st w, (snd (fst (handleLogin p st w)),
                          snd (handleLogin p st w)));
  r_handleLogout : preserves P handleLogout;
  r_selectDevice : ∀ v, preserves P (λ st w, (selectDevice v st, w));
  r_setSelectedSensorType : ∀ v,
    preserves P (λ st w, (setSelectedSensorType v st, w));
  r_setShowAddDevice : ∀ b,
    preserves P (λ st w, (setShowAddDevice b st, w));
  r_setNewDevice : ∀ d, preserves P (λ st w, (setNewDevice d st, w));
  r_handleAddDevice : ∀ r, preserves P (handleAddDevice r);
  r_handleDeleteDevice : ∀ c id r,
    preserves P (handleDeleteDevice c id r);
  r_onmessage : ∀ k data, preserves P (onmessage k data);
  r_onerror : ∀ k h, preserves P (λ st w, (st, onerror k h w))
}.

(** No snapshot the backend serves overfills the buffer it is put in: at
    most 50 alerts, at most 50 device events, at most 100 readings of any
    one sensor type. *)
Definition alert_snapshots_bounded : Prop :=
  ∀ h c s l, alerts_api h c = Replied s (Some l) → (length l ≤ 50)%nat.

Definition event_snapshots_bounded : Prop :=
  ∀ h c s l, events_api h c = Replied s (Some l) → (length l ≤ 50)%nat.

Definition history_snapshots_bounded : Prop :=
  ∀ h c s d t,
    history_api h c = Replied s d →
    (length (List.filter (λ x, String.eqb (sensorType x) t) (as_array d))
     ≤ 100)%nat.

(** The snapshot a request in flight has been answered with fits the
    buffer. *)
Definition alert_reply_bounded (t : Task) : Prop :=
  match t with
  | AlertsRequest (Resolved res) =>
      (length (default [] (body res)) ≤ 50)%nat
  | _ => True
  end.

Definition event_reply_bounded (t : Task) : Prop :=
  match t with
  | EventsRequest (Resolved res) =>
      (length (default [] (body res)) ≤ 50)%nat
  | _ => True
  end.

Definition history_reply_bounded (t : Task) : Prop :=
  match t with
  | HistoryRequest ty (Resolved res) =>
      (length (List.filter (λ x, String.eqb (sensorType x) ty)
                 (as_array (body res))) ≤ 100)%nat
  | _ => True
  end.

(** Each buffer is within its bound, and so is what is on its way to it,
    as long as the snapshots of its endpoint are. *)
Definition buffers_bounded (x : Dashboard * World) : Prop :=
  (alert_snapshots_bounded →
   (length (alerts (fst x)) ≤ 50)%nat
   ∧ Forall alert_reply_bounded (in_flight (snd x)))
  ∧ (event_snapshots_bounded →
     (length (deviceEvents (fst x)) ≤ 50)%nat
     ∧ Forall event_reply_bounded (in_flight (snd x)))
  ∧ (history_snapshots_bounded →
     (length (sensorHistory (fst x)) ≤ 100)%nat
     ∧ Forall history_reply_bounded (in_flight (snd x))).

End Invariants.

(** What [buffers_bounded] depends on. *)
Definition buffers_of (x : Dashboard * World)
    : list Alert * list DeviceEvent * list SensorData * list Task :=
  (alerts (fst x), deviceEvents (fst x), sensorHistory (fst x),
   in_flight (snd x)).

(** [JSON.parse] throws in the message handler of a feed of kind [k]. *)
Definition parse_fails `{B : Backend} (k : FeedKind) (data : string) : Prop :=
  match k with
  | AlertsFeed => parse_alert data = None
  | EventsFeed => parse_event data = None
  | SensorFeed _ => parse_sensor data = None
  end.

Definition has_status {A} (code : Z) (o : Outcome A) : bool :=
  bool_decide (outcome_status o = Some code).

Definition resolved_with {A} (code : Z) (s : Settled A) : bool :=
  match s with
  | Resolved r => status r =? code
  | _ => false
  end.



Definition login_request (p : LoginPage) : Config :=
  request POST "/auth/login" (Credentials (lp_username p) (lp_password p)).

Definition device_form (d : NewDevice) : RequestBody :=
  DeviceForm (nd_deviceId d) (nd_name d) (nd_location d) (nd_type d)
    (nd_status d).

Definition form_filled (d : NewDevice) : bool :=
  nonempty (nd_deviceId d) && nonempty (nd_name d)
  && nonempty (nd_location d).


Definition is_GET (c : NetCall) : bool :=
  match nc_method c with GET => true | _ => false end.

(** ** A small backend to run the model on

    One account ([alice] / [secret]; [carol] is locked, [dave] is refused
    with 401, anyone else is not found), bearer token [fresh] accepted and
    any other refused with 401, refresh token [r0] exchanged for [fresh] /
    [r1], device id [dev-1] already taken, [dev-9] created with 201,
    [snapshot] alerts on [GET /alerts]. *)
Module Demo.

Definition alice : User :=
  {| username := "alice"; displayName := "Alice"; role := "Admin" |}.

Definition fresh : TokenPair :=
  {| accessToken := "fresh"; refreshToken := "r1" |}.

Definition issued : TokenPair :=
  {| accessToken := "fresh"; refreshToken := "r0" |}.

Definition dev (id : string) : Device :=
  {| deviceId := id; name := "probe"; location := "lab";
     dev_status := "Active"; type := "TemperatureSensor";
     registeredAt := None |}.

Definition reading (ty : string) (v : Z) : SensorData :=
  {| sd_deviceId := "dev-1"; sensorType := ty; value := v;
     timestamp := "2025-01-01T00:00:00Z" |}.

Definition overheat : Alert :=
  {| al_deviceId := "dev-1"; al_timestamp := "2025-01-01T00:00:00Z";
     al_sensorType := "temperature"; al_message := "too hot";
     severity := "high"; al_value := 90 |}.

Definition rebooted : DeviceEvent :=
  {| ev_deviceId := "dev-1"; eventTime := "2025-01-01T00:00:00Z";
     description := "device rebooted"; eventType := "Reboot" |}.

Definition authorized (c : NetCall) : bool :=
  bool_decide (nc_auth c = Some "Bearer fresh").

Definition guarded {A} (reply : Outcome A) : Oracle A :=
  λ _ c, if authorized c then reply else Refused 401 None eq_refl.

(** The demo backend, serving snapshots of [al] alerts, [ev] device events
    and [hi] temperature readings. *)
Definition serving (al ev hi : nat) : Backend :=
  {| API_BASE := "http://192.168.137.1:5000/api";
     refresh_api := λ _ c,
       match nc_body c with
       | RefreshBody r _ =>
           if String.eqb r "r0" then Replied 200 fresh
           else Refused 403 (Some "Invalid refresh token") eq_refl
       | _ => Refused 400 None eq_refl
       end;
     login_api := λ _ c,
       match nc_body c with
       | Credentials u p =>
           if String.eqb u "alice" && String.eqb p "secret"
           then Replied 200 (Some issued)
           else if String.eqb u "carol"
           then Refused 500 (Some "Account locked") eq_refl
           else if String.eqb u "dave"
           then Refused 401 (Some "Bad credentials") eq_refl
           else Refused 404 None eq_refl
       | _ => Refused 400 None eq_refl
       end;
     logout_api := guarded (Replied 200 ());
     profile_api := guarded (Replied 200 alice);
     devices_api := guarded (Replied 200 [dev "dev-1"; dev "dev-2"]);
     create_device_api := λ h c,
       match nc_body c with
       | DeviceForm id _ _ _ _ =>
           if String.eqb id "dev-1"
           then guarded (Refused 409 None eq_refl) h c
           else if String.eqb id "dev-9"
           then guarded (Replied 201 ()) h c
           else guarded (Replied 204 ()) h c
       | _ => Refused 400 None eq_refl
       end;
     latest_api :=
       guarded (Replied 200
         (inl [reading "temperature" 21; reading "humidity" 40]));
     history_api :=
       guarded (Replied 200 (inl (replicate hi (reading "temperature" 20))));
     alerts_api := guarded (Replied 200 (Some (replicate al overheat)));
     events_api := guarded (Replied 200 (Some (replicate ev rebooted)));
     analytics_api := guarded (Replied 200 (inl []));
     thresholds_api := guarded (Replied 200 None);
     delete_device_api := guarded (Replied 204 ());
     parse_alert := λ s,
       if String.eqb s "alert" then Some overheat else None;
     parse_event := λ s,
       if String.eqb s "event" then Some rebooted else None;
     parse_sensor := λ s,
       if String.eqb s "temperature" then Some (reading "temperature" 22)
       else if String.eqb s "humidity" then Some (reading "humidity" 41)
       else None;
     stringify_user := λ u, "{" +:+ username u +:+ "}";
     clock := λ _,
       {| ts_now := "2025-01-08T00:00:00.000Z";
          ts_week_ago := "2025-01-01T00:00:00.000Z";
          ts_today := "2025-01-08" |} |}.

Definition backend (snapshot : nat) : Backend := serving snapshot 1 1.

(** Token stores: a session whose access token is still accepted, one whose
    access token has expired, and one whose refresh token is also gone
    stale. *)
Definition store (access refresh : string) : gmap string string :=
  <["accessToken" := access]>
    (<["refreshToken" := refresh]> (<["isAuthenticated" := "true"]> ∅)).

Definition page (ls : gmap string string) : World :=
  World_initial ls "/dashboard".

(** A page load with a stored session, every reply delivered before the
    next render: the profile; the device list, alerts, events and
    thresholds; the latest readings of the device selected by default; its
    analytics and history.  The last render changes nothing. *)
Definition startup : list Event :=
  [Render; Deliver 0;
   Render; Deliver 0; Deliver 0; Deliver 0; Deliver 0;
   Render; Deliver 0;
   Render; Deliver 0; Deliver 0;
   Render].

End Demo.

(** ** Values derived at render

    What the component computes from its state each time it renders; [st] is
    the state of that render. *)

(** [toLocaleTimeString] stands for the formatting of a timestamp as
    [hh:mm]. *)
Definition chartData (toLocaleTimeString : string → string) (st : Dashboard)
    : list (string * Z) :=
  map (λ s, (toLocaleTimeString (timestamp s), value s))
    (slice_last 24 (sensorHistory st)).

Definition currentLatestData (st : Dashboard) : option SensorData :=
  List.find (λ d, String.eqb (sensorType d) (selectedSensorType st))
    (latestData st).

(** ** More vocabulary *)

Definition is_alerts_feed (p : nat * FeedKind) : bool :=
  match snd p with AlertsFeed => true | _ => false end.

Definition is_events_feed (p : nat * FeedKind) : bool :=
  match snd p with EventsFeed => true | _ => false end.

(** The alert and event feeds, which follow the session. *)
Definition is_session_feed (p : nat * FeedKind) : bool :=
  is_alerts_feed p || is_events_feed p.

Definition no_feed (P : nat * FeedKind → bool) (log : list FeedOp) : Prop :=
  ∀ p, In p (open_feeds log) → P p = false.

(** Every source open after [log'] was open after [log] or is of a kind in
    [P]. *)
Definition grows_by (P : nat * FeedKind → bool) (log log' : list FeedOp)
    : Prop :=
  ∀ p, In p (open_feeds log') → In p (open_feeds log) ∨ P p = true.

Definition nothing (p : nat * FeedKind) : bool := false.

(** [f] opens sources of the kinds in [P] only. *)
Definition opens_only (P : nat * FeedKind → bool)
    (f : Dashboard → World → Dashboard * World) : Prop :=
  ∀ st w, grows_by P (feed_log w) (feed_log (snd (f st w))).

(** What the sensor effect tests before it sets the feed up. *)
Definition wants_sensor_feed (r : Dashboard) : bool :=
  nonempty (selectedDeviceId r) && isAuthenticated r.

(** The open feeds are no more than the last committed render asked for:
    none before the mount, no alert or event feed under a render that is not
    signed in, no sensor feed under a render without a device or a
    session. *)
Definition feeds_follow_render (a : App) : Prop :=
  match rendered a with
  | None => feed_log (world a) = []
  | Some r =>
      (signed_in r = false → no_feed is_session_feed (feed_log (world a)))
      ∧ (wants_sensor_feed r = false
         → no_feed is_sensor_feed (feed_log (world a)))
  end.

(** The page has rendered its current state and run the effects. *)
Definition settled (a : App) : Prop := rendered a = Some (dash a).



(** * Properties *)

(** ** The gateway *)

Section GatewayFacts.
Context `{B : Backend}.

Lemma settle_not_Pending {A} (c : Config) (o : Outcome A) :
  settle c o ≠ Pending.
Proof. destruct o; simpl; try destruct (validateStatus _); discriminate. Qed.

Lemma settle_error_config {A} (c c' : Config) (o : Outcome A) r :
  settle c o = Rejected (AxiosError c' r) → c' = c.
Proof.
  destruct o; simpl; try destruct (validateStatus _); congruence.
Qed.

Lemma settle_not_OtherError {A} (c : Config) (o : Outcome A) m :
  settle c o ≠ Rejected (OtherError m).
Proof. destruct o; simpl; try destruct (validateStatus _); discriminate. Qed.

Lemma request_interceptor_retry (c : Config) (w : World) :
  _retry (request_interceptor c w) = _retry c.
Proof. unfold request_interceptor. destruct (truthy _); reflexivity. Qed.

(** A refresh puts at most one call on the wire, on the bare import, and
    its promise settles. *)
Lemma refresh_tokens_calls (w : World) :
  fst (refresh_tokens w) ≠ Pending
  ∧ localStorage (snd (refresh_tokens w)) = localStorage w
  ∧ ∃ calls,
      net_log (snd (refresh_tokens w)) = calls ++ net_log w
      ∧ refresh_attempts calls = length calls
      ∧ (length calls ≤ 1)%nat.
Proof.
  unfold refresh_tokens.
  destruct (negb _ || negb _); simpl.
  - split; [discriminate|]. split; [reflexivity|].
    exists []. auto.
  - split; [apply settle_not_Pending|]. split; [reflexivity|].
    eexists [_]. split; [reflexivity|]. split; [reflexivity|]. simpl. lia.
Qed.

(** A request already marked [_retry] goes on the wire once and its
    outcome is handed to the caller untouched. *)
Lemma axiosInstance_fuel_retried {A} (api : Oracle A) n c w :
  _retry c = true →
  axiosInstance_fuel (S n) api c w
  = dispatch api ViaInstance API_BASE (request_interceptor c w) w.
Proof.
  intros Hr. simpl. unfold dispatch.
  pose proof (request_interceptor_retry c w) as Hr'. rewrite Hr in Hr'.
  destruct (settle _ _) as [r|e|] eqn:Hs; try reflexivity.
  destruct e as [c' r|m]; simpl; [|reflexivity].
  apply settle_error_config in Hs. subst c'. rewrite Hr'.
  rewrite andb_false_r. reflexivity.
Qed.

Lemma refresh_attempts_app (l1 l2 : list NetCall) :
  refresh_attempts (l1 ++ l2) = (refresh_attempts l1 + refresh_attempts l2)%nat.
Proof.
  unfold refresh_attempts. rewrite List.filter_app, length_app. reflexivity.
Qed.

(** The calls of one request through the gateway, for any fuel. *)
Lemma axiosInstance_fuel_calls {A} (api : Oracle A) n c w :
  ∃ calls,
    net_log (snd (axiosInstance_fuel n api c w)) = calls ++ net_log w
    ∧ (refresh_attempts calls ≤ if _retry c then 0 else 1)%nat.
Proof.
  destruct n as [|n].
  { exists []. split; [reflexivity|].
    destruct (_retry c); unfold refresh_attempts; simpl; lia. }
  destruct (_retry c) eqn:Hr.
  { rewrite axiosInstance_fuel_retried by done.
    eexists [_]. split; [reflexivity|]. reflexivity. }
  simpl. unfold dispatch.
  set (c1 := request_interceptor c w).
  set (w1 := with_net_log _ w).
  destruct (settle c1 _) as [r|e|] eqn:Hs.
  - eexists [_]. split; [reflexivity|].
    simpl. unfold refresh_attempts. simpl. lia.
  - destruct e as [c' r|m]; simpl.
    2:{ eexists [_]. split; [reflexivity|].
        unfold refresh_attempts. simpl. lia. }
    destruct (status_is 401 r && negb (_retry c')).
    2:{ eexists [_]. split; [reflexivity|].
        unfold refresh_attempts. simpl. lia. }
    destruct (refresh_tokens_calls w1) as (Hp & _ & calls & Hlog & Hra & Hlen).
    destruct (refresh_tokens w1) as [[resp|e|] w2]; simpl in *.
    + destruct (body resp) as [a r'].
      destruct n as [|n].
      * simpl. exists (calls ++ [wire ViaInstance API_BASE c1]).
        split;
          [simpl; rewrite Hlog; unfold w1; simpl; by rewrite <- ?app_assoc|].
        rewrite refresh_attempts_app. unfold refresh_attempts at 2. simpl. lia.
      * rewrite axiosInstance_fuel_retried by reflexivity.
        simpl. eexists (_ :: calls ++ [wire ViaInstance API_BASE c1]).
        split;
          [simpl; rewrite Hlog; unfold w1; simpl; by rewrite <- ?app_assoc|].
        change (?x :: ?l) with ([x] ++ l).
        rewrite !refresh_attempts_app. unfold refresh_attempts at 1 3.
        simpl. lia.
    + exists (calls ++ [wire ViaInstance API_BASE c1]).
      split; [simpl; rewrite Hlog; unfold w1; simpl; by rewrite <- ?app_assoc|].
      rewrite refresh_attempts_app. unfold refresh_attempts at 2. simpl. lia.
    + congruence.
  - eexists [_]. split; [reflexivity|]. unfold refresh_attempts. simpl. lia.
Qed.

Lemma axiosInstance_fuel_S {A} (api : Oracle A) n c w :
  axiosInstance_fuel (S n) api c w
  = match dispatch api ViaInstance API_BASE (request_interceptor c w) w with
    | (Resolved response, w) => (Resolved response, w)
    | (Rejected error, w) =>
        response_rejected (axiosInstance_fuel n api) error w
    | (Pending, w) => (Pending, w)
    end.
Proof. reflexivity. Qed.

Lemma axiosInstance_fuel_enough {A} (api : Oracle A) n c w :
  axiosInstance_fuel (2 + n) api c w = axiosInstance api c w.
Proof.
  unfold axiosInstance.
  change (2 + n)%nat with (S (S n)).
  rewrite (axiosInstance_fuel_S api (S n)), (axiosInstance_fuel_S api 1).
  destruct (dispatch api ViaInstance API_BASE _ w) as [[r|e|] w1];
    try reflexivity.
  destruct e as [c' r|m]; [|reflexivity].
  unfold response_rejected.
  destruct (status_is 401 r && negb (_retry c')); [|reflexivity].
  destruct (refresh_tokens w1) as [[resp|e|] w2]; try reflexivity.
  destruct (body resp) as [a r'].
  rewrite !axiosInstance_fuel_retried by reflexivity. reflexivity.
Qed.

Lemma axiosInstance_settles {A} (api : Oracle A) c w :
  fst (axiosInstance api c w) ≠ Pending.
Proof.
  unfold axiosInstance. rewrite axiosInstance_fuel_S.
  unfold dispatch at 1.
  destruct (settle _ _) as [r|e|] eqn:Hs; try (simpl; discriminate).
  2:{ by apply settle_not_Pending in Hs. }
  destruct e as [c' r|m]; [|simpl; discriminate].
  unfold response_rejected.
  destruct (status_is 401 r && negb (_retry c')); [|simpl; discriminate].
  match goal with |- context [refresh_tokens ?w] =>
    destruct (refresh_tokens_calls w) as (Hp & _);
    destruct (refresh_tokens w) as [[resp|e|] w2] end;
    simpl in Hp; try (simpl; discriminate); [|congruence].
  destruct (body resp) as [a r'].
  rewrite axiosInstance_fuel_retried by reflexivity.
  simpl. apply settle_not_Pending.
Qed.

(** C1.  Whatever the servers answer, and however deep the instance is
    allowed to call itself, one request through the gateway makes at most
    one refresh attempt, and none when its retried flag is already set; the
    refresh call, made on the bare import, never leads to another.  Two
    levels of calls exhaust what the interceptor does, and the promise
    always settles. *)
Theorem gateway_refreshes_at_most_once {A} (api : Oracle A) (fuel : nat)
    (config : Config) (w : World) :
  (∃ calls,
     net_log (snd (axiosInstance_fuel fuel api config w))
     = calls ++ net_log w
     ∧ (refresh_attempts calls ≤ if _retry config then 0 else 1)%nat)
  ∧ axiosInstance_fuel (2 + fuel) api config w = axiosInstance api config w
  ∧ fst (axiosInstance api config w) ≠ Pending.
Proof.
  split; [apply axiosInstance_fuel_calls|].
  split; [apply axiosInstance_fuel_enough|apply axiosInstance_settles].
Qed.

End GatewayFacts.

Section RefreshFacts.
Context `{B : Backend}.

Lemma dispatch_401 {A} (api : Oracle A) via base c w :
  outcome_status (api (net_log w) (wire via base c)) = Some 401 →
  ∃ m, dispatch api via base c w
       = (Rejected (AxiosError c
            (Some {| err_status := 401; err_message := m |})),
          with_net_log (wire via base c :: net_log w) w).
Proof.
  unfold dispatch. intros H.
  destruct (api _ _) as [s b|s m Hs|]; simpl in *; [| |discriminate].
  - injection H as ->. exists None. reflexivity.
  - injection H as ->. exists m. reflexivity.
Qed.

(** C2.  A request not yet retried is answered 401, both tokens are in the
    store and the refresh call is answered 2xx with a new pair: the new
    pair is stored, the original request goes on the wire exactly once
    more, unchanged but for the new bearer token, and what the caller gets
    is the outcome of that second send, nothing else. *)
Theorem refresh_success_retries_once {A} (api : Oracle A)
    (config : Config) (w : World) (rt at_ : string) (s : Z)
    (tokens : TokenPair) :
  let sent := request_interceptor config w in
  let first := wire ViaInstance API_BASE sent in
  let refresh :=
    {| nc_via := ViaAxios; nc_method := POST;
       nc_url := API_BASE +:+ "/auth/refresh"; nc_auth := None;
       nc_body := RefreshBody rt at_ |} in
  let retried :=
    set_Authorization ("Bearer " +:+ accessToken tokens)
      (mark_retry sent) in
  let retry := wire ViaInstance API_BASE retried in
  _retry config = false →
  outcome_status (api (net_log w) first) = Some 401 →
  getItem "refreshToken" w = Some rt → nonempty rt = true →
  getItem "accessToken" w = Some at_ → nonempty at_ = true →
  refresh_api (first :: net_log w) refresh = Replied s tokens →
  validateStatus s = true →
  fst (axiosInstance api config w)
  = settle retried (api (refresh :: first :: net_log w) retry)
  ∧ net_log (snd (axiosInstance api config w))
    = retry :: refresh :: first :: net_log w
  ∧ localStorage (snd (axiosInstance api config w))
    = <["refreshToken" := refreshToken tokens]>
        (<["accessToken" := accessToken tokens]> (localStorage w))
  ∧ nc_auth retry = Some ("Bearer " +:+ accessToken tokens)
  ∧ (nc_method retry, nc_url retry, nc_body retry)
    = (nc_method first, nc_url first, nc_body first)
  ∧ location_href (snd (axiosInstance api config w)) = location_href w.
Proof.
  intros sent first refresh retried retry Hretry H401 Hrt Hrt' Hat Hat'
    Href Hs.
  unfold axiosInstance. rewrite axiosInstance_fuel_S.
  fold sent. destruct (dispatch_401 api ViaInstance API_BASE sent w H401)
    as [m ->].
  unfold response_rejected.
  assert (Hsr : _retry sent = false)
    by (unfold sent; rewrite request_interceptor_retry; done).
  rewrite Hsr. cbn [status_is err_status negb andb Z.eqb Pos.eqb].
  unfold refresh_tokens.
  change (getItem "refreshToken" (with_net_log _ w))
    with (getItem "refreshToken" w).
  change (getItem "accessToken" (with_net_log _ w))
    with (getItem "accessToken" w).
  rewrite Hrt, Hat.
  cbn [truthy]. rewrite Hrt', Hat'. cbn [negb orb default].
  unfold axios_post, dispatch.
  cbn [net_log with_net_log].
  change (wire ViaAxios "" _) with refresh.
  fold first. rewrite Href. cbn [settle]. rewrite Hs.
  cbn [body]. destruct tokens as [a r]. cbn [accessToken refreshToken] in *.
  rewrite axiosInstance_fuel_retried by reflexivity.
  unfold dispatch.
  match goal with |- context [request_interceptor ?c ?w'] =>
    assert (Hreq : request_interceptor c w' = retried) end.
  { unfold request_interceptor, getItem, setItem.
    cbn [localStorage with_localStorage with_net_log].
    rewrite lookup_insert_ne by done. rewrite lookup_insert_eq.
    cbn [truthy default]. unfold retried. cbn [accessToken].
    destruct (nonempty a) eqn:Ha; reflexivity. }
  rewrite Hreq. cbn. repeat split; reflexivity.
Qed.

End RefreshFacts.

(** The refresh path on the demo server: the stale token is refused, [r0] is
    exchanged and the retry is accepted. *)
Lemma refresh_success_retries_once_witness :
  let B := Demo.backend 3 in
  let w := Demo.page (Demo.store "stale" "r0") in
  let config := request GET "/devices" NoBody in
  fst (axiosInstance devices_api config w)
  = Resolved {| status := 200; body := [Demo.dev "dev-1"; Demo.dev "dev-2"] |}
  ∧ map nc_auth (net_log (snd (axiosInstance devices_api config w)))
    = [Some "Bearer fresh"; None; Some "Bearer stale"]
  ∧ getItem "accessToken" (snd (axiosInstance devices_api config w))
    = Some "fresh".
Proof.
  intros B w config.
  destruct (refresh_success_retries_once (B := B) devices_api config w
              "r0" "stale" 200 Demo.fresh)
    as (Hres & Hlog & Hstore & _); try reflexivity.
  rewrite Hres, Hlog. unfold getItem. rewrite Hstore.
  repeat split; reflexivity.
Defined.

Section RefreshFailure.
Context `{B : Backend}.

(** C3, as amended.  A request not yet retried is answered 401 and the
    refresh attempt fails, because a token is missing from the store or
    because the refresh call is rejected: the store is emptied, the page is
    sent to ["/"], the request is not sent again, and the caller gets the
    error of the refresh attempt. *)
Theorem refresh_failure_forces_logout {A} (api : Oracle A)
    (config : Config) (w : World) (refreshError : Failure) (w2 : World) :
  let sent := request_interceptor config w in
  let first := wire ViaInstance API_BASE sent in
  _retry config = false →
  outcome_status (api (net_log w) first) = Some 401 →
  refresh_tokens (with_net_log (first :: net_log w) w)
  = (Rejected refreshError, w2) →
  fst (axiosInstance api config w) = Rejected refreshError
  ∧ localStorage (snd (axiosInstance api config w)) = ∅
  ∧ location_href (snd (axiosInstance api config w)) = "/"
  ∧ net_log (snd (axiosInstance api config w)) = net_log w2
  ∧ (if truthy (getItem "refreshToken" w) && truthy (getItem "accessToken" w)
     then isAxiosError refreshError = true
          ∧ ∃ refresh, net_log w2 = refresh :: first :: net_log w
                       ∧ nc_via refresh = ViaAxios
     else refreshError = OtherError "No tokens available"
          ∧ net_log w2 = first :: net_log w).
Proof.
  intros sent first Hretry H401 Href.
  unfold axiosInstance. rewrite axiosInstance_fuel_S.
  fold sent. destruct (dispatch_401 api ViaInstance API_BASE sent w H401)
    as [m ->].
  unfold response_rejected.
  assert (Hsr : _retry sent = false)
    by (unfold sent; rewrite request_interceptor_retry; done).
  rewrite Hsr. cbn [status_is err_status negb andb Z.eqb Pos.eqb].
  fold first. rewrite Href. cbn.
  repeat split.
  unfold refresh_tokens in Href.
  change (getItem "refreshToken" (with_net_log (first :: net_log w) w))
    with (getItem "refreshToken" w) in Href.
  change (getItem "accessToken" (with_net_log (first :: net_log w) w))
    with (getItem "accessToken" w) in Href.
  destruct (truthy (getItem "refreshToken" w));
    destruct (truthy (getItem "accessToken" w)); cbn in Href |- *;
    try (injection Href as <- <-; split; reflexivity).
  unfold axios_post, dispatch in Href.
  injection Href as Hs <-.
  split.
  - destruct refreshError as [c r|msg]; [reflexivity|].
    by apply settle_not_OtherError in Hs.
  - eexists. split; reflexivity.
Qed.

End RefreshFailure.

(** The failing refresh on the demo server: the stale access token is
    refused and so is the refresh token [r9]. *)
Lemma refresh_failure_forces_logout_witness :
  let B := Demo.backend 3 in
  let w := Demo.page (Demo.store "stale" "r9") in
  let config := request GET "/devices" NoBody in
  (∃ c, fst (axiosInstance devices_api config w)
        = Rejected (AxiosError c
            (Some {| err_status := 403;
                     err_message := Some "Invalid refresh token" |})))
  ∧ localStorage (snd (axiosInstance devices_api config w)) = ∅
  ∧ location_href (snd (axiosInstance devices_api config w)) = "/".
Proof.
  intros B w config.
  edestruct (refresh_failure_forces_logout (B := B) devices_api config w)
    as (Hres & Hstore & Hhref & _);
    [reflexivity | reflexivity | reflexivity |].
  rewrite Hres, Hstore, Hhref.
  split; [eexists; reflexivity|]. split; reflexivity.
Defined.

(** C3 as stated fails: with an empty store the request is answered 401, the
    refresh attempt fails for want of tokens, and the caller gets the error
    of the refresh attempt, not the 401 error of its request. *)
Lemma refresh_failure_original_error_counterexample :
  let B := Demo.backend 3 in
  let w := Demo.page ∅ in
  let config := request GET "/devices" NoBody in
  let original :=
    AxiosError config (Some {| err_status := 401; err_message := None |}) in
  fst (dispatch devices_api ViaInstance API_BASE
         (request_interceptor config w) w) = Rejected original
  ∧ fst (refresh_tokens
           (snd (dispatch devices_api ViaInstance API_BASE
                   (request_interceptor config w) w)))
    = Rejected (OtherError "No tokens available")
  ∧ localStorage (snd (axiosInstance devices_api config w)) = ∅
  ∧ location_href (snd (axiosInstance devices_api config w)) = "/"
  ∧ fst (axiosInstance devices_api config w) ≠ Rejected original.
Proof.
  intros B w config original.
  repeat split; try reflexivity.
  vm_compute. discriminate.
Qed.

(** ** Feed bookkeeping *)

Section FeedLog.

Lemma In_open_feeds_close h k h' log :
  In (h, k) (open_feeds (FClose h' :: log))
  ↔ In (h, k) (open_feeds log) ∧ h ≠ h'.
Proof.
  simpl. rewrite filter_In. simpl.
  rewrite negb_true_iff, Nat.eqb_neq. reflexivity.
Qed.

Lemma open_sensor_feeds_close h log :
  (length (open_sensor_feeds (FClose h :: log))
   ≤ length (open_sensor_feeds log))%nat.
Proof.
  unfold open_sensor_feeds. simpl.
  induction (open_feeds log) as [|p l IH]; simpl; [lia|].
  destruct (negb (fst p =? h)%nat); simpl;
    destruct (is_sensor_feed p); simpl; lia.
Qed.

Lemma exclusive_cons op log :
  (length (open_sensor_feeds (op :: log)) ≤ 1)%nat →
  sensor_feeds_exclusive log → sensor_feeds_exclusive (op :: log).
Proof. intros H0 H [|n]; [exact H0|apply (H n)]. Qed.

Lemma feeds_ok_close ra rs re h log :
  feeds_ok ra rs re log → feeds_ok ra rs re (FClose h :: log).
Proof.
  intros [Ht He]. split.
  - intros h' k [Hin _]%In_open_feeds_close. by apply Ht.
  - apply exclusive_cons; [|exact He].
    pose proof (open_sensor_feeds_close h log). specialize (He 0%nat).
    rewrite drop_0 in He. lia.
Qed.

Lemma feeds_ok_close_opt ra rs re ref log :
  feeds_ok ra rs re log → feeds_ok ra rs re (close_opt ref log).
Proof. destruct ref; [apply feeds_ok_close|done]. Qed.

(** Closing what a ref points to leaves nothing of its kind open, so the
    ref may be reset. *)
Lemma feeds_ok_reset_alerts ra rs re log :
  feeds_ok ra rs re log → feeds_ok None rs re (close_opt ra log).
Proof.
  intros H. pose proof (feeds_ok_close_opt _ _ _ ra _ H) as [Ht He].
  split; [|exact He].
  intros h k Hin. specialize (Ht h k Hin).
  destruct k; simpl in *; try done.
  destruct ra as [h'|]; simpl in *; [|done].
  apply In_open_feeds_close in Hin as [_ Hne]. congruence.
Qed.

Lemma feeds_ok_reset_sensor ra rs re log :
  feeds_ok ra rs re log → feeds_ok ra None re (close_opt rs log).
Proof.
  intros H. pose proof (feeds_ok_close_opt _ _ _ rs _ H) as [Ht He].
  split; [|exact He].
  intros h k Hin. specialize (Ht h k Hin).
  destruct k; simpl in *; try done.
  destruct rs as [h'|]; simpl in *; [|done].
  apply In_open_feeds_close in Hin as [_ Hne]. congruence.
Qed.

Lemma feeds_ok_reset_events ra rs re log :
  feeds_ok ra rs re log → feeds_ok ra rs None (close_opt re log).
Proof.
  intros H. pose proof (feeds_ok_close_opt _ _ _ re _ H) as [Ht He].
  split; [|exact He].
  intros h k Hin. specialize (Ht h k Hin).
  destruct k; simpl in *; try done.
  destruct re as [h'|]; simpl in *; [|done].
  apply In_open_feeds_close in Hin as [_ Hne]. congruence.
Qed.

Lemma no_sensor_feed_open ra re log :
  tracked ra None re log → open_sensor_feeds log = [].
Proof.
  intros Ht. unfold open_sensor_feeds.
  destruct (List.filter _ _) as [|[h k] l] eqn:Hf; [done|].
  assert (Hin : In (h, k) (List.filter is_sensor_feed (open_feeds log)))
    by (rewrite Hf; left; done).
  apply filter_In in Hin as [Hin Hs].
  specialize (Ht h k Hin). destruct k; simpl in *; done.
Qed.

(** A source may be opened once its ref has been reset. *)
Lemma feeds_ok_open_alerts rs re url log :
  feeds_ok None rs re log →
  feeds_ok (Some (next_handle log)) rs re (FOpen AlertsFeed url :: log).
Proof.
  intros [Ht He]. split.
  - intros h k [Heq|Hin]; [by injection Heq as <- <-|].
    specialize (Ht h k Hin). destruct k; simpl in *; done.
  - apply exclusive_cons; [|exact He].
    specialize (He 0%nat). rewrite drop_0 in He. exact He.
Qed.

Lemma feeds_ok_open_events ra rs url log :
  feeds_ok ra rs None log →
  feeds_ok ra rs (Some (next_handle log)) (FOpen EventsFeed url :: log).
Proof.
  intros [Ht He]. split.
  - intros h k [Heq|Hin]; [by injection Heq as <- <-|].
    specialize (Ht h k Hin). destruct k; simpl in *; done.
  - apply exclusive_cons; [|exact He].
    specialize (He 0%nat). rewrite drop_0 in He. exact He.
Qed.

Lemma feeds_ok_open_sensor ra re captured url log :
  feeds_ok ra None re log →
  feeds_ok ra (Some (next_handle log)) re
    (FOpen (SensorFeed captured) url :: log).
Proof.
  intros [Ht He]. split.
  - intros h k [Heq|Hin]; [by injection Heq as <- <-|].
    specialize (Ht h k Hin). destruct k; simpl in *; done.
  - apply exclusive_cons; [|exact He].
    unfold open_sensor_feeds. simpl.
    change (List.filter is_sensor_feed (open_feeds log))
      with (open_sensor_feeds log).
    rewrite (no_sensor_feed_open _ _ _ Ht). simpl. lia.
Qed.

Lemma feeds_ok_all_closed log :
  feeds_ok None None None log → open_feeds log = [].
Proof.
  intros [Ht _]. destruct (open_feeds log) as [|[h k] l] eqn:Hf; [done|].
  specialize (Ht h k). rewrite Hf in Ht. specialize (Ht (or_introl eq_refl)).
  destruct k; simpl in *; done.
Qed.

End FeedLog.

Section Frames.
Context `{B : Backend}.

(** The gateway touches [localStorage], the location and the wire, nothing
    else. *)
Lemma axiosInstance_fuel_frame {A} (api : Oracle A) n c w :
  feed_log (snd (axiosInstance_fuel n api c w)) = feed_log w
  ∧ console (snd (axiosInstance_fuel n api c w)) = console w
  ∧ alert_log (snd (axiosInstance_fuel n api c w)) = alert_log w.
Proof.
  revert c w. induction n as [|n IH]; intros c w; [done|].
  rewrite axiosInstance_fuel_S. unfold dispatch.
  destruct (settle _ _) as [r|e|]; try done.
  destruct e as [c' r|m]; [|done].
  unfold response_rejected.
  destruct (status_is 401 r && negb (_retry c')); [|done].
  unfold refresh_tokens.
  destruct (negb _ || negb _); [done|].
  unfold axios_post, dispatch.
  destruct (settle _ _) as [resp|e|]; try done.
  destruct (body resp) as [a r'].
  match goal with |- context [axiosInstance_fuel n api ?c' ?w'] =>
    destruct (IH c' w') as (-> & -> & ->) end.
  done.
Qed.

Lemma axiosInstance_frame {A} (api : Oracle A) c w :
  feed_log (snd (axiosInstance api c w)) = feed_log w
  ∧ console (snd (axiosInstance api c w)) = console w
  ∧ alert_log (snd (axiosInstance api c w)) = alert_log w.
Proof. apply axiosInstance_fuel_frame. Qed.

Lemma axiosInstance_fuel_in_flight {A} (api : Oracle A) n c w :
  in_flight (snd (axiosInstance_fuel n api c w)) = in_flight w.
Proof.
  revert c w. induction n as [|n IH]; intros c w; [done|].
  rewrite axiosInstance_fuel_S. unfold dispatch.
  destruct (settle _ _) as [r|e|]; try done.
  destruct e as [c' r|m]; [|done].
  unfold response_rejected.
  destruct (status_is 401 r && negb (_retry c')); [|done].
  unfold refresh_tokens.
  destruct (negb _ || negb _); [done|].
  unfold axios_post, dispatch.
  destruct (settle _ _) as [resp|e|]; try done.
  destruct (body resp) as [a r'].
  match goal with |- context [axiosInstance_fuel n api ?c' ?w'] =>
    rewrite (IH c' w') end.
  done.
Qed.

Lemma axiosInstance_in_flight {A} (api : Oracle A) c w :
  in_flight (snd (axiosInstance api c w)) = in_flight w.
Proof. apply axiosInstance_fuel_in_flight. Qed.

(** Sending and delivering at once is the awaited call. *)
Lemma axiosInstance_split {A} (api : Oracle A) c w :
  axiosInstance api c w
  = let '(reply, w1) := axiosInstance_send api c w in
    axiosInstance_deliver api reply w1.
Proof.
  unfold axiosInstance, axiosInstance_send, axiosInstance_deliver.
  rewrite axiosInstance_fuel_S.
  by destruct (dispatch _ _ _ _ _) as [[r|e|] w1].
Qed.

(** Sending touches the wire only. *)
Lemma axiosInstance_send_frame {A} (api : Oracle A) c w :
  feed_log (snd (axiosInstance_send api c w)) = feed_log w
  ∧ console (snd (axiosInstance_send api c w)) = console w
  ∧ alert_log (snd (axiosInstance_send api c w)) = alert_log w
  ∧ in_flight (snd (axiosInstance_send api c w)) = in_flight w
  ∧ localStorage (snd (axiosInstance_send api c w)) = localStorage w
  ∧ location_href (snd (axiosInstance_send api c w)) = location_href w.
Proof. done. Qed.

Lemma axiosInstance_deliver_frame {A} (api : Oracle A) reply w :
  feed_log (snd (axiosInstance_deliver api reply w)) = feed_log w
  ∧ console (snd (axiosInstance_deliver api reply w)) = console w
  ∧ alert_log (snd (axiosInstance_deliver api reply w)) = alert_log w
  ∧ in_flight (snd (axiosInstance_deliver api reply w)) = in_flight w.
Proof.
  destruct reply as [r|e|]; try done.
  unfold axiosInstance_deliver, response_rejected.
  destruct e as [c' r|m]; [|done].
  destruct (status_is 401 r && negb (_retry c')); [|done].
  unfold refresh_tokens.
  destruct (negb _ || negb _); [done|].
  unfold axios_post, dispatch.
  destruct (settle _ _) as [resp|e|]; try done.
  destruct (body resp) as [a r'].
  match goal with |- context [axiosInstance_fuel 1 api ?c' ?w'] =>
    destruct (axiosInstance_fuel_frame api 1 c' w') as (-> & -> & ->);
    rewrite (axiosInstance_fuel_in_flight api 1 c' w') end.
  done.
Qed.

Ltac gateway_cases :=
  match goal with
  | |- context [axiosInstance ?api ?c ?w] =>
      let H := fresh "Hframe" in
      pose proof (axiosInstance_frame api c w) as H;
      destruct (axiosInstance api c w) as [[?|?|] ?];
      simpl in H; destruct H as (? & ? & ?)
  | |- context [axiosInstance_deliver ?api ?r ?w] =>
      let H := fresh "Hframe" in
      pose proof (axiosInstance_deliver_frame api r w) as H;
      destruct (axiosInstance_deliver api r w) as [[?|?|] ?];
      simpl in H; destruct H as (? & ? & ? & ?)
  | |- context [axiosInstance_send ?api ?c ?w] =>
      let H := fresh "Hframe" in
      pose proof (axiosInstance_send_frame api c w) as H;
      destruct (axiosInstance_send api c w) as [? ?];
      simpl in H; destruct H as (? & ? & ? & ? & ? & ?)
  end.

Ltac frame :=
  intros; unfold feeds_of;
  repeat first [gateway_cases | case_match];
  simpl in *; congruence.

Lemma fetchUserProfile_feeds st w :
  feeds_of (fetchUserProfile st w) = feeds_of (st, w).
Proof. unfold fetchUserProfile, fetchUserProfile_then. frame. Qed.

Lemma fetchLatestData_feeds r st w :
  feeds_of (fetchLatestData r st w) = feeds_of (st, w).
Proof. unfold fetchLatestData, fetchLatestData_then. frame. Qed.

(** Sending a request touches no source. *)
Lemma fetchUserProfile_start_feeds st w :
  feeds_of (st, fetchUserProfile_start w) = feeds_of (st, w).
Proof. unfold fetchUserProfile_start. frame. Qed.

Lemma fetchDevices_start_feeds r st w :
  feeds_of (st, fetchDevices_start r w) = feeds_of (st, w).
Proof. unfold fetchDevices_start. frame. Qed.

Lemma fetchLatestData_start_feeds r st w :
  feeds_of (st, fetchLatestData_start r w) = feeds_of (st, w).
Proof. unfold fetchLatestData_start. frame. Qed.

Lemma fetchRecentAlerts_start_feeds st w :
  feeds_of (st, fetchRecentAlerts_start w) = feeds_of (st, w).
Proof. unfold fetchRecentAlerts_start. frame. Qed.

Lemma fetchRecentEvents_start_feeds st w :
  feeds_of (st, fetchRecentEvents_start w) = feeds_of (st, w).
Proof. unfold fetchRecentEvents_start. frame. Qed.

Lemma fetchAnalytics_start_feeds r st w :
  feeds_of (st, fetchAnalytics_start r w) = feeds_of (st, w).
Proof. unfold fetchAnalytics_start. frame. Qed.

Lemma fetchSensorHistory_start_feeds r st w :
  feeds_of (st, fetchSensorHistory_start r w) = feeds_of (st, w).
Proof. unfold fetchSensorHistory_start. frame. Qed.

Lemma fetchThresholds_start_feeds st w :
  feeds_of (st, fetchThresholds_start w) = feeds_of (st, w).
Proof. unfold fetchThresholds_start. frame. Qed.

(** Nor does the rest of a fetch, when its reply is delivered. *)
Lemma resume_feeds t st w : feeds_of (resume t st w) = feeds_of (st, w).
Proof.
  destruct t; unfold resume, fetchUserProfile_then, fetchDevices_then,
    fetchRecentAlerts_then, fetchRecentEvents_then, fetchThresholds_then,
    fetchLatestData_then, fetchAnalytics_then, fetchSensorHistory_then;
    frame.
Qed.

Lemma deliver_feeds i st w : feeds_of (deliver i st w) = feeds_of (st, w).
Proof.
  unfold deliver. destruct (in_flight w !! i); [|done].
  by rewrite resume_feeds.
Qed.

Lemma onmessage_feeds kind data st w :
  feeds_of (onmessage kind data st w) = feeds_of (st, w).
Proof.
  destruct kind; simpl;
    unfold alerts_onmessage, events_onmessage, sensor_onmessage; frame.
Qed.

Lemma feeds_inv_frame (x y : Dashboard * World) :
  feeds_of x = feeds_of y → feeds_inv y → feeds_inv x.
Proof.
  unfold feeds_of, feeds_inv. intros [= -> -> -> ->]. done.
Qed.

(** Each function that owns a feed keeps the refs and the log in step. *)
Lemma setupAlertsSSE_inv st w :
  feeds_inv (st, w) → feeds_inv (setupAlertsSSE st w).
Proof.
  unfold setupAlertsSSE, feeds_inv. intros H.
  destruct (negb _); [done|]. simpl in *.
  replace (feed_log (close_current (alertsSSERef st) w))
    with (close_opt (alertsSSERef st) (feed_log w))
    by (destruct (alertsSSERef st); reflexivity).
  apply feeds_ok_open_alerts. by apply feeds_ok_reset_alerts.
Qed.

Lemma setupEventsSSE_inv st w :
  feeds_inv (st, w) → feeds_inv (setupEventsSSE st w).
Proof.
  unfold setupEventsSSE, feeds_inv. intros H.
  destruct (negb _); [done|]. simpl in *.
  replace (feed_log (close_current (eventsSSERef st) w))
    with (close_opt (eventsSSERef st) (feed_log w))
    by (destruct (eventsSSERef st); reflexivity).
  apply feeds_ok_open_events. by apply feeds_ok_reset_events.
Qed.

Lemma setupSensorSSE_inv r st w :
  feeds_inv (st, w) → feeds_inv (setupSensorSSE r st w).
Proof.
  unfold setupSensorSSE, feeds_inv. intros H.
  destruct (negb (nonempty _)); [done|].
  destruct (negb (truthy _)); [done|]. simpl in *.
  replace (feed_log (close_current (sensorSSERef st) w))
    with (close_opt (sensorSSERef st) (feed_log w))
    by (destruct (sensorSSERef st); reflexivity).
  apply feeds_ok_open_sensor. by apply feeds_ok_reset_sensor.
Qed.

Lemma closeSSEConnections_closed st w :
  feeds_inv (st, w) →
  feeds_of (closeSSEConnections st w)
  = (None, None, None,
     close_opt (eventsSSERef st)
       (close_opt (sensorSSERef st)
          (close_opt (alertsSSERef st) (feed_log w))))
  ∧ feeds_ok None None None (feed_log (snd (closeSSEConnections st w))).
Proof.
  intros H.
  assert (Heq : feeds_of (closeSSEConnections st w)
                = (None, None, None,
                   close_opt (eventsSSERef st)
                     (close_opt (sensorSSERef st)
                        (close_opt (alertsSSERef st) (feed_log w))))).
  { unfold closeSSEConnections, feeds_of.
    destruct (alertsSSERef st) eqn:Ea, (sensorSSERef st) eqn:Es,
      (eventsSSERef st) eqn:Ee;
      repeat progress (simpl; rewrite ?Ea, ?Es, ?Ee); reflexivity. }
  split; [exact Heq|].
  injection Heq as _ _ _ ->.
  by apply feeds_ok_reset_events, feeds_ok_reset_sensor,
    feeds_ok_reset_alerts.
Qed.

Lemma closeSSEConnections_inv st w :
  feeds_inv (st, w) → feeds_inv (closeSSEConnections st w).
Proof.
  intros H. destruct (closeSSEConnections_closed st w H) as [Heq Hok].
  unfold feeds_inv. injection Heq as -> -> -> _. exact Hok.
Qed.

Lemma effect_sensor_cleanup_inv st w :
  feeds_inv (st, w) → feeds_inv (effect_sensor_cleanup st w).
Proof.
  unfold effect_sensor_cleanup, feeds_inv. intros H.
  pose proof (feeds_ok_reset_sensor _ _ _ _ H) as H'.
  destruct (sensorSSERef st) eqn:E; simpl in *;
    rewrite ?E in *; simpl in *; [exact H'|exact H].
Qed.

Lemma onerror_inv kind h st w :
  feeds_inv (st, w) → feeds_inv (st, onerror kind h w).
Proof. unfold feeds_inv, onerror. simpl. apply feeds_ok_close. Qed.

Lemma handleLogout_inv st w :
  feeds_inv (st, w) → feeds_inv (handleLogout st w).
Proof.
  unfold handleLogout. intros H.
  pose proof (axiosInstance_frame logout_api
                (request POST "/auth/logout" NoBody) w) as (Hf & _).
  destruct (axiosInstance _ _ w) as [s w1]. simpl in Hf.
  assert (H1 : feeds_inv (st, w1))
    by (unfold feeds_inv in *; simpl in *; by rewrite Hf).
  assert (Hfin : ∀ w2, feed_log w2 = feed_log w1 →
            feeds_inv (let '(st0, w0) := closeSSEConnections st w2 in
                       (setUser None (setIsAuthenticated false st0),
                        clear w0))).
  { intros w2 Hw2.
    assert (H2 : feeds_inv (st, w2))
      by (unfold feeds_inv in *; simpl in *; by rewrite Hw2).
    apply closeSSEConnections_inv in H2.
    destruct (closeSSEConnections st w2) as [st0 w0]. exact H2. }
  destruct s; [apply Hfin; reflexivity|apply Hfin; reflexivity|exact H1].
Qed.

Lemma handleLoginSuccess_feeds st w :
  feeds_of (handleLoginSuccess st w) = feeds_of (st, w).
Proof.
  unfold handleLoginSuccess. rewrite fetchUserProfile_feeds. reflexivity.
Qed.

Lemma handleAddDevice_feeds r st w :
  feeds_of (handleAddDevice r st w) = feeds_of (st, w).
Proof.
  unfold handleAddDevice.
  destruct (_ || _); [reflexivity|].
  gateway_cases; [|frame|frame].
  destruct (status _ =? 204); [|frame].
  unfold fetchDevices_start. frame.
Qed.

Lemma handleDeleteDevice_feeds confirmed id r st w :
  feeds_of (handleDeleteDevice confirmed id r st w) = feeds_of (st, w).
Proof.
  unfold handleDeleteDevice.
  destruct (negb confirmed); [reflexivity|].
  gateway_cases; [|frame|frame].
  destruct (status _ =? 204); [|frame].
  unfold fetchDevices_start. frame.
Qed.

Lemma handleLogin_feeds p st w :
  feeds_of (snd (fst (handleLogin p st w)), snd (handleLogin p st w))
  = feeds_of (st, w).
Proof.
  unfold handleLogin.
  gateway_cases; [|frame|frame].
  destruct (status _ =? 200); [|frame].
  destruct (body _) as [tokens|]; [|frame].
  match goal with |- context [handleLoginSuccess ?st ?w] =>
    pose proof (handleLoginSuccess_feeds st w) as Hd;
    destruct (handleLoginSuccess st w) as [st1 w1] end.
  unfold feeds_of in *. simpl in *. congruence.
Qed.

End Frames.

(** ** Invariants of the event loop *)

Section LoopInvariant.
Context `{B : Backend}.
Variable P : Dashboard * World → Prop.
Hypothesis HP : Respected P.

Lemma preserves_seq f g :
  preserves P f → preserves P g →
  preserves P (λ st w, let '(st, w) := f st w in g st w).
Proof.
  intros Hf Hg st w H. specialize (Hf st w H).
  destruct (f st w) as [st1 w1]. by apply Hg.
Qed.

Lemma preserves_when b f : preserves P f → preserves P (when b f).
Proof. intros Hf st w H. unfold when. destruct b; [by apply Hf|done]. Qed.

Lemma preserves_if (b : bool) f :
  preserves P f → preserves P (λ st w, if b then f st w else (st, w)).
Proof. intros Hf st w H. destruct b; [by apply Hf|done]. Qed.

Lemma effect_fetch_preserves r : preserves P (effect_fetch r).
Proof.
  unfold effect_fetch. apply preserves_if. intros st w H.
  apply (r_fetchThresholds P HP), (r_fetchRecentEvents P HP),
    (r_fetchRecentAlerts P HP), (r_fetchDevices P HP r), H.
Qed.

Lemma effect_feeds_preserves r : preserves P (effect_feeds r).
Proof.
  unfold effect_feeds. apply preserves_if.
  apply (preserves_seq setupAlertsSSE); apply HP.
Qed.

Lemma effect_sensor_preserves r : preserves P (effect_sensor r).
Proof.
  unfold effect_sensor. apply preserves_if.
  apply (preserves_seq (setupSensorSSE r)
           (λ st w, (st, fetchLatestData_start r w))); apply HP.
Qed.

Lemma effect_history_preserves r : preserves P (effect_history r).
Proof.
  unfold effect_history. apply preserves_if. intros st w H.
  apply (r_fetchSensorHistory P HP r), (r_fetchAnalytics P HP r), H.
Qed.

Lemma run_effects_preserves prev r : preserves P (run_effects prev r).
Proof.
  unfold run_effects. destruct prev as [prev|].
  - apply (preserves_seq (when _ closeSSEConnections)).
    { apply preserves_when, HP. }
    apply (preserves_seq (when _ effect_sensor_cleanup)).
    { apply preserves_when, HP. }
    apply (preserves_seq (when _ (effect_fetch r))).
    { apply preserves_when, effect_fetch_preserves. }
    apply (preserves_seq (when _ (effect_feeds r))).
    { apply preserves_when, effect_feeds_preserves. }
    apply (preserves_seq (when _ (effect_sensor r))).
    { apply preserves_when, effect_sensor_preserves. }
    apply preserves_when, effect_history_preserves.
  - apply (preserves_seq effect_initialize); [apply HP|].
    apply (preserves_seq (effect_fetch r)); [apply effect_fetch_preserves|].
    apply (preserves_seq (effect_feeds r)); [apply effect_feeds_preserves|].
    apply (preserves_seq (effect_sensor r));
      [apply effect_sensor_preserves|].
    apply effect_history_preserves.
Qed.

Lemma commit_preserves a :
  P (dash a, world a) → P (dash (commit a), world (commit a)).
Proof.
  unfold commit. intros H.
  pose proof (run_effects_preserves (rendered a) (dash a) _ _ H) as H'.
  destruct (run_effects _ _ _ _) as [st w]. exact H'.
Qed.

Lemma handle_preserves e r a :
  P (dash a, world a) → P (dash (handle e r a), world (handle e r a)).
Proof.
  intros H.
  assert (Hon : ∀ f, preserves P f →
            P (dash (let '(st, w) := f (dash a) (world a) in
                     {| page := page a; dash := st;
                        rendered := rendered a; world := w |}),
               world (let '(st, w) := f (dash a) (world a) in
                      {| page := page a; dash := st;
                         rendered := rendered a; world := w |}))).
  { intros f Hf. specialize (Hf _ _ H).
    destruct (f (dash a) (world a)) as [st w]. exact Hf. }
  destruct e; try exact H; unfold handle.
  - pose proof (r_handleLogin P HP (page a) _ _ H) as Hl.
    cbv beta in Hl.
    destruct (handleLogin _ _ _) as [[p st] w]. exact Hl.
  - apply Hon, HP.
  - apply (Hon (λ st w, (selectDevice _ st, w))), HP.
  - apply (Hon (λ st w, (setSelectedSensorType _ st, w))), HP.
  - apply (Hon (λ st w, (setShowAddDevice _ st, w))), HP.
  - apply (Hon (λ st w, (setNewDevice _ st, w))), HP.
  - apply Hon, HP.
  - apply Hon, HP.
Qed.

Lemma step_preserves a e :
  P (dash a, world a) → P (dash (step a e), world (step a e)).
Proof.
  intros H.
  destruct e as [| | | | | | | | | | |hd payload|hd|i];
    try (unfold step; destruct (rendered a);
         [apply handle_preserves; exact H|exact H]).
  - by apply commit_preserves.
  - unfold step.
    match goal with |- context [list_find ?Q ?l] =>
      destruct (list_find Q l) as [[i [h k]]|] end; [|exact H].
    pose proof (r_onmessage P HP k payload _ _ H) as Hm.
    cbv beta in Hm.
    destruct (onmessage _ _ _ _) as [st w]. exact Hm.
  - unfold step.
    match goal with |- context [list_find ?Q ?l] =>
      destruct (list_find Q l) as [[i [h k]]|] end; [|exact H].
    apply (r_onerror P HP k hd _ _ H).
  - unfold step. pose proof (r_deliver P HP i _ _ H) as Hd.
    destruct (deliver i (dash a) (world a)) as [st w]. exact Hd.
Qed.

Lemma run_preserves events a :
  P (dash a, world a) → P (dash (run a events), world (run a events)).
Proof.
  revert a. induction events as [|e events IH]; intros a H; [exact H|].
  simpl. apply IH. by apply step_preserves.
Qed.

End LoopInvariant.

Section Feeds.
Context `{B : Backend}.

Lemma preserves_feeds f :
  (∀ st w, feeds_of (f st w) = feeds_of (st, w)) → preserves feeds_inv f.
Proof. intros Hf st w H. eapply feeds_inv_frame; [apply Hf|exact H]. Qed.

Lemma feeds_inv_respected : Respected feeds_inv.
Proof.
  constructor; intros; try (apply preserves_feeds; intros; reflexivity).
  - intros st w H. unfold effect_initialize.
    destruct (_ && _); [|done].
    eapply feeds_inv_frame; [|exact H].
    apply (fetchUserProfile_start_feeds (setIsAuthenticated true st)).
  - apply preserves_feeds. intros. apply fetchLatestData_start_feeds.
  - apply preserves_feeds. intros. apply fetchAnalytics_start_feeds.
  - apply preserves_feeds. intros. apply fetchSensorHistory_start_feeds.
  - apply preserves_feeds. intros. apply deliver_feeds.
  - intros st w. apply setupAlertsSSE_inv.
  - intros st w. apply setupEventsSSE_inv.
  - intros st w. apply setupSensorSSE_inv.
  - intros st w. apply closeSSEConnections_inv.
  - intros st w. apply effect_sensor_cleanup_inv.
  - apply preserves_feeds, handleLogin_feeds.
  - intros st w. apply handleLogout_inv.
  - apply preserves_feeds, handleAddDevice_feeds.
  - apply preserves_feeds, handleDeleteDevice_feeds.
  - apply preserves_feeds, onmessage_feeds.
  - intros st w. apply onerror_inv.
Qed.

Lemma feeds_inv_initial ls href :
  feeds_inv (Dashboard_initial, World_initial ls href).
Proof.
  split.
  - intros h k [].
  - intros n. simpl. rewrite drop_nil. simpl. lia.
Qed.

Lemma feeds_inv_reachable ls href events :
  let a := run (App_initial (World_initial ls href)) events in
  feeds_inv (dash a, world a).
Proof.
  apply (run_preserves feeds_inv feeds_inv_respected), feeds_inv_initial.
Qed.

(** C5.  From a fresh page load, whatever is stored and whatever the user,
    the feeds and the servers do afterwards, at no moment are two sensor
    feeds open: when a sensor feed is opened, the one opened before it has
    already been closed; and the one that is open, if any, is the one
    [sensorSSERef] holds. *)
Theorem at_most_one_sensor_feed (ls : gmap string string) (href : string)
    (events : list Event) :
  let a := run (App_initial (World_initial ls href)) events in
  sensor_feeds_exclusive (feed_log (world a))
  ∧ ∀ h k, In (h, k) (open_sensor_feeds (feed_log (world a))) →
           sensorSSERef (dash a) = Some h.
Proof.
  intros a.
  destruct (feeds_inv_reachable ls href events) as [Ht He].
  split; [exact He|].
  intros h k [Hin Hk]%filter_In. specialize (Ht h k Hin).
  destruct k; simpl in *; done.
Qed.

(** C6.  In any state the page can be in, whatever the server answers to
    the logout call (or to the refresh it may lead to), [handleLogout] ends
    with every feed closed, an empty store, and the session logged out. *)
Theorem logout_closes_everything (ls : gmap string string) (href : string)
    (events : list Event) :
  let a := run (App_initial (World_initial ls href)) events in
  let st' := fst (handleLogout (dash a) (world a)) in
  let w' := snd (handleLogout (dash a) (world a)) in
  open_feeds (feed_log w') = []
  ∧ localStorage w' = ∅
  ∧ isAuthenticated st' = false ∧ user st' = None
  ∧ alertsSSERef st' = None ∧ sensorSSERef st' = None
  ∧ eventsSSERef st' = None.
Proof.
  intros a. pose proof (feeds_inv_reachable ls href events) as H.
  fold a in H. unfold handleLogout.
  pose proof (axiosInstance_settles logout_api
                (request POST "/auth/logout" NoBody) (world a)) as Hs.
  pose proof (axiosInstance_frame logout_api
                (request POST "/auth/logout" NoBody) (world a)) as (Hf & _).
  destruct (axiosInstance _ _ (world a)) as [s w1]. simpl in Hs, Hf.
  assert (Hfin : ∀ w2, feed_log w2 = feed_log w1 →
    let x := (let '(st0, w0) := closeSSEConnections (dash a) w2 in
              (setUser None (setIsAuthenticated false st0), clear w0)) in
    open_feeds (feed_log (snd x)) = [] ∧ localStorage (snd x) = ∅
    ∧ isAuthenticated (fst x) = false ∧ user (fst x) = None
    ∧ alertsSSERef (fst x) = None ∧ sensorSSERef (fst x) = None
    ∧ eventsSSERef (fst x) = None).
  { intros w2 Hw2.
    assert (H2 : feeds_inv (dash a, w2))
      by (unfold feeds_inv in *; simpl in *; by rewrite Hw2, Hf).
    destruct (closeSSEConnections_closed _ _ H2) as [Heq Hok].
    destruct (closeSSEConnections (dash a) w2) as [st0 w0].
    unfold feeds_of in Heq. simpl in *. injection Heq as Ha Hse He _.
    repeat split; try done. by apply feeds_ok_all_closed. }
  destruct s; [apply Hfin; reflexivity|apply Hfin; reflexivity|done].
Qed.

End Feeds.

(** ** Buffer bounds *)

Section Buffers.
Context `{B : Backend}.

Lemma settle_Resolved {A} (c : Config) (o : Outcome A) res :
  settle c o = Resolved res → o = Replied (status res) (body res).
Proof.
  destruct o as [s b|s m Hs|]; simpl; try discriminate.
  destruct (validateStatus s); [|discriminate].
  by intros [= <-].
Qed.

(** What the gateway resolves with is a reply of the endpoint. *)
Lemma axiosInstance_Resolved {A} (api : Oracle A) c w res :
  fst (axiosInstance api c w) = Resolved res →
  ∃ h call, api h call = Replied (status res) (body res).
Proof.
  unfold axiosInstance. rewrite axiosInstance_fuel_S. unfold dispatch.
  destruct (settle _ _) as [r|e|] eqn:Hs.
  - intros [= ->]. apply settle_Resolved in Hs. eauto.
  - destruct e as [c' r|m]; [|discriminate]. unfold response_rejected.
    destruct (status_is 401 r && negb (_retry c')); [|discriminate].
    match goal with |- context [refresh_tokens ?w] =>
      destruct (refresh_tokens w) as [[resp|e|] w2] end;
      try discriminate.
    destruct (body resp) as [a r'].
    rewrite axiosInstance_fuel_retried by reflexivity.
    unfold dispatch. simpl. intros Hs'%settle_Resolved. eauto.
  - discriminate.
Qed.

Lemma length_slice_last {A} n (xs : list A) :
  (length (slice_last n xs) ≤ n)%nat.
Proof. unfold slice_last. rewrite length_drop. lia. Qed.

Lemma length_filter_le {A} (f : A → bool) (xs : list A) :
  (length (List.filter f xs) ≤ length xs)%nat.
Proof.
  induction xs as [|x xs IH]; simpl; [lia|].
  destruct (f x); simpl; lia.
Qed.

(** What a request resolves with, at once or on delivery, is a reply of
    its endpoint. *)
Lemma axiosInstance_send_Resolved {A} (api : Oracle A) c w res :
  fst (axiosInstance_send api c w) = Resolved res →
  ∃ h call, api h call = Replied (status res) (body res).
Proof.
  unfold axiosInstance_send, dispatch. simpl.
  intros Hs%settle_Resolved. eauto.
Qed.

Lemma axiosInstance_deliver_Resolved {A} (api : Oracle A) reply w res :
  fst (axiosInstance_deliver api reply w) = Resolved res →
  reply = Resolved res
  ∨ ∃ h call, api h call = Replied (status res) (body res).
Proof.
  destruct reply as [r|e|]; unfold axiosInstance_deliver;
    [by intros [= ->]; left| |discriminate].
  destruct e as [c' r|m]; [|discriminate]. unfold response_rejected.
  destruct (status_is 401 r && negb (_retry c')); [|discriminate].
  match goal with |- context [refresh_tokens ?w] =>
    destruct (refresh_tokens w) as [[resp|e|] w2] end;
    try discriminate.
  destruct (body resp) as [a r'].
  rewrite axiosInstance_fuel_retried by reflexivity.
  unfold dispatch. simpl. intros Hs'%settle_Resolved. eauto.
Qed.

Lemma preserves_buffers f :
  (∀ st w, buffers_of (f st w) = buffers_of (st, w)) →
  preserves buffers_bounded f.
Proof.
  intros Hf st w H. specialize (Hf st w).
  unfold buffers_of, buffers_bounded in *. simpl in *.
  injection Hf as -> -> -> ->. exact H.
Qed.

Lemma fetchUserProfile_buffers st w :
  buffers_of (fetchUserProfile st w) = buffers_of (st, w).
Proof.
  unfold fetchUserProfile, fetchUserProfile_then, buffers_of.
  pose proof (axiosInstance_in_flight profile_api
                (request GET "/auth/profile" NoBody) w) as Hf.
  destruct (axiosInstance _ _ w) as [[res|e|] w1]; simpl in *;
    by rewrite Hf.
Qed.

Lemma closeSSEConnections_buffers st w :
  buffers_of (closeSSEConnections st w) = buffers_of (st, w).
Proof.
  unfold closeSSEConnections, buffers_of.
  destruct (alertsSSERef st) eqn:Ea, (sensorSSERef st) eqn:Es,
    (eventsSSERef st) eqn:Ee;
    repeat progress (simpl; rewrite ?Ea, ?Es, ?Ee); reflexivity.
Qed.

(** A request joins those in flight: what it was answered with, if it
    resolved, is a reply of its endpoint. *)
Lemma enqueue_bounded t st w :
  (alert_snapshots_bounded → alert_reply_bounded t) →
  (event_snapshots_bounded → event_reply_bounded t) →
  (history_snapshots_bounded → history_reply_bounded t) →
  buffers_bounded (st, w) → buffers_bounded (st, enqueue t w).
Proof.
  intros Ta Te Th (Ha & He & Hh). unfold buffers_bounded. simpl in *.
  split; [|split]; intros Hs.
  - destruct (Ha Hs). split; [done|]. apply Forall_app. auto.
  - destruct (He Hs). split; [done|]. apply Forall_app. auto.
  - destruct (Hh Hs). split; [done|]. apply Forall_app. auto.
Qed.

Lemma send_bounded {A} (api : Oracle A) c (task : Settled A → Task) st w :
  (∀ res, (∃ h call, api h call = Replied (status res) (body res)) →
          (alert_snapshots_bounded → alert_reply_bounded (task (Resolved res)))
          ∧ (event_snapshots_bounded
             → event_reply_bounded (task (Resolved res)))
          ∧ (history_snapshots_bounded
             → history_reply_bounded (task (Resolved res)))) →
  (∀ e, alert_reply_bounded (task (Rejected e))
        ∧ event_reply_bounded (task (Rejected e))
        ∧ history_reply_bounded (task (Rejected e))) →
  buffers_bounded (st, w) →
  buffers_bounded
    (st, let '(reply, w) := axiosInstance_send api c w in
         enqueue (task reply) w).
Proof.
  intros Hres Hrej H.
  pose proof (axiosInstance_send_Resolved api c w) as Hs.
  pose proof (settle_not_Pending (request_interceptor c w)
                (api (net_log w)
                   (wire ViaInstance API_BASE (request_interceptor c w))))
    as Hp.
  unfold axiosInstance_send, dispatch in *. simpl in Hs.
  destruct (settle _ _) as [res|e|]; [| |done].
  - destruct (Hres res (Hs res eq_refl)) as (Ta & Te & Th).
    by apply enqueue_bounded.
  - destruct (Hrej e) as (Ta & Te & Th). by apply enqueue_bounded.
Qed.

Ltac other_task :=
  apply send_bounded; [intros res _; repeat split; done
                      |intros e; repeat split; done|assumption].

Lemma fetchUserProfile_start_bounded st w :
  buffers_bounded (st, w) → buffers_bounded (st, fetchUserProfile_start w).
Proof. intros H. unfold fetchUserProfile_start. other_task. Qed.

Lemma fetchDevices_start_bounded r :
  preserves buffers_bounded (λ st w, (st, fetchDevices_start r w)).
Proof.
  intros st w H. unfold fetchDevices_start.
  apply (send_bounded devices_api _ (DevicesRequest (selectedDeviceId r)));
    [intros res _; repeat split; done|intros e; repeat split; done|done].
Qed.

Lemma fetchThresholds_start_bounded :
  preserves buffers_bounded (λ st w, (st, fetchThresholds_start w)).
Proof. intros st w H. unfold fetchThresholds_start. other_task. Qed.

Lemma fetchLatestData_start_bounded r :
  preserves buffers_bounded (λ st w, (st, fetchLatestData_start r w)).
Proof.
  intros st w H. unfold fetchLatestData_start.
  destruct (negb _); [done|].
  apply (send_bounded latest_api _ (LatestRequest (selectedSensorType r)));
    [intros res _; repeat split; done|intros e; repeat split; done|done].
Qed.

Lemma fetchAnalytics_start_bounded r :
  preserves buffers_bounded (λ st w, (st, fetchAnalytics_start r w)).
Proof.
  intros st w H. unfold fetchAnalytics_start.
  destruct (negb _); [done|]. cbv zeta. other_task.
Qed.

Lemma fetchRecentAlerts_start_bounded :
  preserves buffers_bounded (λ st w, (st, fetchRecentAlerts_start w)).
Proof.
  intros st w H. unfold fetchRecentAlerts_start.
  apply (send_bounded alerts_api _ AlertsRequest);
    [|intros e; repeat split; done|done].
  intros res (h & call & Hr). repeat split; try done.
  intros Hs. simpl. destruct (body res) as [l|]; simpl in *; [|lia].
  by apply (Hs h call (status res)).
Qed.

Lemma fetchRecentEvents_start_bounded :
  preserves buffers_bounded (λ st w, (st, fetchRecentEvents_start w)).
Proof.
  intros st w H. unfold fetchRecentEvents_start. cbv zeta.
  apply (send_bounded events_api _ EventsRequest);
    [|intros e; repeat split; done|done].
  intros res (h & call & Hr). repeat split; try done.
  intros Hs. simpl. destruct (body res) as [l|]; simpl in *; [|lia].
  by apply (Hs h call (status res)).
Qed.

Lemma fetchSensorHistory_start_bounded r :
  preserves buffers_bounded (λ st w, (st, fetchSensorHistory_start r w)).
Proof.
  intros st w H. unfold fetchSensorHistory_start.
  destruct (negb _); [done|]. cbv zeta.
  apply (send_bounded history_api _ (HistoryRequest (selectedSensorType r)));
    [|intros e; repeat split; done|done].
  intros res (h & call & Hr). repeat split; try done.
  intros Hs. simpl. by apply (Hs h call (status res)).
Qed.

(** A reply is delivered: the snapshot put in the buffer is the one in
    flight or a later reply of the endpoint. *)
Lemma resume_bounded t st w :
  (alert_snapshots_bounded → alert_reply_bounded t) →
  (event_snapshots_bounded → event_reply_bounded t) →
  (history_snapshots_bounded → history_reply_bounded t) →
  buffers_bounded (st, w) → buffers_bounded (resume t st w).
Proof.
  intros Ta Te Th (Ha & He & Hh). simpl in Ha, He, Hh.
  assert (Hsame : ∀ x, buffers_of x = buffers_of (st, w) →
                       buffers_bounded x).
  { intros x Hx. unfold buffers_of, buffers_bounded in *. simpl in *.
    injection Hx as -> -> -> ->. done. }
  destruct t as [reply|sel reply|reply|reply|reply|sel reply|reply
                |sel reply]; unfold resume.
  - apply Hsame. unfold fetchUserProfile_then, buffers_of.
    destruct (axiosInstance_deliver_frame profile_api reply w)
      as (_ & _ & _ & Hf).
    destruct (axiosInstance_deliver _ _ w) as [[res|e|] w1]; simpl in *;
      by rewrite Hf.
  - apply Hsame. unfold fetchDevices_then, buffers_of.
    destruct (axiosInstance_deliver_frame devices_api reply w)
      as (_ & _ & _ & Hf).
    destruct (axiosInstance_deliver _ _ w) as [[res|e|] w1]; simpl in *;
      repeat case_match; simpl; by rewrite Hf.
  - pose proof (axiosInstance_deliver_Resolved alerts_api reply w) as Hr.
    destruct (axiosInstance_deliver_frame alerts_api reply w)
      as (_ & _ & _ & Hf).
    destruct (axiosInstance_deliver _ _ w) as [[res|e|] w1];
      unfold fetchRecentAlerts_then, buffers_bounded; simpl in *;
      rewrite Hf; (split; [|split; [exact He|exact Hh]]); intros Hs;
      destruct (Ha Hs) as [H1 H2]; (split; [|exact H2]); simpl; try lia.
    destruct (Hr res eq_refl) as [->|(h & call & Hc)]; [by apply Ta|].
    destruct (body res) as [l|]; simpl; [|lia].
    by apply (Hs h call (status res)).
  - pose proof (axiosInstance_deliver_Resolved events_api reply w) as Hr.
    destruct (axiosInstance_deliver_frame events_api reply w)
      as (_ & _ & _ & Hf).
    destruct (axiosInstance_deliver _ _ w) as [[res|e|] w1];
      unfold fetchRecentEvents_then, buffers_bounded; simpl in *;
      rewrite Hf; (split; [exact Ha|split; [|exact Hh]]); intros Hs;
      destruct (He Hs) as [H1 H2]; (split; [|exact H2]); simpl; try lia.
    destruct (Hr res eq_refl) as [->|(h & call & Hc)]; [by apply Te|].
    destruct (body res) as [l|]; simpl; [|lia].
    by apply (Hs h call (status res)).
  - apply Hsame. unfold fetchThresholds_then, buffers_of.
    destruct (axiosInstance_deliver_frame thresholds_api reply w)
      as (_ & _ & _ & Hf).
    destruct (axiosInstance_deliver _ _ w) as [[res|e|] w1]; simpl in *;
      by rewrite Hf.
  - apply Hsame. unfold fetchLatestData_then, buffers_of.
    destruct (axiosInstance_deliver_frame latest_api reply w)
      as (_ & _ & _ & Hf).
    destruct (axiosInstance_deliver _ _ w) as [[res|e|] w1]; simpl in *;
      repeat case_match; simpl; by rewrite Hf.
  - apply Hsame. unfold fetchAnalytics_then, buffers_of.
    destruct (axiosInstance_deliver_frame analytics_api reply w)
      as (_ & _ & _ & Hf).
    destruct (axiosInstance_deliver _ _ w) as [[res|e|] w1]; simpl in *;
      by rewrite Hf.
  - pose proof (axiosInstance_deliver_Resolved history_api reply w) as Hr.
    destruct (axiosInstance_deliver_frame history_api reply w)
      as (_ & _ & _ & Hf).
    destruct (axiosInstance_deliver _ _ w) as [[res|e|] w1];
      unfold fetchSensorHistory_then, buffers_bounded; simpl in *;
      rewrite Hf; (split; [exact Ha|split; [exact He|]]); intros Hs;
      destruct (Hh Hs) as [H1 H2]; (split; [|exact H2]); simpl; try lia.
    destruct (Hr res eq_refl) as [->|(h & call & Hc)]; [by apply Th|].
    by apply (Hs h call (status res)).
Qed.

Lemma deliver_bounded i : preserves buffers_bounded (deliver i).
Proof.
  intros st w H. unfold deliver.
  destruct (in_flight w !! i) as [t|] eqn:Hi; [|exact H].
  destruct H as (Ha & He & Hh). simpl in Ha, He, Hh.
  apply resume_bounded.
  - intros Hs. destruct (Ha Hs) as [_ Hall].
    by apply (Forall_lookup_1 _ _ _ _ Hall Hi).
  - intros Hs. destruct (He Hs) as [_ Hall].
    by apply (Forall_lookup_1 _ _ _ _ Hall Hi).
  - intros Hs. destruct (Hh Hs) as [_ Hall].
    by apply (Forall_lookup_1 _ _ _ _ Hall Hi).
  - unfold buffers_bounded. simpl.
    split; [|split]; intros Hs.
    + destruct (Ha Hs). split; [done|]. by apply Forall_delete.
    + destruct (He Hs). split; [done|]. by apply Forall_delete.
    + destruct (Hh Hs). split; [done|]. by apply Forall_delete.
Qed.

Lemma onmessage_bounded k payload :
  preserves buffers_bounded (onmessage k payload).
Proof.
  intros st w (Ha & He & Hh). simpl in Ha, He, Hh.
  destruct k; simpl;
    unfold alerts_onmessage, events_onmessage, sensor_onmessage;
    repeat case_match; unfold buffers_bounded; simpl;
    (split; [|split]); intros Hs;
    try (destruct (Ha Hs)); try (destruct (He Hs)); try (destruct (Hh Hs));
    (split; [|done]); try done;
    rewrite ?length_take; try lia; apply length_slice_last.
Qed.

Lemma handleDevice_buffers r st w :
  buffers_bounded (st, w) → buffers_bounded (st, fetchDevices_start r w).
Proof. apply fetchDevices_start_bounded. Qed.

Lemma buffers_bounded_respected : Respected buffers_bounded.
Proof.
  constructor; intros;
    try (apply preserves_buffers; intros; reflexivity).
  - intros st w H. unfold effect_initialize.
    destruct (_ && _); [|done].
    apply (fetchUserProfile_start_bounded (setIsAuthenticated true st)).
    exact H.
  - apply fetchDevices_start_bounded.
  - apply fetchRecentAlerts_start_bounded.
  - apply fetchRecentEvents_start_bounded.
  - apply fetchThresholds_start_bounded.
  - apply fetchLatestData_start_bounded.
  - apply fetchAnalytics_start_bounded.
  - apply fetchSensorHistory_start_bounded.
  - apply deliver_bounded.
  - apply preserves_buffers. intros st w.
    unfold setupAlertsSSE, new_EventSource, buffers_of.
    destruct (negb _); [done|]. by destruct (alertsSSERef st).
  - apply preserves_buffers. intros st w.
    unfold setupEventsSSE, new_EventSource, buffers_of.
    destruct (negb _); [done|]. by destruct (eventsSSERef st).
  - apply preserves_buffers. intros st w.
    unfold setupSensorSSE, new_EventSource, buffers_of.
    destruct (negb _); [done|]. destruct (negb _); [done|].
    by destruct (sensorSSERef st).
  - apply preserves_buffers, closeSSEConnections_buffers.
  - apply preserves_buffers. intros. unfold effect_sensor_cleanup.
    repeat case_match; reflexivity.
  - apply preserves_buffers. intros st w. unfold handleLogin.
    pose proof (axiosInstance_in_flight login_api
      (request POST "/auth/login"
         (Credentials (lp_username (setLoading true (setError "" p)))
            (lp_password (setLoading true (setError "" p))))) w) as Hf.
    destruct (axiosInstance login_api _ w) as [[res|e|] w1]; simpl in Hf;
      unfold buffers_of; simpl; rewrite <- ?Hf; try reflexivity.
    destruct (status res =? 200), (body res) as [tokens|]; simpl;
      try reflexivity.
    unfold handleLoginSuccess.
    match goal with |- context [fetchUserProfile ?s ?w'] =>
      pose proof (fetchUserProfile_buffers s w') as Hb;
      destruct (fetchUserProfile s w') as [st2 w2] end.
    unfold buffers_of in Hb. simpl in *. exact Hb.
  - apply preserves_buffers. intros st w. unfold handleLogout.
    pose proof (axiosInstance_in_flight logout_api
      (request POST "/auth/logout" NoBody) w) as Hf.
    destruct (axiosInstance logout_api _ w) as [[res|e|] w1]; simpl in Hf;
      [| |unfold buffers_of; simpl; by rewrite Hf].
    + pose proof (closeSSEConnections_buffers st w1) as Hb.
      destruct (closeSSEConnections st w1) as [st2 w2].
      unfold buffers_of in *. simpl in *. by rewrite <- Hf.
    + pose proof (closeSSEConnections_buffers st
                    (console_error "Logout error:" w1)) as Hb.
      destruct (closeSSEConnections st _) as [st2 w2].
      unfold buffers_of in *. simpl in *. by rewrite <- Hf.
  - intros st w H. unfold handleAddDevice.
    assert (Hal : ∀ msg st0 w0, buffers_bounded (st0, w0) →
                    buffers_bounded (st0, alert msg w0)).
    { intros msg st0 w0.
      apply (preserves_buffers (λ st w, (st, alert msg w))). reflexivity. }
    destruct (_ || _); [by apply Hal|].
    match goal with |- context [axiosInstance ?api ?c w] =>
      pose proof (axiosInstance_in_flight api c w) as Hf;
      destruct (axiosInstance api c w) as [[res|e|] w1] end;
      simpl in Hf.
    + assert (H1 : buffers_bounded (st, w1)).
      { revert H. unfold buffers_bounded. simpl. by rewrite Hf. }
      destruct (status res =? 204); [|exact H1].
      apply (handleDevice_buffers r) in H1. apply Hal.
      revert H1.
      apply (preserves_buffers
               (λ st w, (setShowAddDevice false
                           (setNewDevice newDevice_initial st), w))).
      reflexivity.
    + assert (H1 : buffers_bounded (st, w1)).
      { revert H. unfold buffers_bounded. simpl. by rewrite Hf. }
      destruct e as [c resp|m]; repeat case_match; try apply Hal; exact H1.
    + revert H. unfold buffers_bounded. simpl. by rewrite Hf.
  - intros st w H. unfold handleDeleteDevice.
    assert (Hal : ∀ msg st0 w0, buffers_bounded (st0, w0) →
                    buffers_bounded (st0, alert msg w0)).
    { intros msg st0 w0.
      apply (preserves_buffers (λ st w, (st, alert msg w))). reflexivity. }
    destruct (negb c); [exact H|].
    match goal with |- context [axiosInstance ?api ?c w] =>
      pose proof (axiosInstance_in_flight api c w) as Hf;
      destruct (axiosInstance api c w) as [[res|e|] w1] end;
      simpl in Hf.
    + assert (H1 : buffers_bounded (st, w1)).
      { revert H. unfold buffers_bounded. simpl. by rewrite Hf. }
      destruct (status res =? 204); [|exact H1].
      apply (handleDevice_buffers r) in H1. apply Hal.
      destruct (String.eqb _ _); [|exact H1].
      revert H1.
      apply (preserves_buffers (λ st w, (setSelectedDeviceId "" st, w))).
      reflexivity.
    + assert (H1 : buffers_bounded (st, w1)).
      { revert H. unfold buffers_bounded. simpl. by rewrite Hf. }
      destruct e as [c' resp|m]; repeat case_match; try apply Hal;
        exact H1.
    + revert H. unfold buffers_bounded. simpl. by rewrite Hf.
  - apply onmessage_bounded.
Qed.

(** C4, as amended.  From a fresh page load, whatever happens: as long as
    the alert snapshots the backend serves hold at most 50 alerts, the alert
    buffer never holds more than 50 entries; the same for the device events;
    and as long as its history snapshots hold at most 100 readings of any
    one sensor type, the sensor history never holds more than 100.  A feed
    message prepends its alert or event and keeps the first 50.  A snapshot
    that is delivered replaces the buffer with the list served (for the
    history, its readings of the sensor type selected when it was
    requested), untruncated. *)
Theorem buffers_stay_bounded (ls : gmap string string) (href : string)
    (events : list Event) (data ty : string) (st : Dashboard) (w : World) :
  let a := run (App_initial (World_initial ls href)) events in
  (alert_snapshots_bounded → (length (alerts (dash a)) ≤ 50)%nat)
  ∧ (event_snapshots_bounded → (length (deviceEvents (dash a)) ≤ 50)%nat)
  ∧ (history_snapshots_bounded
     → (length (sensorHistory (dash a)) ≤ 100)%nat)
  ∧ alerts (fst (alerts_onmessage data st w))
    = match parse_alert data with
      | Some alert => take 50 (alert :: alerts st)
      | None => alerts st
      end
  ∧ deviceEvents (fst (events_onmessage data st w))
    = match parse_event data with
      | Some deviceEvent => take 50 (deviceEvent :: deviceEvents st)
      | None => deviceEvents st
      end
  ∧ (∀ res, alerts (fst (resume (AlertsRequest (Resolved res)) st w))
            = default [] (body res))
  ∧ (∀ res, deviceEvents (fst (resume (EventsRequest (Resolved res)) st w))
            = default [] (body res))
  ∧ (∀ res, sensorHistory
              (fst (resume (HistoryRequest ty (Resolved res)) st w))
            = List.filter (λ s, String.eqb (sensorType s) ty)
                (as_array (body res))).
Proof.
  intros a.
  assert (H : buffers_bounded (dash a, world a)).
  { apply (run_preserves buffers_bounded buffers_bounded_respected).
    unfold buffers_bounded. simpl. repeat split; (lia || constructor). }
  destruct H as (Ha & He & Hh). simpl in Ha, He, Hh.
  split; [intros Hs; by destruct (Ha Hs)|].
  split; [intros Hs; by destruct (He Hs)|].
  split; [intros Hs; by destruct (Hh Hs)|].
  split; [unfold alerts_onmessage; by destruct (parse_alert data)|].
  split; [unfold events_onmessage; by destruct (parse_event data)|].
  repeat split; reflexivity.
Qed.

End Buffers.

(** The bounds on the demo backend, which serves three alerts per
    snapshot: the profile, then the alerts arrive, then a feed message. *)
Lemma buffers_stay_bounded_witness :
  let B := Demo.backend 3 in
  let a := run (App_initial (World_initial (Demo.store "fresh" "r0")
                               "/dashboard"))
             [Render; Deliver 0; Render; Deliver 1; FeedMessage 0 "alert"] in
  alert_snapshots_bounded ∧ length (alerts (dash a)) = 4%nat
  ∧ (length (alerts (dash a)) ≤ 50)%nat.
Proof.
  intros B a.
  assert (Hsnap : alert_snapshots_bounded).
  { intros h c s l; simpl; unfold Demo.guarded;
      destruct (Demo.authorized c); intros [= <- <-]; simpl; lia. }
  split; [exact Hsnap|]. split; [vm_compute; reflexivity|].
  destruct (buffers_stay_bounded (B := B) (Demo.store "fresh" "r0")
              "/dashboard"
              [Render; Deliver 0; Render; Deliver 1; FeedMessage 0 "alert"]
              "" "" Dashboard_initial (Demo.page ∅)) as (Ha & _).
  exact (Ha Hsnap).
Defined.

(** C4 as stated fails: a snapshot of 51 alerts fills the alert buffer with
    51 entries; the next feed message brings it back to 50. *)
Lemma snapshot_overfills_buffer_counterexample :
  let B := Demo.backend 51 in
  let a := run (App_initial (Demo.page (Demo.store "fresh" "r0")))
             [Render; Deliver 0; Render; Deliver 1] in
  length (alerts (dash a)) = 51%nat
  ∧ ¬ (length (alerts (dash a)) ≤ 50)%nat
  ∧ length (alerts (dash (step a (FeedMessage 0 "alert")))) = 50%nat.
Proof.
  intros B a.
  assert (H : length (alerts (dash a)) = 51%nat) by (vm_compute; reflexivity).
  split; [exact H|]. split; [rewrite H; lia|].
  vm_compute. reflexivity.
Qed.

(** The other two buffers likewise: a snapshot of 51 device events, and a
    history snapshot of 101 temperature readings, are taken as served. *)
Example event_snapshot_overfills_buffer :
  let B := Demo.serving 0 51 1 in
  let a := run (App_initial (Demo.page (Demo.store "fresh" "r0")))
             [Render; Deliver 0; Render; Deliver 2] in
  length (deviceEvents (dash a)) = 51%nat.
Proof. vm_compute. reflexivity. Qed.

Example history_snapshot_overfills_buffer :
  let B := Demo.serving 0 0 101 in
  let a := run (App_initial (Demo.page (Demo.store "fresh" "r0")))
             Demo.startup in
  selectedSensorType (dash a) = "temperature"
  ∧ length (sensorHistory (dash a)) = 101%nat.
Proof. vm_compute. split; reflexivity. Qed.

Section Handlers.
Context `{B : Backend}.

(** C9.  When [JSON.parse] throws on the payload of a feed message, the
    handler leaves the whole component state as it was, logs the error, and
    touches nothing else: no source is closed, nothing goes on the wire. *)
Theorem invalid_payload_changes_nothing (k : FeedKind) (data : string)
    (st : Dashboard) (w : World) :
  parse_fails k data →
  fst (onmessage k data st w) = st
  ∧ feed_log (snd (onmessage k data st w)) = feed_log w
  ∧ (∃ msg, console (snd (onmessage k data st w))
            = msg :: console w)
  ∧ net_log (snd (onmessage k data st w)) = net_log w
  ∧ localStorage (snd (onmessage k data st w)) = localStorage w
  ∧ location_href (snd (onmessage k data st w)) = location_href w
  ∧ alert_log (snd (onmessage k data st w)) = alert_log w.
Proof.
  destruct k; simpl; intros Hp;
    unfold alerts_onmessage, events_onmessage, sensor_onmessage;
    rewrite Hp; simpl; repeat split; eauto.
Qed.

(** The calls of one request through the gateway: the request itself, then
    possibly the refresh and the request again. *)
Lemma axiosInstance_calls {A} (api : Oracle A) c w :
  ∃ calls,
    net_log (snd (axiosInstance api c w))
    = calls ++ wire ViaInstance API_BASE (request_interceptor c w)
               :: net_log w
    ∧ Forall (λ call, nc_method call = method c ∨ nc_method call = POST)
        calls.
Proof.
  assert (Hm : ∀ w', method (request_interceptor c w') = method c).
  { intros w'. unfold request_interceptor. by destruct (truthy _). }
  unfold axiosInstance. rewrite axiosInstance_fuel_S. unfold dispatch.
  destruct (settle _ _) as [r|e|] eqn:Hs; try (by exists []).
  destruct e as [c' r|m]; [|by exists []].
  apply settle_error_config in Hs. subst c'.
  unfold response_rejected.
  destruct (status_is 401 r && negb _); [|by exists []].
  unfold refresh_tokens. destruct (negb _ || negb _); [by exists []|].
  unfold axios_post, dispatch.
  destruct (settle _ _) as [resp|e|].
  - destruct (body resp) as [a r'].
    rewrite axiosInstance_fuel_retried by reflexivity.
    unfold dispatch. simpl. eexists [_; _]. split; [reflexivity|].
    constructor; [|constructor; [by right|constructor]].
    left. simpl. unfold request_interceptor.
    destruct (truthy _); simpl; apply Hm.
  - simpl. eexists [_]. split; [reflexivity|].
    constructor; [by right|constructor].
  - simpl. eexists [_]. split; [reflexivity|].
    constructor; [by right|constructor].
Qed.

Lemma no_GET_among (m : Method) (calls : list NetCall) :
  m ≠ GET →
  Forall (λ call, nc_method call = m ∨ nc_method call = POST) calls →
  existsb is_GET calls = false.
Proof.
  intros Hm. induction 1 as [|call calls Hc _ IH]; [done|].
  simpl. rewrite IH. unfold is_GET.
  destruct Hc as [-> | ->]; [by destruct m|done].
Qed.

(** C8.  The form is filled in and the request to create the device is
    rejected with status 409: the page alerts "Device ID already exists!",
    the component state, device list included, is what it was, and no GET
    went on the wire. *)
Theorem duplicate_device_is_reported (r st : Dashboard) (w : World)
    (c : Config) (resp : ErrorResponse) :
  form_filled (newDevice r) = true →
  fst (axiosInstance create_device_api
         (request POST "/devices" (device_form (newDevice r))) w)
  = Rejected (AxiosError c (Some resp)) →
  err_status resp = 409 →
  fst (handleAddDevice r st w) = st
  ∧ alert_log (snd (handleAddDevice r st w))
    = "Device ID already exists!" :: alert_log w
  ∧ ∃ calls, net_log (snd (handleAddDevice r st w)) = calls ++ net_log w
             ∧ existsb is_GET calls = false.
Proof.
  intros Hfill Hrej H409. unfold handleAddDevice.
  unfold form_filled in Hfill.
  apply andb_prop in Hfill as [[H1 H2]%andb_prop H3].
  rewrite H1, H2, H3. cbn [negb orb].
  fold (device_form (newDevice r)).
  pose proof (axiosInstance_calls create_device_api
    (request POST "/devices" (device_form (newDevice r))) w)
    as (calls & Hlog & Hall).
  pose proof (axiosInstance_frame create_device_api
    (request POST "/devices" (device_form (newDevice r))) w)
    as (_ & _ & Hal).
  destruct (axiosInstance _ _ w) as [s w1]. simpl in Hrej, Hlog, Hal.
  subst s. unfold status_is. rewrite H409. simpl.
  split; [done|]. split; [by rewrite Hal|].
  exists (calls ++ [wire ViaInstance API_BASE
    (request_interceptor
       (request POST "/devices" (device_form (newDevice r))) w)]).
  rewrite Hlog, <- app_assoc. split; [done|].
  apply (no_GET_among POST); [done|]. apply Forall_app. split; [exact Hall|].
  constructor; [|constructor].
  left. simpl. unfold request_interceptor. by destruct (truthy _).
Qed.

(** C10.  [handleAddDevice] refetches the device list, resets the form and
    closes the panel exactly when the form is filled in and the request
    resolves with status 204.  The refetch is a [GET /devices] sent at once
    and not awaited: the list the component holds is replaced by the list
    served when the reply is delivered.  In every other case, a resolution
    with another 2xx status included, the component state is left as it
    was, no GET goes on the wire and nothing is put in flight. *)
Theorem device_created_only_on_204 (r st : Dashboard) (w : World) :
  let posted :=
    axiosInstance create_device_api
      (request POST "/devices" (device_form (newDevice r))) w in
  let refetch :=
    axiosInstance_send devices_api (request GET "/devices" NoBody)
      (snd posted) in
  let task := DevicesRequest (selectedDeviceId r) (fst refetch) in
  let st' := fst (handleAddDevice r st w) in
  let w' := snd (handleAddDevice r st w) in
  if form_filled (newDevice r) && resolved_with 204 (fst posted) then
    newDevice st' = newDevice_initial
    ∧ showAddDevice st' = false
    ∧ devices st' = devices st
    ∧ alert_log w' = "Device added successfully!" :: alert_log w
    ∧ net_log w'
      = wire ViaInstance API_BASE
          (request_interceptor (request GET "/devices" NoBody) (snd posted))
        :: net_log (snd posted)
    ∧ fst refetch
      = settle (request_interceptor (request GET "/devices" NoBody)
                  (snd posted))
          (devices_api (net_log (snd posted))
             (wire ViaInstance API_BASE
                (request_interceptor (request GET "/devices" NoBody)
                   (snd posted))))
    ∧ in_flight w' = in_flight w ++ [task]
    ∧ ∀ res st2 w2,
        fst refetch = Resolved res →
        devices (fst (resume task st2 w2)) = body res
  else
    st' = st
    ∧ in_flight w' = in_flight w
    ∧ ∃ calls, net_log w' = calls ++ net_log w
               ∧ existsb is_GET calls = false.
Proof.
  intros posted refetch task st' w'. subst st' w'. unfold handleAddDevice.
  fold (device_form (newDevice r)).
  replace (negb (nonempty (nd_deviceId (newDevice r)))
           || negb (nonempty (nd_name (newDevice r)))
           || negb (nonempty (nd_location (newDevice r))))
    with (negb (form_filled (newDevice r)))
    by (unfold form_filled;
        destruct (nonempty _), (nonempty _), (nonempty _); reflexivity).
  destruct (form_filled (newDevice r)); cbn [negb andb].
  2:{ split; [done|]. split; [done|]. by exists []. }
  fold posted.
  pose proof (axiosInstance_calls create_device_api
    (request POST "/devices" (device_form (newDevice r))) w)
    as (calls & Hlog & Hall).
  pose proof (axiosInstance_frame create_device_api
    (request POST "/devices" (device_form (newDevice r))) w)
    as (_ & _ & Hal).
  pose proof (axiosInstance_in_flight create_device_api
    (request POST "/devices" (device_form (newDevice r))) w) as Hfl.
  fold posted in Hlog, Hal, Hfl.
  assert (Hnone : ∃ calls, net_log (snd posted) = calls ++ net_log w
                           ∧ existsb is_GET calls = false).
  { exists (calls ++ [wire ViaInstance API_BASE
      (request_interceptor
         (request POST "/devices" (device_form (newDevice r))) w)]).
    rewrite Hlog, <- app_assoc. split; [done|].
    apply (no_GET_among POST); [done|].
    apply Forall_app. split; [exact Hall|].
    constructor; [|constructor].
    left. simpl. unfold request_interceptor. by destruct (truthy _). }
  subst task refetch.
  destruct posted as [[res|e|] w1]; cbn [fst snd resolved_with] in *.
  - destruct (status res =? 204).
    + unfold fetchDevices_start, axiosInstance_send, dispatch, enqueue.
      simpl. rewrite Hal, Hfl.
      split_and!; try reflexivity.
      intros res' st2 w2 ->. simpl.
      destruct (body res') as [|d l]; [reflexivity|].
      by destruct (negb (nonempty (selectedDeviceId r))).
    + split; [done|]. split; [done|exact Hnone].
  - destruct e as [c resp|m]; simpl.
    + repeat case_match; simpl; (split; [done|]; split; [done|exact Hnone]).
    + split; [done|]. split; [done|exact Hnone].
  - split; [done|]. split; [done|exact Hnone].
Qed.

(** Any status but 401 is handed to the caller as the server sent it, after
    a single call. *)
Lemma gateway_passes_other_statuses {A} (api : Oracle A) c w :
  has_status 401 (api (net_log w)
                    (wire ViaInstance API_BASE (request_interceptor c w)))
  = false →
  axiosInstance api c w
  = dispatch api ViaInstance API_BASE (request_interceptor c w) w.
Proof.
  unfold has_status, axiosInstance. rewrite axiosInstance_fuel_S.
  unfold dispatch. intros H401.
  assert (Hne : ∀ s, outcome_status
                       (api (net_log w)
                          (wire ViaInstance API_BASE
                             (request_interceptor c w))) = Some s →
                     (s =? 401) = false).
  { intros s Hs. rewrite Hs in H401. apply bool_decide_eq_false in H401.
    apply Z.eqb_neq. congruence. }
  destruct (api _ _) as [s b|s m Hs|]; cbn [settle outcome_status] in *.
  - destruct (validateStatus s); [reflexivity|].
    unfold response_rejected. cbn [status_is err_status].
    by rewrite (Hne s eq_refl).
  - unfold response_rejected. cbn [status_is err_status].
    by rewrite (Hne s eq_refl).
  - reflexivity.
Qed.

End Handlers.

(** A payload the demo parser rejects, delivered to the open alert feed. *)
Lemma invalid_payload_changes_nothing_witness :
  let B := Demo.backend 3 in
  let a := run (App_initial (Demo.page (Demo.store "fresh" "r0")))
             [Render; Deliver 0; Render; FeedMessage 0 "alert"] in
  parse_fails AlertsFeed "{not json"
  ∧ dash (step a (FeedMessage 0 "{not json")) = dash a
  ∧ open_feeds (feed_log (world (step a (FeedMessage 0 "{not json"))))
    = open_feeds (feed_log (world a))
  ∧ fst (onmessage AlertsFeed "{not json" (dash a) (world a)) = dash a.
Proof.
  intros B a.
  split; [reflexivity|]. split; [vm_compute; reflexivity|].
  split; [vm_compute; reflexivity|].
  apply (invalid_payload_changes_nothing AlertsFeed "{not json"
           (dash a) (world a)).
  reflexivity.
Defined.

(** Adding [dev-1], which the demo server already has. *)
Lemma duplicate_device_is_reported_witness :
  let B := Demo.backend 3 in
  let w := Demo.page (Demo.store "fresh" "r0") in
  let r :=
    setNewDevice
      {| nd_deviceId := "dev-1"; nd_name := "probe"; nd_location := "lab";
         nd_type := "TemperatureSensor"; nd_status := "Active" |}
      (setDevices [Demo.dev "dev-1"] Dashboard_initial) in
  devices (fst (handleAddDevice r r w)) = [Demo.dev "dev-1"]
  ∧ alert_log (snd (handleAddDevice r r w)) = ["Device ID already exists!"].
Proof.
  intros B w r.
  edestruct (duplicate_device_is_reported r r w) as (Hst & Hal & _);
    [reflexivity | reflexivity | reflexivity |].
  rewrite Hst, Hal. split; reflexivity.
Defined.

Section Login.
Context `{B : Backend}.

(** A 401 with a token missing from the store: the refresh attempt fails
    before anything is posted. *)
Lemma gateway_401_without_tokens {A} (api : Oracle A) c w :
  _retry c = false →
  has_status 401 (api (net_log w)
                    (wire ViaInstance API_BASE (request_interceptor c w)))
  = true →
  truthy (getItem "refreshToken" w) && truthy (getItem "accessToken" w)
  = false →
  axiosInstance api c w
  = (Rejected (OtherError "No tokens available"),
     with_href "/"
       (clear
          (with_net_log
             (wire ViaInstance API_BASE (request_interceptor c w)
              :: net_log w) w))).
Proof.
  intros Hr H401 Htok. apply bool_decide_eq_true in H401.
  unfold axiosInstance. rewrite axiosInstance_fuel_S.
  destruct (dispatch_401 api ViaInstance API_BASE _ w H401) as [m ->].
  unfold response_rejected. rewrite request_interceptor_retry, Hr.
  cbn [status_is err_status negb andb Z.eqb Pos.eqb].
  unfold refresh_tokens.
  change (getItem "refreshToken" (with_net_log _ w))
    with (getItem "refreshToken" w).
  change (getItem "accessToken" (with_net_log _ w))
    with (getItem "accessToken" w).
  destruct (truthy (getItem "refreshToken" w)),
    (truthy (getItem "accessToken" w)); try discriminate; reflexivity.
Qed.


End Login.



(** ** The model at work *)

(** Selecting device [dev-1] (by default, after the device list arrives) and
    then [dev-2]: the feed of [dev-1] is closed before the feed of [dev-2] is
    opened, and only the latter remains open. *)
Example select_A_then_B :
  let B := Demo.backend 3 in
  let a := run (App_initial (Demo.page (Demo.store "fresh" "r0")))
             (Demo.startup ++ [SelectDevice "dev-2"; Render]) in
  feed_log (world a)
  = [FOpen (SensorFeed "") (API_BASE +:+ "/sensor-data/dev-2/sse");
     FClose 2;
     FOpen (SensorFeed "") (API_BASE +:+ "/sensor-data/dev-1/sse");
     FOpen EventsFeed (API_BASE +:+ "/device-events/sse");
     FOpen AlertsFeed (API_BASE +:+ "/alerts/sse")]
  ∧ open_sensor_feeds (feed_log (world a)) = [(3%nat, SensorFeed "")]
  ∧ sensorSSERef (dash a) = Some 3%nat.
Proof. vm_compute. repeat split; reflexivity. Qed.

(** Logging out of that session, the server answering 200: nothing is left
    open and the store is empty. *)
Example logout_after_selection :
  let B := Demo.backend 3 in
  let a := run (App_initial (Demo.page (Demo.store "fresh" "r0")))
             (Demo.startup ++ [ClickLogout; Render]) in
  open_feeds (feed_log (world a)) = []
  ∧ localStorage (world a) = ∅
  ∧ isAuthenticated (dash a) = false.
Proof. vm_compute. repeat split; reflexivity. Qed.

(** A device id the server accepts with 204, and one it accepts with 201:
    only the first refetches the list, resets the form and closes the
    panel. *)
Example add_device_204_and_201 :
  let B := Demo.backend 3 in
  let w := Demo.page (Demo.store "fresh" "r0") in
  let form id :=
    {| nd_deviceId := id; nd_name := "probe"; nd_location := "lab";
       nd_type := "TemperatureSensor"; nd_status := "Active" |} in
  let r id :=
    setShowAddDevice true (setNewDevice (form id) Dashboard_initial) in
  (let '(st, w') := handleAddDevice (r "dev-3") (r "dev-3") w in
   (newDevice st, showAddDevice st, map nc_method (net_log w'), alert_log w')
   = (newDevice_initial, false, [GET; POST],
      ["Device added successfully!"]))
  ∧ (let '(st, w') := handleAddDevice (r "dev-9") (r "dev-9") w in
     (newDevice st, showAddDevice st, map nc_method (net_log w'), alert_log w')
     = (form "dev-9", true, [POST], [])).
Proof. vm_compute. split; reflexivity. Qed.

(** A login refused with 401 while the store still holds a pair the server
    will refresh: the interceptor stores the new pair and retries, the retry
    is refused again, and the failed attempt leaves the new pair behind.  So
    "no tokens are stored" needs a store that lacks a token to begin
    with. *)
Example failed_login_after_refresh :
  let B := Demo.backend 3 in
  let p :=
    {| lp_username := "dave"; lp_password := "guess"; error := "";
       loading := false |} in
  let w :=
    Demo.page (<["accessToken" := "stale"]> (<["refreshToken" := "r0"]> ∅)) in
  let result := handleLogin p Dashboard_initial w in
  error (fst (fst result)) = "Bad credentials"
  ∧ isAuthenticated (snd (fst result)) = false
  ∧ getItem "accessToken" (snd result) = Some "fresh"
  ∧ getItem "refreshToken" (snd result) = Some "r1".
Proof. vm_compute. repeat split; reflexivity. Qed.

(** The same refusal with an empty store: the refresh attempt fails for want
    of tokens, the page is sent to ["/"], and the message is the one for
    errors that are not axios errors. *)
Example login_refused_with_401 :
  let B := Demo.backend 3 in
  let p :=
    {| lp_username := "dave"; lp_password := "guess"; error := "";
       loading := false |} in
  let result := handleLogin p Dashboard_initial (Demo.page ∅) in
  error (fst (fst result)) = "Unexpected error occurred."
  ∧ location_href (snd result) = "/"
  ∧ localStorage (snd result) = ∅.
Proof. vm_compute. repeat split; reflexivity. Qed.

(** * Further properties of the code *)

(** ** The gateway on its other paths *)

Section GatewayPaths.
Context `{B : Backend}.

(** X1.  A reply that is not a 401, or no reply at all, reaches the caller
    as axios settled it, after a single send; the store and the location are
    not touched. *)
Theorem gateway_surfaces_other_statuses {A} (api : Oracle A)
    (config : Config) (w : World) :
  let sent := request_interceptor config w in
  let first := wire ViaInstance API_BASE sent in
  has_status 401 (api (net_log w) first) = false →
  fst (axiosInstance api config w) = settle sent (api (net_log w) first)
  ∧ net_log (snd (axiosInstance api config w)) = first :: net_log w
  ∧ localStorage (snd (axiosInstance api config w)) = localStorage w
  ∧ location_href (snd (axiosInstance api config w)) = location_href w.
Proof.
  intros sent first H.
  rewrite (gateway_passes_other_statuses api config w H).
  unfold dispatch. repeat split; reflexivity.
Qed.

(** X2.  Whatever the servers answer, a request through the gateway leaves
    the store and the location in one of three ways: both untouched; the
    store emptied and the location set to ["/"], and then the request is
    rejected; or the two tokens replaced by a new pair and the location
    untouched.  No other key is ever written or removed on its own. *)
Theorem gateway_store_and_location {A} (api : Oracle A) (config : Config)
    (w : World) :
  let result := fst (axiosInstance api config w) in
  let w' := snd (axiosInstance api config w) in
  (localStorage w' = localStorage w ∧ location_href w' = location_href w)
  ∨ (localStorage w' = ∅ ∧ location_href w' = "/"
     ∧ ∃ e, result = Rejected e)
  ∨ (∃ tokens,
       localStorage w'
       = <["refreshToken" := refreshToken tokens]>
           (<["accessToken" := accessToken tokens]> (localStorage w))
       ∧ location_href w' = location_href w).
Proof.
  intros result w'. subst result w'.
  unfold axiosInstance. rewrite axiosInstance_fuel_S. unfold dispatch.
  destruct (settle _ _) as [r|e|]; try (left; split; reflexivity).
  destruct e as [c' r|m]; [|left; split; reflexivity].
  unfold response_rejected.
  destruct (status_is 401 r && negb (_retry c'));
    [|left; split; reflexivity].
  unfold refresh_tokens.
  destruct (negb _ || negb _).
  { right; left. repeat split; eauto. }
  unfold axios_post, dispatch.
  destruct (settle _ _) as [resp|e|].
  - right; right. destruct (body resp) as [a r'] eqn:Hb.
    rewrite axiosInstance_fuel_retried by reflexivity.
    exists {| accessToken := a; refreshToken := r' |}.
    split; reflexivity.
  - right; left. repeat split; eauto.
  - left. split; reflexivity.
Qed.

(** X3.  While a token is missing from the store the gateway never calls
    the refresh endpoint and never stores anything: the request is sent
    once, and the store is left as it was, or emptied when the reply is a
    401 and the request was not marked as retried. *)
Theorem gateway_without_tokens_never_refreshes {A} (api : Oracle A)
    (config : Config) (w : World) :
  let sent := request_interceptor config w in
  let first := wire ViaInstance API_BASE sent in
  let w' := snd (axiosInstance api config w) in
  truthy (getItem "refreshToken" w) && truthy (getItem "accessToken" w)
  = false →
  net_log w' = first :: net_log w
  ∧ (if has_status 401 (api (net_log w) first) && negb (_retry config)
     then localStorage w' = ∅ ∧ location_href w' = "/"
          ∧ fst (axiosInstance api config w)
            = Rejected (OtherError "No tokens available")
     else localStorage w' = localStorage w
          ∧ location_href w' = location_href w
          ∧ fst (axiosInstance api config w)
            = settle sent (api (net_log w) first)).
Proof.
  intros sent first w' Htok. subst w'.
  destruct (has_status 401 (api (net_log w) first)) eqn:H401.
  - destruct (_retry config) eqn:Hr; cbn [negb andb].
    + unfold axiosInstance. rewrite axiosInstance_fuel_retried by exact Hr.
      unfold dispatch. repeat split; reflexivity.
    + rewrite (gateway_401_without_tokens api config w Hr H401 Htok).
      repeat split; reflexivity.
  - cbn [andb].
    rewrite (gateway_passes_other_statuses api config w H401).
    unfold dispatch. repeat split; reflexivity.
Qed.

(** X4.  Every request goes on the wire at least once and at most three
    times.  The first send is the request as given, with the base URL in
    front, and carries [Bearer t] when the store holds a non-empty access
    token [t]; otherwise it carries whatever header the config had. *)
Theorem gateway_first_send {A} (api : Oracle A) (config : Config)
    (w : World) :
  let first :=
    {| nc_via := ViaInstance; nc_method := method config;
       nc_url := API_BASE +:+ url config;
       nc_auth :=
         if truthy (getItem "accessToken" w)
         then Some ("Bearer " +:+ default "" (getItem "accessToken" w))
         else Authorization config;
       nc_body := data config |} in
  ∃ calls,
    net_log (snd (axiosInstance api config w)) = calls ++ first :: net_log w
    ∧ (length calls ≤ 2)%nat.
Proof.
  intros first.
  assert (Hfirst : wire ViaInstance API_BASE (request_interceptor config w)
                   = first).
  { unfold first, request_interceptor, wire.
    destruct (truthy (getItem "accessToken" w)); reflexivity. }
  rewrite <- Hfirst.
  unfold axiosInstance. rewrite axiosInstance_fuel_S. unfold dispatch.
  destruct (settle _ _) as [r|e|]; try (exists []; split; [reflexivity|simpl; lia]).
  destruct e as [c' r|m]; [|exists []; split; [reflexivity|simpl; lia]].
  unfold response_rejected.
  destruct (status_is 401 r && negb (_retry c'));
    [|exists []; split; [reflexivity|simpl; lia]].
  unfold refresh_tokens.
  destruct (negb _ || negb _); [exists []; split; [reflexivity|simpl; lia]|].
  unfold axios_post, dispatch.
  destruct (settle _ _) as [resp|e|].
  - destruct (body resp) as [a r'].
    rewrite axiosInstance_fuel_retried by reflexivity.
    unfold dispatch. eexists [_; _]. split; [reflexivity|simpl; lia].
  - eexists [_]. split; [reflexivity|simpl; lia].
  - eexists [_]. split; [reflexivity|simpl; lia].
Qed.

End GatewayPaths.

(** A 403 on the demo server. *)
Lemma gateway_surfaces_other_statuses_witness :
  let B := Demo.backend 3 in
  let w := Demo.page (Demo.store "fresh" "r0") in
  let config :=
    request POST "/auth/refresh" (RefreshBody "r9" "fresh") in
  (∃ c, fst (axiosInstance refresh_api config w)
        = Rejected (AxiosError c
            (Some {| err_status := 403;
                     err_message := Some "Invalid refresh token" |})))
  ∧ length (net_log (snd (axiosInstance refresh_api config w))) = 1%nat
  ∧ localStorage (snd (axiosInstance refresh_api config w))
    = Demo.store "fresh" "r0".
Proof.
  intros B w config.
  destruct (gateway_surfaces_other_statuses (B := B) refresh_api config w)
    as (Hres & Hlog & Hstore & _); [reflexivity|].
  rewrite Hres, Hlog, Hstore. split; [eexists; reflexivity|].
  split; reflexivity.
Defined.

(** The demo server refusing a request made with an empty store. *)
Lemma gateway_without_tokens_never_refreshes_witness :
  let B := Demo.backend 3 in
  let w := Demo.page ∅ in
  let config := request GET "/devices" NoBody in
  map nc_via (net_log (snd (axiosInstance devices_api config w)))
  = [ViaInstance]
  ∧ localStorage (snd (axiosInstance devices_api config w)) = ∅.
Proof.
  intros B w config.
  destruct (gateway_without_tokens_never_refreshes (B := B) devices_api
              config w) as (Hlog & Hrest); [reflexivity|].
  rewrite Hlog. split; [reflexivity|].
  vm_compute in Hrest. destruct Hrest as (Hs & _). exact Hs.
Defined.

(** ** Event sources: handles, kinds, errors *)

Section Sources.
Context `{B : Backend}.

Lemma next_handle_close h log : next_handle (FClose h :: log) = next_handle log.
Proof. reflexivity. Qed.

(** Handles are never reused: the open sources have distinct handles, all
    below the next one. *)
Lemma open_feeds_handles log :
  NoDup (map fst (open_feeds log))
  ∧ ∀ p, In p (open_feeds log) → (fst p < next_handle log)%nat.
Proof.
  induction log as [|op log [IHn IHb]]; [split; [constructor|intros p []]|].
  destruct op as [k u|h].
  - split.
    + simpl. constructor; [|exact IHn].
      intros Hin%list_elem_of_In%in_map_iff. destruct Hin as (p & Hp & Hin).
      specialize (IHb p Hin). lia.
    + intros p [<-|Hin]; unfold next_handle; simpl.
      * fold (next_handle log). lia.
      * specialize (IHb p Hin). fold (next_handle log). lia.
  - split.
    + simpl. clear IHb. induction (open_feeds log) as [|p l IH]; [constructor|].
      simpl. apply NoDup_cons in IHn as [Hp Hl].
      destruct (negb (fst p =? h)%nat); [|by apply IH].
      simpl. constructor; [|by apply IH].
      intros Hin%list_elem_of_In%in_map_iff. destruct Hin as (q & Hq & Hin).
      apply filter_In in Hin as [Hin _]. apply Hp.
      apply list_elem_of_In, in_map_iff. eauto.
    + intros p [Hin _]%filter_In. by apply IHb.
Qed.

Lemma at_most_one_with_handle (f : nat * FeedKind → bool) (h : nat)
    (l : list (nat * FeedKind)) :
  NoDup (map fst l) →
  (∀ p, In p l → f p = true → fst p = h) →
  (length (List.filter f l) ≤ 1)%nat.
Proof.
  induction l as [|p l IH]; intros Hn Hh; [simpl; lia|].
  apply NoDup_cons in Hn as [Hp Hl]. simpl.
  destruct (f p) eqn:Hf.
  - simpl.
    assert (Hnone : List.filter f l = []).
    { destruct (List.filter f l) as [|q l'] eqn:Hq; [done|].
      assert (Hin : In q (List.filter f l)) by (rewrite Hq; by left).
      apply filter_In in Hin as [Hin Hfq].
      exfalso. apply Hp. apply list_elem_of_In, in_map_iff. exists q.
      split; [|exact Hin].
      rewrite (Hh p (or_introl eq_refl) Hf).
      apply (Hh q (or_intror Hin) Hfq). }
    rewrite Hnone. simpl. lia.
  - apply IH; [exact Hl|]. intros q Hq. apply Hh. by right.
Qed.

Lemma length_by_kind (l : list (nat * FeedKind)) :
  length l
  = (length (List.filter is_alerts_feed l)
     + length (List.filter is_events_feed l)
     + length (List.filter is_sensor_feed l))%nat.
Proof.
  induction l as [|[h k] l IH]; [reflexivity|].
  destruct k; simpl; unfold is_alerts_feed, is_events_feed, is_sensor_feed;
    simpl; fold is_alerts_feed; fold is_events_feed; fold is_sensor_feed;
    rewrite IH; lia.
Qed.

(** X5.  From a fresh page load, whatever happens, at most one alert feed
    and at most one event feed are open, each the one its ref holds; with the
    sensor feed that makes at most three open sources, with distinct
    handles. *)
Theorem at_most_one_feed_of_each_kind (ls : gmap string string)
    (href : string) (events : list Event) :
  let a := run (App_initial (World_initial ls href)) events in
  let open := open_feeds (feed_log (world a)) in
  (length (List.filter is_alerts_feed open) ≤ 1)%nat
  ∧ (length (List.filter is_events_feed open) ≤ 1)%nat
  ∧ (length open ≤ 3)%nat
  ∧ NoDup (map fst open)
  ∧ (∀ h, In (h, AlertsFeed) open → alertsSSERef (dash a) = Some h)
  ∧ (∀ h, In (h, EventsFeed) open → eventsSSERef (dash a) = Some h).
Proof.
  intros a open.
  destruct (feeds_inv_reachable ls href events) as [Ht He].
  fold a in Ht, He. simpl in Ht, He.
  destruct (open_feeds_handles (feed_log (world a))) as [Hn _].
  fold open in Hn.
  assert (Ha : (length (List.filter is_alerts_feed open) ≤ 1)%nat).
  { destruct (alertsSSERef (dash a)) as [h|] eqn:Hr.
    - apply (at_most_one_with_handle _ h); [exact Hn|].
      intros [h' k] Hin Hk. destruct k; try discriminate.
      specialize (Ht h' _ Hin). simpl in *. congruence.
    - apply (at_most_one_with_handle _ 0%nat); [exact Hn|].
      intros [h' k] Hin Hk. destruct k; try discriminate.
      specialize (Ht h' _ Hin). simpl in Ht. congruence. }
  assert (Hev : (length (List.filter is_events_feed open) ≤ 1)%nat).
  { destruct (eventsSSERef (dash a)) as [h|] eqn:Hr.
    - apply (at_most_one_with_handle _ h); [exact Hn|].
      intros [h' k] Hin Hk. destruct k; try discriminate.
      specialize (Ht h' _ Hin). simpl in *. congruence.
    - apply (at_most_one_with_handle _ 0%nat); [exact Hn|].
      intros [h' k] Hin Hk. destruct k; try discriminate.
      specialize (Ht h' _ Hin). simpl in Ht. congruence. }
  split; [exact Ha|]. split; [exact Hev|]. split.
  { rewrite (length_by_kind open).
    specialize (He 0%nat). rewrite drop_0 in He.
    unfold open_sensor_feeds in He. fold open in He. lia. }
  split; [exact Hn|].
  split; intros h Hin; apply (Ht h _ Hin).
Qed.

(** X6.  An error on a source closes that source and nothing else: no
    source is opened in its place, the component state, refs included, is
    what it was, and a message that still arrives for the source is
    ignored. *)
Theorem feed_error_closes_for_good (a : App) (h : nat) :
  let a' := step a (FeedError h) in
  (∀ k, ¬ In (h, k) (open_feeds (feed_log (world a'))))
  ∧ (∀ p, In p (open_feeds (feed_log (world a')))
          ↔ In p (open_feeds (feed_log (world a))) ∧ fst p ≠ h)
  ∧ next_handle (feed_log (world a')) = next_handle (feed_log (world a))
  ∧ dash a' = dash a
  ∧ ∀ data, step a' (FeedMessage h data) = a'.
Proof.
  intros a'.
  assert (Hcases :
    (a' = a ∧ ∀ k, ¬ In (h, k) (open_feeds (feed_log (world a))))
    ∨ ∃ k, a' = {| page := page a; dash := dash a; rendered := rendered a;
                   world := onerror k h (world a) |}).
  { unfold a', step.
    destruct (list_find (λ p, fst p = h) (open_feeds (feed_log (world a))))
      as [[i [h' k]]|] eqn:Hfind; [right; by exists k|left].
    split; [reflexivity|]. intros k Hin%list_elem_of_In.
    apply list_find_None in Hfind.
    rewrite Forall_forall in Hfind. by apply (Hfind _ Hin). }
  assert (Hiff : ∀ p, In p (open_feeds (feed_log (world a')))
                      ↔ In p (open_feeds (feed_log (world a))) ∧ fst p ≠ h).
  { destruct Hcases as [[-> Hgone]|[k ->]].
    - intros [h0 k0]. split; [|tauto]. intros Hin. split; [exact Hin|].
      simpl. intros ->. by apply (Hgone k0).
    - intros p. simpl.
      rewrite filter_In, negb_true_iff, Nat.eqb_neq. reflexivity. }
  assert (Hgone : ∀ k, ¬ In (h, k) (open_feeds (feed_log (world a')))).
  { intros k [_ Hne]%Hiff. by apply Hne. }
  split; [exact Hgone|]. split; [exact Hiff|].
  split; [destruct Hcases as [[-> _]|[k ->]]; reflexivity|].
  split; [destruct Hcases as [[-> _]|[k ->]]; reflexivity|].
  intros data. unfold step.
  destruct (list_find (λ p, fst p = h) (open_feeds (feed_log (world a'))))
    as [[j [h'' k'']]|] eqn:Hf2; [|reflexivity].
  apply list_find_Some in Hf2 as (Hl & Heq & _). simpl in Heq. subst h''.
  exfalso. apply (Hgone k''). apply list_elem_of_In.
  eapply list_elem_of_lookup_2. exact Hl.
Qed.

Lemma closeSSEConnections_log st w :
  feeds_of (closeSSEConnections st w)
  = (None, None, None,
     close_opt (eventsSSERef st)
       (close_opt (sensorSSERef st)
          (close_opt (alertsSSERef st) (feed_log w)))).
Proof.
  unfold closeSSEConnections, feeds_of.
  destruct (alertsSSERef st) eqn:Ea, (sensorSSERef st) eqn:Es,
    (eventsSSERef st) eqn:Ee;
    repeat progress (simpl; rewrite ?Ea, ?Es, ?Ee); reflexivity.
Qed.

Lemma In_open_feeds_close_opt p ref log :
  In p (open_feeds (close_opt ref log))
  ↔ In p (open_feeds log) ∧ ref ≠ Some (fst p).
Proof.
  destruct ref as [h|]; simpl.
  - rewrite filter_In, negb_true_iff, Nat.eqb_neq.
    split; intros [H1 H2]; (split; [exact H1|congruence]).
  - split; [by intros H|by intros [H _]].
Qed.

(** X7.  [closeSSEConnections] resets the three refs and closes exactly the
    sources they held: a source is open afterwards if and only if it was
    open before and none of the refs held it.  It opens nothing, and a
    second call in a row does nothing at all. *)
Theorem closeSSEConnections_idempotent (st : Dashboard) (w : World) :
  let st' := fst (closeSSEConnections st w) in
  let w' := snd (closeSSEConnections st w) in
  closeSSEConnections st' w' = (st', w')
  ∧ alertsSSERef st' = None ∧ sensorSSERef st' = None
  ∧ eventsSSERef st' = None
  ∧ next_handle (feed_log w') = next_handle (feed_log w)
  ∧ ∀ p, In p (open_feeds (feed_log w'))
         ↔ In p (open_feeds (feed_log w))
           ∧ alertsSSERef st ≠ Some (fst p)
           ∧ sensorSSERef st ≠ Some (fst p)
           ∧ eventsSSERef st ≠ Some (fst p).
Proof.
  intros st' w'.
  pose proof (closeSSEConnections_log st w) as Hlog.
  unfold feeds_of in Hlog. fold st' w' in Hlog.
  injection Hlog as Ha Hs He Hl.
  split.
  { unfold closeSSEConnections. rewrite Ha. simpl. rewrite Hs. simpl.
    rewrite He. reflexivity. }
  split; [exact Ha|]. split; [exact Hs|]. split; [exact He|].
  rewrite Hl. split.
  - destruct (eventsSSERef st), (sensorSSERef st), (alertsSSERef st);
      reflexivity.
  - intros p. rewrite !In_open_feeds_close_opt. tauto.
Qed.

End Sources.

(** ** Sensor readings *)

Section Readings.
Context `{B : Backend}.

Lemma latestData_after_reading captured data st w d :
  parse_sensor data = Some d →
  latestData (fst (sensor_onmessage captured data st w))
  = List.filter (λ x, negb (String.eqb (sensorType x) (sensorType d)))
      (latestData st) ++ [d]
  ∧ selectedSensorType (fst (sensor_onmessage captured data st w))
    = selectedSensorType st.
Proof.
  intros Hp. unfold sensor_onmessage. rewrite Hp.
  destruct (String.eqb (sensorType d) captured); split; reflexivity.
Qed.

Lemma filter_filter_neg {A} (f : A → bool) (l : list A) :
  List.filter f (List.filter (λ x, negb (f x)) l) = [].
Proof.
  induction l as [|x l IH]; [reflexivity|]. simpl.
  destruct (f x) eqn:Hf; simpl; [exact IH|]. by rewrite Hf.
Qed.

Lemma filter_idem {A} (f : A → bool) (l : list A) :
  List.filter f (List.filter f l) = List.filter f l.
Proof.
  induction l as [|x l IH]; [reflexivity|]. simpl.
  destruct (f x) eqn:Hf; simpl; [|exact IH]. by rewrite Hf, IH.
Qed.

Lemma find_app_none {A} (f : A → bool) (l1 l2 : list A) :
  List.filter f l1 = [] → List.find f (l1 ++ l2) = List.find f l2.
Proof.
  induction l1 as [|x l1 IH]; [reflexivity|]. simpl.
  destruct (f x); [discriminate|exact IH].
Qed.

(** X8.  A reading that arrives on the sensor feed replaces the latest
    reading of its sensor type: afterwards the latest data hold exactly one
    reading of that type, the new one, placed last, and the readings of the
    other types are kept, in order.  Nothing but state is touched. *)
Theorem reading_replaces_latest_of_its_type (captured data : string)
    (st : Dashboard) (w : World) (d : SensorData) :
  parse_sensor data = Some d →
  let st' := fst (sensor_onmessage captured data st w) in
  List.filter (λ x, String.eqb (sensorType x) (sensorType d)) (latestData st')
  = [d]
  ∧ List.filter (λ x, negb (String.eqb (sensorType x) (sensorType d)))
      (latestData st')
    = List.filter (λ x, negb (String.eqb (sensorType x) (sensorType d)))
        (latestData st)
  ∧ last (latestData st') = Some d
  ∧ snd (sensor_onmessage captured data st w) = w.
Proof.
  intros Hp st'. subst st'.
  destruct (latestData_after_reading captured data st w d Hp) as [-> _].
  rewrite !List.filter_app.
  rewrite (filter_filter_neg
             (λ x, String.eqb (sensorType x) (sensorType d))).
  rewrite (filter_idem
             (λ x, negb (String.eqb (sensorType x) (sensorType d)))).
  simpl. rewrite String.eqb_refl. simpl. rewrite app_nil_r.
  split; [reflexivity|]. split; [reflexivity|].
  split; [apply last_snoc|].
  unfold sensor_onmessage. rewrite Hp.
  destruct (String.eqb (sensorType d) captured); reflexivity.
Qed.

(** X9.  The sensor history is a sliding window over the readings of the
    sensor type the feed captured at set-up: such a reading becomes the
    newest entry, the earlier ones keep their order, and only the oldest are
    dropped, once there are more than 100; a reading of another type leaves
    the history alone. *)
Theorem history_is_a_sliding_window (captured data : string)
    (st : Dashboard) (w : World) (d : SensorData) :
  parse_sensor data = Some d →
  let st' := fst (sensor_onmessage captured data st w) in
  if String.eqb (sensorType d) captured then
    (∃ dropped, dropped ++ sensorHistory st' = sensorHistory st ++ [d])
    ∧ length (sensorHistory st')
      = Nat.min 100 (S (length (sensorHistory st)))
    ∧ last (sensorHistory st') = Some d
  else sensorHistory st' = sensorHistory st.
Proof.
  intros Hp st'. subst st'. unfold sensor_onmessage. rewrite Hp.
  destruct (String.eqb (sensorType d) captured); [|reflexivity].
  cbn [fst sensorHistory setSensorHistory setLatestData].
  unfold slice_last.
  set (xs := sensorHistory st ++ [d]).
  split; [exists (take (length xs - 100) xs); apply take_drop|].
  split.
  { rewrite length_drop. unfold xs. rewrite length_app. cbn [length]. lia. }
  unfold xs. rewrite length_app. cbn [length].
  rewrite last_lookup, length_drop, lookup_drop, length_app. cbn [length].
  replace (length (sensorHistory st) + 1 - 100
           + Init.Nat.pred
               (length (sensorHistory st) + 1
                - (length (sensorHistory st) + 1 - 100)))%nat
    with (length (sensorHistory st) + 0)%nat by lia.
  rewrite lookup_app_r by lia.
  replace (length (sensorHistory st) + 0 - length (sensorHistory st))%nat
    with 0%nat by lia.
  reflexivity.
Qed.

Lemma last_map {A C} (f : A → C) (l : list A) :
  last (map f l) = f <$> last l.
Proof.
  induction l as [|x l IH]; [reflexivity|].
  destruct l as [|y l]; [reflexivity|]. exact IH.
Qed.

Lemma last_drop {A} (n : nat) (l : list A) :
  (n < length l)%nat → last (drop n l) = last l.
Proof.
  intros Hn. rewrite !last_lookup, length_drop, lookup_drop.
  f_equal. lia.
Qed.

Lemma history_ends_with_reading captured data st w d :
  parse_sensor data = Some d →
  String.eqb (sensorType d) captured = true →
  last (sensorHistory (fst (sensor_onmessage captured data st w))) = Some d.
Proof.
  intros Hp Hc. unfold sensor_onmessage. rewrite Hp, Hc.
  cbn [fst sensorHistory setSensorHistory setLatestData].
  unfold slice_last. rewrite last_drop; [apply last_snoc|].
  rewrite length_app. cbn [length]. lia.
Qed.

(** X10.  When a reading of the selected sensor type arrives, the value
    tile shows it at the next render: [currentLatestData] is that
    reading. *)
Theorem tile_shows_the_new_reading (captured data : string)
    (st : Dashboard) (w : World) (d : SensorData) :
  parse_sensor data = Some d →
  sensorType d = selectedSensorType st →
  currentLatestData (fst (sensor_onmessage captured data st w)) = Some d.
Proof.
  intros Hp Hsel. unfold currentLatestData.
  destruct (latestData_after_reading captured data st w d Hp) as [-> ->].
  rewrite find_app_none.
  - simpl. by rewrite Hsel, String.eqb_refl.
  - rewrite <- Hsel. apply filter_filter_neg.
Qed.

(** X11.  The chart plots at most 24 points, the newest readings of the
    history in order; when a reading of the captured type arrives it is the
    last point of the chart. *)
Theorem chart_ends_with_the_new_reading (fmt : string → string)
    (captured data : string) (st : Dashboard) (w : World) (d : SensorData) :
  parse_sensor data = Some d →
  String.eqb (sensorType d) captured = true →
  let st' := fst (sensor_onmessage captured data st w) in
  last (chartData fmt st') = Some (fmt (timestamp d), value d)
  ∧ length (chartData fmt st') = Nat.min 24 (length (sensorHistory st'))
  ∧ ∃ older, sensorHistory st' = older
             ++ drop (length (sensorHistory st') - 24) (sensorHistory st')
             ∧ map snd (chartData fmt st')
               = map value
                   (drop (length (sensorHistory st') - 24)
                      (sensorHistory st')).
Proof.
  intros Hp Hc st'.
  pose proof (history_ends_with_reading captured data st w d Hp Hc) as Hlast.
  fold st' in Hlast.
  unfold chartData, slice_last.
  assert (Hpos : (0 < length (sensorHistory st'))%nat).
  { destruct (sensorHistory st'); [discriminate|simpl; lia]. }
  split.
  { rewrite last_map, last_drop by lia. by rewrite Hlast. }
  split; [rewrite length_map, length_drop; lia|].
  exists (take (length (sensorHistory st') - 24) (sensorHistory st')).
  split; [symmetry; apply take_drop|].
  rewrite map_map. reflexivity.
Qed.

End Readings.

(** A temperature reading on the demo backend. *)
Lemma reading_replaces_latest_of_its_type_witness :
  let B := Demo.backend 3 in
  let st :=
    setLatestData [Demo.reading "temperature" 21; Demo.reading "humidity" 40]
      Dashboard_initial in
  let st' := fst (sensor_onmessage "" "temperature" st (Demo.page ∅)) in
  latestData st'
  = [Demo.reading "humidity" 40; Demo.reading "temperature" 22]
  ∧ last (latestData st') = Some (Demo.reading "temperature" 22).
Proof.
  intros B st st'.
  destruct (reading_replaces_latest_of_its_type (B := B) "" "temperature" st
              (Demo.page ∅) (Demo.reading "temperature" 22))
    as (_ & _ & Hlast & _); [reflexivity|].
  split; [reflexivity|exact Hlast].
Defined.

Lemma history_is_a_sliding_window_witness :
  let B := Demo.backend 3 in
  let st :=
    setSensorHistory (replicate 100 (Demo.reading "temperature" 21))
      Dashboard_initial in
  let st' :=
    fst (sensor_onmessage "temperature" "temperature" st (Demo.page ∅)) in
  length (sensorHistory st') = 100%nat
  ∧ last (sensorHistory st') = Some (Demo.reading "temperature" 22).
Proof.
  intros B st st'.
  pose proof (history_is_a_sliding_window (B := B) "temperature"
                "temperature" st (Demo.page ∅)
                (Demo.reading "temperature" 22) eq_refl) as H.
  cbv zeta in H.
  change (String.eqb (sensorType (Demo.reading "temperature" 22))
            "temperature") with true in H.
  cbv iota in H. destruct H as (_ & Hlen & Hlast).
  split; [exact Hlen|exact Hlast].
Defined.

Lemma tile_shows_the_new_reading_witness :
  let B := Demo.backend 3 in
  let st :=
    setSelectedSensorType "temperature"
      (setLatestData [Demo.reading "temperature" 21] Dashboard_initial) in
  currentLatestData (fst (sensor_onmessage "" "temperature" st (Demo.page ∅)))
  = Some (Demo.reading "temperature" 22).
Proof.
  intros B st.
  apply (tile_shows_the_new_reading (B := B) "" "temperature" st
           (Demo.page ∅) (Demo.reading "temperature" 22));
    reflexivity.
Defined.

Lemma chart_ends_with_the_new_reading_witness :
  let B := Demo.backend 3 in
  let st :=
    setSensorHistory (replicate 30 (Demo.reading "temperature" 21))
      Dashboard_initial in
  let st' :=
    fst (sensor_onmessage "temperature" "temperature" st (Demo.page ∅)) in
  last (chartData (λ t, t) st')
  = Some ("2025-01-01T00:00:00Z", 22)
  ∧ length (chartData (λ t, t) st') = 24%nat.
Proof.
  intros B st st'.
  destruct (chart_ends_with_the_new_reading (B := B) (λ t, t) "temperature"
              "temperature" st (Demo.page ∅)
              (Demo.reading "temperature" 22) eq_refl eq_refl)
    as (Hlast & Hlen & _).
  split; [exact Hlast|]. etransitivity; [exact Hlen|reflexivity].
Defined.

(** ** Lists served by the backend *)

Section Lists.
Context `{B : Backend}.

Lemma uniq_fold (xs acc : list string) :
  let out :=
    fold_left
      (λ acc x, if bool_decide (x ∈ acc) then acc else acc ++ [x]) xs acc in
  (NoDup acc → NoDup out)
  ∧ (∀ t, t ∈ out ↔ t ∈ acc ∨ t ∈ xs)
  ∧ ∃ rest, out = acc ++ rest.
Proof.
  revert acc. induction xs as [|x xs IH]; intros acc; simpl.
  - split; [done|]. split; [|exists []; by rewrite app_nil_r].
    intros t. rewrite elem_of_nil. tauto.
  - destruct (IH (if bool_decide (x ∈ acc) then acc else acc ++ [x]))
      as (Hn & Hm & rest & Hr).
    cbv zeta in *. split; [|split].
    + intros Hacc. apply Hn. case_bool_decide; [exact Hacc|].
      apply NoDup_app. split; [exact Hacc|]. split; [|apply NoDup_singleton].
      intros y Hy ->%list_elem_of_singleton. done.
    + intros t. rewrite Hm, elem_of_cons. case_bool_decide.
      * split; [tauto|]. intros [?|[->|?]]; auto.
      * rewrite elem_of_app, list_elem_of_singleton. tauto.
    + case_bool_decide; [by exists rest|].
      exists ([x] ++ rest). by rewrite Hr, <- app_assoc.
Qed.

Lemma uniq_spec (xs : list string) :
  NoDup (uniq xs)
  ∧ (∀ t, t ∈ uniq xs ↔ t ∈ xs)
  ∧ match xs with
    | x :: _ => ∃ rest, uniq xs = x :: rest
    | [] => uniq xs = []
    end.
Proof.
  destruct (uniq_fold xs []) as (Hn & Hm & _). cbv zeta in *.
  split; [apply Hn, NoDup_nil_2|]. split.
  - intros t. unfold uniq. rewrite Hm, elem_of_nil. tauto.
  - destruct xs as [|x xs]; [reflexivity|].
    unfold uniq. simpl.
    destruct (uniq_fold xs [x]) as (_ & _ & rest & Hr). cbv zeta in Hr.
    exists rest. exact Hr.
Qed.

(** X12.  When the latest readings of a device arrive, the sensor types
    offered for selection are exactly the types of those readings, each once;
    a sensor type is selected automatically only if the render had none, and
    then it is the type of the first reading, which is among those
    offered. *)
Theorem latest_data_offers_each_type_once (r st : Dashboard) (w : World)
    (res : Response (list SensorData + SensorData)) (w1 : World) :
  nonempty (selectedDeviceId r) = true →
  axiosInstance latest_api
    (request GET ("/sensor-data/" +:+ selectedDeviceId r +:+ "/latest")
       NoBody) w
  = (Resolved res, w1) →
  let st' := fst (fetchLatestData r st w) in
  latestData st' = as_array (body res)
  ∧ NoDup (sensorTypes st')
  ∧ (∀ t, t ∈ sensorTypes st'
          ↔ ∃ d, d ∈ latestData st' ∧ sensorType d = t)
  ∧ match as_array (body res) with
    | d :: _ =>
        if nonempty (selectedSensorType r)
        then selectedSensorType st' = selectedSensorType st
        else selectedSensorType st' = sensorType d
             ∧ sensorType d ∈ sensorTypes st'
    | [] => selectedSensorType st' = selectedSensorType st
    end.
Proof.
  intros Hdev Hres st'. subst st'. unfold fetchLatestData.
  rewrite Hdev. cbn [negb]. rewrite Hres. unfold fetchLatestData_then.
  cbv zeta.
  generalize (as_array (body res)). intros xs.
  destruct (uniq_spec (map sensorType xs)) as (Hn & Hm & Hhd).
  assert (Hmem : ∀ t, t ∈ uniq (map sensorType xs)
                      ↔ ∃ d, d ∈ xs ∧ sensorType d = t).
  { intros t. rewrite Hm, list_elem_of_In, in_map_iff.
    split; intros (d & H1 & H2).
    - exists d. by rewrite list_elem_of_In.
    - exists d. by rewrite <- list_elem_of_In. }
  clear Hm. revert Hn Hhd Hmem.
  generalize (uniq (map sensorType xs)). intros ts Hn Hhd Hmem.
  destruct xs as [|d xs']; cbn [map] in Hhd.
  - subst ts. cbn. done.
  - destruct Hhd as [rest ->].
    destruct (nonempty (selectedSensorType r)); cbn.
    + done.
    + split_and!; try done. apply elem_of_cons. by left.
Qed.


End Lists.

(** The demo device answering with two readings. *)
Lemma latest_data_offers_each_type_once_witness :
  let B := Demo.backend 3 in
  let r := setSelectedDeviceId "dev-1" Dashboard_initial in
  let st' := fst (fetchLatestData r r (Demo.page (Demo.store "fresh" "r0"))) in
  sensorTypes st' = ["temperature"; "humidity"]
  ∧ NoDup (sensorTypes st')
  ∧ selectedSensorType st' = "temperature".
Proof.
  intros B r st'.
  edestruct (latest_data_offers_each_type_once (B := B) r r
               (Demo.page (Demo.store "fresh" "r0")))
    as (_ & Hn & _ & Hsel); [reflexivity|reflexivity|].
  split; [reflexivity|]. split; [exact Hn|]. apply Hsel.
Defined.

(** Deleting the selected device on the demo server: the selection is
    cleared, and stays cleared when the list arrives, since the render had a
    device selected. *)
Example delete_selected_device :
  let B := Demo.backend 3 in
  let w := Demo.page (Demo.store "fresh" "r0") in
  let r := setSelectedDeviceId "dev-1" Dashboard_initial in
  (let '(st, w') := handleDeleteDevice true "dev-1" r r w in
   (selectedDeviceId st, map nc_method (net_log w'), alert_log w',
    selectedDeviceId (fst (deliver 0 st w')))
   = ("", [GET; DELETE], ["Device deleted successfully!"], ""))
  ∧ handleDeleteDevice false "dev-1" r r w = (r, w).
Proof. vm_compute. split; reflexivity. Qed.

(** With nothing selected and the empty id, the handler sets the selection
    to the empty string, and the list that arrives afterwards selects its
    first device. *)
Example delete_with_nothing_selected :
  let B := Demo.backend 3 in
  let w := Demo.page (Demo.store "fresh" "r0") in
  let r := Dashboard_initial in
  let '(st, w') := handleDeleteDevice true "" r r w in
  selectedDeviceId st = ""
  ∧ selectedDeviceId (fst (deliver 0 st w')) = "dev-1".
Proof. vm_compute. split; reflexivity. Qed.

(** ** Feeds and renders *)

Section Renders.
Context `{B : Backend}.

Lemma grows_by_refl P log : grows_by P log log.
Proof. intros p Hp. by left. Qed.

Lemma grows_by_trans P l1 l2 l3 :
  grows_by P l1 l2 → grows_by P l2 l3 → grows_by P l1 l3.
Proof.
  intros H12 H23 p Hp. destruct (H23 p Hp) as [H|H]; [|by right].
  by apply H12.
Qed.

Lemma grows_by_weaken (P Q : nat * FeedKind → bool) l l' :
  (∀ p, P p = true → Q p = true) → grows_by P l l' → grows_by Q l l'.
Proof. intros HPQ H p Hp. destruct (H p Hp); [by left|right; auto]. Qed.

Lemma grows_by_close P h log : grows_by P log (FClose h :: log).
Proof. intros [h' k] [Hin _]%In_open_feeds_close. by left. Qed.

Lemma grows_by_close_opt P ref log : grows_by P log (close_opt ref log).
Proof. destruct ref; [apply grows_by_close|apply grows_by_refl]. Qed.

Lemma grows_by_open (P : nat * FeedKind → bool) k url log :
  P (next_handle log, k) = true → grows_by P log (FOpen k url :: log).
Proof. intros HP p [<-|Hin]; [by right|by left]. Qed.

Lemma no_feed_grows (P Q : nat * FeedKind → bool) l l' :
  grows_by Q l l' → (∀ p, Q p = true → P p = false) →
  no_feed P l → no_feed P l'.
Proof.
  intros Hg HQP Hn p Hp. destruct (Hg p Hp) as [H|H]; [by apply Hn|].
  by apply HQP.
Qed.

Lemma no_feed_closed P log : open_feeds log = [] → no_feed P log.
Proof. intros H p Hp. rewrite H in Hp. destruct Hp. Qed.

Lemma opens_only_weaken (P Q : nat * FeedKind → bool) f :
  (∀ p, P p = true → Q p = true) → opens_only P f → opens_only Q f.
Proof. intros HPQ Hf st w. eapply grows_by_weaken; [exact HPQ|apply Hf]. Qed.

Lemma opens_nothing_weaken P f : opens_only nothing f → opens_only P f.
Proof. apply opens_only_weaken. intros p Hp. discriminate. Qed.

Lemma opens_only_frame P f :
  (∀ st w, feeds_of (f st w) = feeds_of (st, w)) → opens_only P f.
Proof.
  intros Hf st w. specialize (Hf st w). unfold feeds_of in Hf.
  injection Hf as _ _ _ ->. apply grows_by_refl.
Qed.

Lemma opens_only_id P : opens_only P (λ st w, (st, w)).
Proof. intros st w. apply grows_by_refl. Qed.

Lemma opens_only_seq P f g :
  opens_only P f → opens_only P g →
  opens_only P (λ st w, let '(st, w) := f st w in g st w).
Proof.
  intros Hf Hg st w. specialize (Hf st w).
  destruct (f st w) as [st1 w1]. simpl in Hf.
  eapply grows_by_trans; [exact Hf|apply Hg].
Qed.

Lemma opens_only_when P b f : opens_only P f → opens_only P (when b f).
Proof.
  intros Hf st w. unfold when. destruct b; [apply Hf|apply grows_by_refl].
Qed.

Lemma opens_only_if P (b : bool) f :
  opens_only P f → opens_only P (λ st w, if b then f st w else (st, w)).
Proof. intros Hf st w. destruct b; [apply Hf|apply grows_by_refl]. Qed.

Lemma feed_log_close_current ref w :
  feed_log (close_current ref w) = close_opt ref (feed_log w).
Proof. by destruct ref. Qed.

Lemma setupAlertsSSE_opens : opens_only is_alerts_feed setupAlertsSSE.
Proof.
  intros st w. unfold setupAlertsSSE.
  destruct (negb _); [apply grows_by_refl|]. simpl.
  rewrite feed_log_close_current.
  eapply grows_by_trans; [apply grows_by_close_opt|by apply grows_by_open].
Qed.

Lemma setupEventsSSE_opens : opens_only is_events_feed setupEventsSSE.
Proof.
  intros st w. unfold setupEventsSSE.
  destruct (negb _); [apply grows_by_refl|]. simpl.
  rewrite feed_log_close_current.
  eapply grows_by_trans; [apply grows_by_close_opt|by apply grows_by_open].
Qed.

Lemma setupSensorSSE_opens r : opens_only is_sensor_feed (setupSensorSSE r).
Proof.
  intros st w. unfold setupSensorSSE.
  destruct (negb (nonempty _)); [apply grows_by_refl|].
  destruct (negb (truthy _)); [apply grows_by_refl|]. simpl.
  rewrite feed_log_close_current.
  eapply grows_by_trans; [apply grows_by_close_opt|by apply grows_by_open].
Qed.

Lemma closeSSEConnections_opens : opens_only nothing closeSSEConnections.
Proof.
  intros st w. pose proof (closeSSEConnections_log st w) as H.
  unfold feeds_of in H. injection H as _ _ _ ->.
  repeat (eapply grows_by_trans; [|apply grows_by_close_opt]).
  apply grows_by_refl.
Qed.

Lemma effect_sensor_cleanup_opens : opens_only nothing effect_sensor_cleanup.
Proof.
  intros st w. unfold effect_sensor_cleanup.
  destruct (sensorSSERef st); [apply grows_by_close|apply grows_by_refl].
Qed.

Lemma effect_initialize_feeds st w :
  feeds_of (effect_initialize st w) = feeds_of (st, w).
Proof.
  unfold effect_initialize. destruct (_ && _); [|reflexivity].
  apply (fetchUserProfile_start_feeds (setIsAuthenticated true st)).
Qed.

Lemma effect_fetch_feeds r st w :
  feeds_of (effect_fetch r st w) = feeds_of (st, w).
Proof.
  unfold effect_fetch. destruct (signed_in r); [|reflexivity].
  cbv zeta.
  rewrite fetchThresholds_start_feeds, fetchRecentEvents_start_feeds,
    fetchRecentAlerts_start_feeds.
  apply fetchDevices_start_feeds.
Qed.

Lemma effect_history_feeds r st w :
  feeds_of (effect_history r st w) = feeds_of (st, w).
Proof.
  unfold effect_history. destruct (_ && _); [|reflexivity].
  cbv zeta. rewrite fetchSensorHistory_start_feeds.
  apply fetchAnalytics_start_feeds.
Qed.

Lemma effect_feeds_opens r : opens_only is_session_feed (effect_feeds r).
Proof.
  unfold effect_feeds. apply opens_only_if.
  apply (opens_only_seq _ setupAlertsSSE).
  - eapply opens_only_weaken; [|apply setupAlertsSSE_opens].
    intros p Hp. unfold is_session_feed. by rewrite Hp.
  - eapply opens_only_weaken; [|apply setupEventsSSE_opens].
    intros p Hp. unfold is_session_feed. rewrite Hp. apply orb_true_r.
Qed.

Lemma effect_feeds_signed_out P r :
  signed_in r = false → opens_only P (effect_feeds r).
Proof.
  intros H st w. unfold effect_feeds. rewrite H. apply grows_by_refl.
Qed.

Lemma effect_sensor_opens r : opens_only is_sensor_feed (effect_sensor r).
Proof.
  unfold effect_sensor. apply opens_only_if.
  apply (opens_only_seq _ (setupSensorSSE r)
           (λ st w, (st, fetchLatestData_start r w)));
    [apply setupSensorSSE_opens|].
  apply opens_only_frame. intros. apply fetchLatestData_start_feeds.
Qed.

Lemma effect_sensor_unwanted P r :
  wants_sensor_feed r = false → opens_only P (effect_sensor r).
Proof.
  intros H st w. unfold effect_sensor.
  unfold wants_sensor_feed in H. rewrite H. apply grows_by_refl.
Qed.

Lemma session_unchanged prev r :
  session_changed prev r = false → signed_in r = signed_in prev.
Proof.
  unfold session_changed, signed_in.
  intros [H1 H2]%orb_false_iff.
  apply negb_false_iff, Bool.eqb_prop in H1.
  apply negb_false_iff, bool_decide_eq_true in H2.
  by rewrite H1, H2.
Qed.

Lemma sensor_deps_unchanged prev r :
  sensor_deps_changed prev r = false →
  wants_sensor_feed r = wants_sensor_feed prev.
Proof.
  unfold sensor_deps_changed, wants_sensor_feed.
  intros [H1 H2]%orb_false_iff.
  apply negb_false_iff, String.eqb_eq in H1.
  apply negb_false_iff, Bool.eqb_prop in H2.
  by rewrite H1, H2.
Qed.

Lemma session_sensor_disjoint p :
  is_sensor_feed p = true → is_session_feed p = false.
Proof. destruct p as [h []]; done. Qed.

Lemma sensor_session_disjoint p :
  is_session_feed p = true → is_sensor_feed p = false.
Proof. destruct p as [h []]; done. Qed.

(** The effects that run after the clean-ups, when the render is not signed
    in: only the sensor feed can be opened. *)
Lemma bodies_signed_out prev r :
  signed_in r = false →
  opens_only is_sensor_feed
    (λ st w,
       let '(st, w) :=
         when (sensor_deps_changed prev r) effect_sensor_cleanup st w in
       let '(st, w) := when (session_changed prev r) (effect_fetch r) st w in
       let '(st, w) := when (session_changed prev r) (effect_feeds r) st w in
       let '(st, w) :=
         when (sensor_deps_changed prev r) (effect_sensor r) st w in
       when (history_deps_changed prev r) (effect_history r) st w).
Proof.
  intros Hr.
  apply (opens_only_seq _ (when _ effect_sensor_cleanup)).
  { apply opens_only_when, opens_nothing_weaken,
      effect_sensor_cleanup_opens. }
  apply (opens_only_seq _ (when _ (effect_fetch r))).
  { apply opens_only_when, opens_only_frame, effect_fetch_feeds. }
  apply (opens_only_seq _ (when _ (effect_feeds r))).
  { by apply opens_only_when, effect_feeds_signed_out. }
  apply (opens_only_seq _ (when _ (effect_sensor r))).
  { apply opens_only_when, effect_sensor_opens. }
  apply opens_only_when, opens_only_frame, effect_history_feeds.
Qed.

(** The effect bodies when the render wants no sensor feed: only alert and
    event feeds can be opened. *)
Lemma bodies_without_device prev r :
  wants_sensor_feed r = false →
  opens_only is_session_feed
    (λ st w,
       let '(st, w) := when (session_changed prev r) (effect_fetch r) st w in
       let '(st, w) := when (session_changed prev r) (effect_feeds r) st w in
       let '(st, w) :=
         when (sensor_deps_changed prev r) (effect_sensor r) st w in
       when (history_deps_changed prev r) (effect_history r) st w).
Proof.
  intros Hr.
  apply (opens_only_seq _ (when _ (effect_fetch r))).
  { apply opens_only_when, opens_only_frame, effect_fetch_feeds. }
  apply (opens_only_seq _ (when _ (effect_feeds r))).
  { apply opens_only_when, effect_feeds_opens. }
  apply (opens_only_seq _ (when _ (effect_sensor r))).
  { by apply opens_only_when, effect_sensor_unwanted. }
  apply opens_only_when, opens_only_frame, effect_history_feeds.
Qed.

Lemma mount_opens r :
  opens_only
    (λ p, signed_in r && is_session_feed p
          || wants_sensor_feed r && is_sensor_feed p)
    (run_effects None r).
Proof.
  unfold run_effects.
  apply (opens_only_seq _ effect_initialize).
  { apply opens_only_frame, effect_initialize_feeds. }
  apply (opens_only_seq _ (effect_fetch r)).
  { apply opens_only_frame, effect_fetch_feeds. }
  apply (opens_only_seq _ (effect_feeds r)).
  { destruct (signed_in r) eqn:Hs.
    - eapply opens_only_weaken; [|apply effect_feeds_opens].
      intros p ->. reflexivity.
    - by apply effect_feeds_signed_out. }
  apply (opens_only_seq _ (effect_sensor r)).
  { destruct (wants_sensor_feed r) eqn:Hs.
    - eapply opens_only_weaken; [|apply effect_sensor_opens].
      intros p ->. apply orb_true_r.
    - by apply effect_sensor_unwanted. }
  apply opens_only_frame, effect_history_feeds.
Qed.

Lemma handleLogout_opens : opens_only nothing handleLogout.
Proof.
  intros st w. unfold handleLogout.
  pose proof (axiosInstance_frame logout_api
                (request POST "/auth/logout" NoBody) w) as (Hf & _).
  destruct (axiosInstance _ _ w) as [s w1]. simpl in Hf.
  assert (Hfin : ∀ w2, feed_log w2 = feed_log w →
            grows_by nothing (feed_log w)
              (feed_log (snd (let '(st0, w0) := closeSSEConnections st w2 in
                              (setUser None (setIsAuthenticated false st0),
                               clear w0))))).
  { intros w2 Hw2. pose proof (closeSSEConnections_opens st w2) as H.
    rewrite Hw2 in H. destruct (closeSSEConnections st w2) as [st0 w0].
    exact H. }
  destruct s; [by apply Hfin|by apply Hfin|].
  simpl. rewrite Hf. apply grows_by_refl.
Qed.

Lemma handle_opens_nothing e r a :
  rendered (handle e r a) = rendered a
  ∧ grows_by nothing (feed_log (world a)) (feed_log (world (handle e r a))).
Proof.
  assert (Hon : ∀ f, opens_only nothing f →
    let a' := (let '(st, w) := f (dash a) (world a) in
               {| page := page a; dash := st; rendered := rendered a;
                  world := w |}) in
    rendered a' = rendered a
    ∧ grows_by nothing (feed_log (world a)) (feed_log (world a'))).
  { intros f Hf. specialize (Hf (dash a) (world a)).
    destruct (f (dash a) (world a)) as [st w]. by split. }
  destruct e; unfold handle;
    try (split; [reflexivity|apply grows_by_refl]).
  - pose proof (handleLogin_feeds (page a) (dash a) (world a)) as Hl.
    destruct (handleLogin _ _ _) as [[p st] w]. unfold feeds_of in Hl.
    simpl in *. injection Hl as _ _ _ ->.
    split; [reflexivity|apply grows_by_refl].
  - apply Hon, handleLogout_opens.
  - apply Hon, opens_only_frame, handleAddDevice_feeds.
  - apply Hon, opens_only_frame, handleDeleteDevice_feeds.
Qed.

(** Only a render opens a source. *)
Lemma step_opens_nothing a e :
  e ≠ Render →
  rendered (step a e) = rendered a
  ∧ grows_by nothing (feed_log (world a)) (feed_log (world (step a e))).
Proof.
  intros He.
  assert (Hsame : rendered a = rendered a
    ∧ grows_by nothing (feed_log (world a)) (feed_log (world a))).
  { split; [reflexivity|apply grows_by_refl]. }
  destruct e as [| | | | | | | | | | |hd payload|hd|i]; try done;
    try (unfold step;
         match goal with |- context [handle ?e] =>
           pose proof (λ r, handle_opens_nothing e r a) as Hh end;
         destruct (rendered a) as [r|] eqn:Hr;
         [apply Hh|split; [exact Hr|apply grows_by_refl]]).
  - unfold step.
    match goal with |- context [list_find ?Q ?l] =>
      destruct (list_find Q l) as [[i [h k]]|] end; [|exact Hsame].
    pose proof (onmessage_feeds k payload (dash a) (world a)) as Hm.
    destruct (onmessage _ _ _ _) as [st w]. unfold feeds_of in Hm.
    simpl in *. injection Hm as _ _ _ ->.
    split; [reflexivity|apply grows_by_refl].
  - unfold step.
    match goal with |- context [list_find ?Q ?l] =>
      destruct (list_find Q l) as [[i [h k]]|] end; [|exact Hsame].
    split; [reflexivity|]. simpl. apply grows_by_close.
  - unfold step.
    pose proof (deliver_feeds i (dash a) (world a)) as Hd.
    destruct (deliver i (dash a) (world a)) as [st w]. unfold feeds_of in Hd.
    simpl in *. injection Hd as _ _ _ ->.
    split; [reflexivity|apply grows_by_refl].
Qed.

Lemma closeSSEConnections_all_closed st w :
  feeds_inv (st, w) →
  open_feeds (feed_log (snd (closeSSEConnections st w))) = [].
Proof.
  intros H. destruct (closeSSEConnections_closed st w H) as [_ Hok].
  by apply feeds_ok_all_closed.
Qed.

Lemma effect_sensor_cleanup_closed st w :
  feeds_inv (st, w) →
  no_feed is_sensor_feed (feed_log (snd (effect_sensor_cleanup st w))).
Proof.
  intros H. pose proof (effect_sensor_cleanup_inv st w H) as [Ht _].
  assert (Hnone : sensorSSERef (fst (effect_sensor_cleanup st w)) = None).
  { unfold effect_sensor_cleanup. by destruct (sensorSSERef st) eqn:E. }
  rewrite Hnone in Ht. apply no_sensor_feed_open in Ht.
  intros p Hp. destruct (is_sensor_feed p) eqn:Hs; [|done].
  assert (Hin : In p (open_sensor_feeds
                        (feed_log (snd (effect_sensor_cleanup st w)))))
    by (apply filter_In; by split).
  rewrite Ht in Hin. destruct Hin.
Qed.

Lemma commit_follows a :
  feeds_inv (dash a, world a) → feeds_follow_render a →
  feeds_follow_render (commit a).
Proof.
  intros Hinv Hf. unfold feeds_follow_render, commit in *.
  set (r := dash a) in *.
  destruct (rendered a) as [prev|].
  - destruct Hf as [Hsess Hsens].
    assert (Hgoal :
      (signed_in r = false →
       no_feed is_session_feed
         (feed_log (snd (run_effects (Some prev) r r (world a)))))
      ∧ (wants_sensor_feed r = false →
         no_feed is_sensor_feed
           (feed_log (snd (run_effects (Some prev) r r (world a)))))).
    { unfold run_effects. split; intros Hr.
      - (* alert and event feeds *)
        assert (H1 : no_feed is_session_feed
                  (feed_log (snd (when (session_changed prev r
                                        && signed_in prev)
                                    closeSSEConnections r (world a))))).
        { unfold when.
          destruct (session_changed prev r) eqn:Hc; simpl.
          - destruct (signed_in prev) eqn:Hp; [|by apply Hsess].
            apply no_feed_closed. by apply closeSSEConnections_all_closed.
          - apply Hsess. rewrite <- (session_unchanged _ _ Hc). exact Hr. }
        destruct (when _ closeSSEConnections r (world a)) as [st1 w1].
        simpl in H1.
        pose proof (bodies_signed_out prev r Hr st1 w1) as Hb.
        cbv beta in Hb.
        eapply no_feed_grows; [exact Hb|apply session_sensor_disjoint|].
        exact H1.
      - (* the sensor feed *)
        pose proof (closeSSEConnections_opens r (world a)) as Hc1.
        assert (Hinv1 : feeds_inv (when (session_changed prev r
                                         && signed_in prev)
                                     closeSSEConnections r (world a))).
        { unfold when. destruct (_ && _); [|exact Hinv].
          by apply closeSSEConnections_inv. }
        assert (Hs1 : wants_sensor_feed prev = false →
                  no_feed is_sensor_feed
                    (feed_log (snd (when (session_changed prev r
                                          && signed_in prev)
                                      closeSSEConnections r (world a))))).
        { intros Hp. unfold when. destruct (_ && _); [|by apply Hsens].
          eapply no_feed_grows; [exact Hc1| |by apply Hsens]. done. }
        destruct (when _ closeSSEConnections r (world a)) as [st1 w1].
        simpl in Hs1.
        assert (H2 : no_feed is_sensor_feed
                  (feed_log (snd (when (sensor_deps_changed prev r)
                                    effect_sensor_cleanup st1 w1)))).
        { unfold when. destruct (sensor_deps_changed prev r) eqn:Hc.
          - by apply effect_sensor_cleanup_closed.
          - apply Hs1. rewrite <- (sensor_deps_unchanged _ _ Hc). exact Hr. }
        destruct (when _ effect_sensor_cleanup st1 w1) as [st2 w2].
        simpl in H2.
        pose proof (bodies_without_device prev r Hr st2 w2) as Hb.
        cbv beta in Hb.
        eapply no_feed_grows; [exact Hb|apply sensor_session_disjoint|].
        exact H2. }
    destruct (run_effects (Some prev) r r (world a)) as [st w].
    exact Hgoal.
  - pose proof (mount_opens r r (world a)) as Hm. rewrite Hf in Hm.
    destruct (run_effects None r r (world a)) as [st w]. simpl in *.
    split; intros Hr p Hp; destruct (Hm p Hp) as [[]|Hk];
      rewrite Hr in Hk; simpl in Hk.
    + destruct (wants_sensor_feed r); simpl in Hk; [|done].
      by apply session_sensor_disjoint.
    + rewrite andb_false_r in Hk || idtac.
      destruct (signed_in r); simpl in Hk; [|done].
      rewrite orb_false_r in Hk. by apply sensor_session_disjoint.
Qed.

Lemma step_follows a e :
  feeds_inv (dash a, world a) → feeds_follow_render a →
  feeds_follow_render (step a e).
Proof.
  intros Hinv Hf.
  assert (He : e = Render ∨ e ≠ Render)
    by (destruct e; (by left) || (right; discriminate)).
  destruct He as [->|He]; [by apply commit_follows|].
  destruct (step_opens_nothing a e He) as [Hr Hg].
  unfold feeds_follow_render in *. rewrite Hr.
  destruct (rendered a) as [r|] eqn:Hra.
  - destruct Hf as [H1 H2]. split; intros H.
    + eapply no_feed_grows; [exact Hg|done|by apply H1].
    + eapply no_feed_grows; [exact Hg|done|by apply H2].
  - (* before the mount nothing runs *)
    destruct e as [| | | | | | | | | | |hd payload|hd|i]; try done;
      try (unfold step; by rewrite Hra).
    + unfold step. rewrite Hf. simpl. exact Hf.
    + unfold step. rewrite Hf. simpl. exact Hf.
    + unfold step.
      pose proof (deliver_feeds i (dash a) (world a)) as Hd.
      destruct (deliver i (dash a) (world a)) as [st w].
      unfold feeds_of in Hd. simpl in *. injection Hd as _ _ _ ->.
      exact Hf.
Qed.

(** X14.  From a fresh page load, whatever happens, the open feeds are no
    more than the last committed render asked for: before the mount none has
    been opened; an alert or event feed is open only if that render had a
    session with a user profile; a sensor feed is open only if it had a
    session and a selected device. *)
Theorem feeds_only_under_a_session (ls : gmap string string) (href : string)
    (events : list Event) :
  let a := run (App_initial (World_initial ls href)) events in
  match rendered a with
  | None => feed_log (world a) = []
  | Some r =>
      (∀ h, In (h, AlertsFeed) (open_feeds (feed_log (world a)))
            ∨ In (h, EventsFeed) (open_feeds (feed_log (world a)))
            → isAuthenticated r = true ∧ is_Some (user r))
      ∧ (∀ h c, In (h, SensorFeed c) (open_feeds (feed_log (world a)))
                → isAuthenticated r = true
                  ∧ nonempty (selectedDeviceId r) = true)
  end.
Proof.
  intros a.
  assert (H : feeds_inv (dash a, world a) ∧ feeds_follow_render a).
  { subst a.
    assert (H0 : ∀ a, feeds_inv (dash a, world a) ∧ feeds_follow_render a →
                   feeds_inv (dash (run a events), world (run a events))
                   ∧ feeds_follow_render (run a events)).
    { induction events as [|e events IH]; intros a Ha; [exact Ha|].
      simpl. apply IH. destruct Ha as [H1 H2]. split.
      - by apply (step_preserves feeds_inv feeds_inv_respected).
      - by apply step_follows. }
    apply H0. split; [apply feeds_inv_initial|reflexivity]. }
  destruct H as [_ H]. unfold feeds_follow_render in H.
  destruct (rendered a) as [r|]; [|exact H].
  destruct H as [H1 H2]. split.
  - intros h Hin.
    destruct (signed_in r) eqn:Hs.
    + unfold signed_in in Hs. apply andb_true_iff in Hs as [Ha Hu].
      split; [exact Ha|]. by apply bool_decide_eq_true in Hu.
    + specialize (H1 eq_refl). destruct Hin as [Hin|Hin];
        specialize (H1 _ Hin); discriminate.
  - intros h c Hin.
    destruct (wants_sensor_feed r) eqn:Hs.
    + unfold wants_sensor_feed in Hs. apply andb_true_iff in Hs as [Hd Ha].
      by split.
    + specialize (H2 eq_refl _ Hin). discriminate.
Qed.

End Renders.

(** ** Selections *)

Section Selections.
Context `{B : Backend}.

Lemma open_feed_kind_unique (l : list (nat * FeedKind)) h k k' :
  NoDup (map fst l) → In (h, k) l → In (h, k') l → k = k'.
Proof.
  induction l as [|[h0 k0] l IH]; intros Hn H1 H2; [destruct H1|].
  apply NoDup_cons in Hn as [Hp Hl]. simpl in Hp.
  assert (Hfst : ∀ k1, In (h, k1) l → h0 ≠ h).
  { intros k1 Hin ->. apply Hp, list_elem_of_In, in_map_iff.
    by exists (h, k1). }
  destruct H1 as [E1|H1], H2 as [E2|H2].
  - congruence.
  - injection E1 as -> _. by destruct (Hfst _ H2).
  - injection E2 as -> _. by destruct (Hfst _ H1).
  - by apply IH.
Qed.

(** A message reaches the handler that was attached to its source. *)
Lemma find_open_feed log h k :
  In (h, k) (open_feeds log) →
  ∃ i, list_find (λ p, fst p = h) (open_feeds log) = Some (i, (h, k)).
Proof.
  intros Hin.
  destruct (open_feeds_handles log) as [Hn _].
  destruct (list_find (λ p, fst p = h) (open_feeds log))
    as [[i [h' k']]|] eqn:Hfind.
  - apply list_find_Some in Hfind as (Hl & Heq & _). simpl in Heq. subst h'.
    exists i. do 3 f_equal.
    apply (open_feed_kind_unique _ h _ _ Hn); [|exact Hin].
    apply list_elem_of_In. eapply list_elem_of_lookup_2. exact Hl.
  - apply list_find_None in Hfind. rewrite Forall_forall in Hfind.
    apply list_elem_of_In in Hin. by destruct (Hfind _ Hin).
Qed.

Lemma session_same prev r :
  isAuthenticated r = isAuthenticated prev → user r = user prev →
  session_changed prev r = false.
Proof.
  intros Ha Hu. unfold session_changed. rewrite Ha, Hu.
  rewrite Bool.eqb_reflx. rewrite bool_decide_eq_true_2 by done. reflexivity.
Qed.

Lemma sensor_deps_same prev r :
  isAuthenticated r = isAuthenticated prev →
  selectedDeviceId r = selectedDeviceId prev →
  sensor_deps_changed prev r = false.
Proof.
  intros Ha Hd. unfold sensor_deps_changed. rewrite Ha, Hd.
  by rewrite Bool.eqb_reflx, String.eqb_refl.
Qed.

Lemma effect_history_selection r st w :
  selectedSensorType (fst (effect_history r st w)) = selectedSensorType st
  ∧ selectedDeviceId (fst (effect_history r st w)) = selectedDeviceId st.
Proof. unfold effect_history. by destruct (_ && _). Qed.

(** X15.  Choosing another sensor type does not touch the sensor feed: the
    source stays open with the handler it was given when it was set up, so
    the history keeps taking the readings of the type that handler captured,
    whatever type is selected now. *)
Theorem sensor_type_change_keeps_the_feed (a : App) (t : string)
    (h : nat) (captured data : string) (d : SensorData) :
  settled a →
  In (h, SensorFeed captured) (open_feeds (feed_log (world a))) →
  parse_sensor data = Some d →
  let a1 := run a [SelectSensorType t; Render] in
  let a2 := step a1 (FeedMessage h data) in
  feed_log (world a1) = feed_log (world a)
  ∧ sensorSSERef (dash a1) = sensorSSERef (dash a)
  ∧ selectedSensorType (dash a1) = t
  ∧ sensorHistory (dash a2)
    = if String.eqb (sensorType d) captured
      then slice_last 100 (sensorHistory (dash a1) ++ [d])
      else sensorHistory (dash a1).
Proof.
  intros Hset Hin Hparse a1 a2.
  assert (Ha1 : a1 = commit {| page := page a;
                              dash := setSelectedSensorType t (dash a);
                              rendered := Some (dash a);
                              world := world a |}).
  { unfold a1, run. simpl. unfold settled in Hset. by rewrite Hset. }
  assert (Hfacts : feeds_of (dash a1, world a1)
                   = feeds_of (setSelectedSensorType t (dash a), world a)
                   ∧ selectedSensorType (dash a1) = t).
  { rewrite Ha1. unfold commit. cbn [dash rendered world].
    unfold run_effects.
    rewrite session_same, sensor_deps_same by reflexivity.
    cbn [andb when].
    pose proof (effect_history_feeds (setSelectedSensorType t (dash a))
                  (setSelectedSensorType t (dash a)) (world a)) as Hf.
    pose proof (effect_history_selection (setSelectedSensorType t (dash a))
                  (setSelectedSensorType t (dash a)) (world a)) as [Hs _].
    unfold when. destruct (history_deps_changed _ _); [|done].
    destruct (effect_history _ _ _) as [st1 w1]. by split. }
  destruct Hfacts as [Hfeeds Ht]. unfold feeds_of in Hfeeds.
  cbn [fst snd] in Hfeeds. injection Hfeeds as _ Hs _ Hlog.
  split; [exact Hlog|]. split; [exact Hs|]. split; [exact Ht|].
  unfold a2, step. rewrite Hlog.
  destruct (find_open_feed _ _ _ Hin) as [i ->].
  cbn [onmessage]. unfold sensor_onmessage. rewrite Hparse.
  destruct (String.eqb (sensorType d) captured); reflexivity.
Qed.

Lemma effect_sensor_cleanup_spec st w :
  feeds_of (effect_sensor_cleanup st w)
  = (alertsSSERef st, None, eventsSSERef st,
     close_opt (sensorSSERef st) (feed_log w))
  ∧ localStorage (snd (effect_sensor_cleanup st w)) = localStorage w
  ∧ net_log (snd (effect_sensor_cleanup st w)) = net_log w.
Proof.
  unfold effect_sensor_cleanup, feeds_of.
  by destruct (sensorSSERef st) eqn:E; simpl; rewrite ?E.
Qed.

Lemma next_handle_close_opt ref log :
  next_handle (close_opt ref log) = next_handle log.
Proof. by destruct ref. Qed.

Lemma setupSensorSSE_spec r st w :
  nonempty (selectedDeviceId r) = true →
  truthy (getItem "accessToken" w) = true →
  feeds_of (setupSensorSSE r st w)
  = (alertsSSERef st, Some (next_handle (feed_log w)), eventsSSERef st,
     FOpen (SensorFeed (selectedSensorType r))
       (API_BASE +:+ "/sensor-data/" +:+ selectedDeviceId r +:+ "/sse")
     :: close_opt (sensorSSERef st) (feed_log w))
  ∧ localStorage (snd (setupSensorSSE r st w)) = localStorage w
  ∧ net_log (snd (setupSensorSSE r st w)) = net_log w.
Proof.
  intros Hd Ht. unfold setupSensorSSE, feeds_of. rewrite Hd, Ht. simpl.
  rewrite feed_log_close_current, next_handle_close_opt.
  by destruct (sensorSSERef st).
Qed.

(** X16.  In a signed-in page that has settled, choosing another device
    closes the sensor feed the ref holds and opens one for the new device,
    which is then the only sensor feed open; its handler captures the empty
    sensor type, to which the selection was reset; and the latest readings
    of the new device are requested. *)
Theorem selecting_a_device_switches_the_feed (ls : gmap string string)
    (href : string) (events : list Event) (d : string) :
  let a := run (App_initial (World_initial ls href)) events in
  settled a →
  isAuthenticated (dash a) = true →
  truthy (getItem "accessToken" (world a)) = true →
  nonempty d = true →
  String.eqb (selectedDeviceId (dash a)) d = false →
  let a' := run a [SelectDevice d; Render] in
  let h := next_handle (feed_log (world a)) in
  feed_log (world a')
  = FOpen (SensorFeed "") (API_BASE +:+ "/sensor-data/" +:+ d +:+ "/sse")
    :: close_opt (sensorSSERef (dash a)) (feed_log (world a))
  ∧ sensorSSERef (dash a') = Some h
  ∧ open_sensor_feeds (feed_log (world a')) = [(h, SensorFeed "")]
  ∧ ∃ calls,
      net_log (world a')
      = calls ++ wire ViaInstance API_BASE
                   (request_interceptor
                      (request GET ("/sensor-data/" +:+ d +:+ "/latest")
                         NoBody) (world a))
                 :: net_log (world a).
Proof.
  intros a Hset Hauth Htok Hd Hne a' h.
  pose proof (feeds_inv_reachable ls href events) as Hinv. fold a in Hinv.
  set (r := selectDevice d (dash a)).
  assert (Ha' : a' = commit {| page := page a; dash := r;
                              rendered := Some (dash a);
                              world := world a |}).
  { unfold a', run. simpl. unfold settled in Hset. by rewrite Hset. }
  assert (Hfacts :
    feeds_of (dash a', world a')
    = (alertsSSERef (dash a), Some h, eventsSSERef (dash a),
       FOpen (SensorFeed "") (API_BASE +:+ "/sensor-data/" +:+ d +:+ "/sse")
       :: close_opt (sensorSSERef (dash a)) (feed_log (world a)))
    ∧ ∃ calls,
        net_log (world a')
        = calls ++ wire ViaInstance API_BASE
                     (request_interceptor
                        (request GET ("/sensor-data/" +:+ d +:+ "/latest")
                           NoBody) (world a))
                   :: net_log (world a)).
  { rewrite Ha'. unfold commit. cbn [dash rendered world].
    unfold run_effects.
    rewrite session_same by reflexivity.
    assert (Hsd : sensor_deps_changed (dash a) r = true).
    { unfold sensor_deps_changed. simpl. by rewrite Hne. }
    assert (Hhd : ∀ st w, effect_history r st w = (st, w)).
    { intros st w. unfold effect_history. simpl. by rewrite Hd. }
    rewrite Hsd. cbn [andb when].
    destruct (effect_sensor_cleanup_spec r (world a)) as (Hc & Hcs & Hcn).
    destruct (effect_sensor_cleanup r (world a)) as [st2 w2].
    unfold feeds_of in Hc. cbn [fst snd] in Hc, Hcs, Hcn.
    injection Hc as Hca Hcr Hce Hcl.
    unfold effect_sensor. cbn [selectedDeviceId r selectDevice
      setSensorTypes setSelectedSensorType setSelectedDeviceId
      isAuthenticated].
    rewrite Hd, Hauth. cbn [andb].
    destruct (setupSensorSSE_spec r st2 w2) as (Hs & Hss & Hsn).
    { exact Hd. }
    { unfold getItem in *. by rewrite Hcs. }
    destruct (setupSensorSSE r st2 w2) as [st3 w3].
    unfold feeds_of in Hs. cbn [fst snd] in Hs, Hss, Hsn.
    injection Hs as Hsa Hsr Hse Hsl.
    pose proof (fetchLatestData_start_feeds r st3 w3) as Hl.
    assert (Hln : ∃ calls,
      net_log (fetchLatestData_start r w3)
      = calls ++ wire ViaInstance API_BASE
                   (request_interceptor
                      (request GET ("/sensor-data/" +:+ d +:+ "/latest")
                         NoBody) w3)
                 :: net_log w3).
    { unfold fetchLatestData_start.
      cbn [selectedDeviceId r selectDevice setSensorTypes
        setSelectedSensorType setSelectedDeviceId].
      rewrite Hd. cbn [negb]. by exists []. }
    generalize dependent (fetchLatestData_start r w3). intros w4 Hl Hln.
    set (st4 := st3).
    unfold feeds_of in Hl. cbn [fst snd] in Hl, Hln.
    injection Hl as Hll.
    assert (Hla : alertsSSERef st4 = alertsSSERef st3) by reflexivity.
    assert (Hlr : sensorSSERef st4 = sensorSSERef st3) by reflexivity.
    assert (Hle : eventsSSERef st4 = eventsSSERef st3) by reflexivity.
    unfold when. rewrite Hhd. destruct (history_deps_changed _ _);
      (split;
       [unfold feeds_of; cbn [fst snd dash world];
        rewrite Hla, Hlr, Hle, Hll, Hsa, Hsr, Hse, Hsl, Hca, Hce, Hcr, Hcl;
        simpl; rewrite next_handle_close_opt; reflexivity|]);
      destruct Hln as [calls Hcalls]; exists calls; cbn [world];
      rewrite Hcalls, Hsn, Hcn;
      (replace (request_interceptor _ w3)
         with (request_interceptor
                 (request GET ("/sensor-data/" +:+ d +:+ "/latest") NoBody)
                 (world a))
         by (unfold request_interceptor, getItem; by rewrite Hss, Hcs));
      reflexivity. }
  destruct Hfacts as [Hfeeds Hnet].
  unfold feeds_of in Hfeeds. cbn [fst snd] in Hfeeds.
  injection Hfeeds as _ Href _ Hlog.
  split; [exact Hlog|]. split; [exact Href|]. split; [|exact Hnet].
  rewrite Hlog. unfold open_sensor_feeds. simpl.
  rewrite next_handle_close_opt. fold h. f_equal.
  change (List.filter is_sensor_feed
            (open_feeds (close_opt (sensorSSERef (dash a))
                           (feed_log (world a)))))
    with (open_sensor_feeds (close_opt (sensorSSERef (dash a))
                               (feed_log (world a)))).
  apply feeds_ok_reset_sensor in Hinv. destruct Hinv as [Ht _].
  eapply no_sensor_feed_open. exact Ht.
Qed.

End Selections.

(** ** Sessions *)

Section Sessions.
Context `{B : Backend}.


(** A request that resolves leaves every key of the store in place, the two
    tokens apart, and a stored access token stays stored. *)
Lemma axiosInstance_Resolved_store {A} (api : Oracle A) c w res w' :
  axiosInstance api c w = (Resolved res, w') →
  (∀ k, k ≠ "accessToken" → k ≠ "refreshToken" →
        getItem k w' = getItem k w)
  ∧ (is_Some (getItem "accessToken" w) → is_Some (getItem "accessToken" w')).
Proof.
  unfold axiosInstance. rewrite axiosInstance_fuel_S. unfold dispatch.
  destruct (settle _ _) as [r|e|]; [by intros [= _ <-]| |discriminate].
  destruct e as [c' r|m]; [|discriminate].
  unfold response_rejected.
  destruct (status_is 401 r && negb (_retry c')); [|discriminate].
  unfold refresh_tokens.
  destruct (negb _ || negb _); [discriminate|].
  unfold axios_post, dispatch.
  destruct (settle _ _) as [resp|e|]; [|discriminate|discriminate].
  destruct (body resp) as [a r'].
  rewrite axiosInstance_fuel_retried by reflexivity.
  unfold dispatch. intros [= _ <-]. unfold getItem. simpl. split.
  - intros k Ha Hr. by rewrite !lookup_insert_ne.
  - intros _. rewrite lookup_insert_ne by done.
    rewrite lookup_insert_eq. by eexists.
Qed.



















(** X18.  A login the server accepts never shows an error; it ends signed
    in, with the profile and the flag stored and an access token in the
    store, if the profile request resolves, and logged out with an empty
    store if the profile request is rejected. *)
Theorem accepted_login_signs_in_or_clears (p : LoginPage) (st : Dashboard)
    (w w1 : World) (res : Response (option TokenPair)) (tokens : TokenPair) :
  axiosInstance login_api (login_request p) w = (Resolved res, w1) →
  status res = 200 → body res = Some tokens →
  let w2 :=
    setItem "isAuthenticated" "true"
      (setItem "refreshToken" (refreshToken tokens)
         (setItem "accessToken" (accessToken tokens) w1)) in
  let p' := fst (fst (handleLogin p st w)) in
  let st' := snd (fst (handleLogin p st w)) in
  let w' := snd (handleLogin p st w) in
  error p' = "" ∧ loading p' = false
  ∧ match fst (axiosInstance profile_api
                 (request GET "/auth/profile" NoBody) w2) with
    | Resolved profile =>
        isAuthenticated st' = true ∧ user st' = Some (body profile)
        ∧ getItem "isAuthenticated" w' = Some "true"
        ∧ getItem "user" w' = Some (stringify_user (body profile))
        ∧ is_Some (getItem "accessToken" w')
    | Rejected _ =>
        isAuthenticated st' = false ∧ user st' = user st
        ∧ localStorage w' = ∅
    | Pending => False
    end.
Proof.
  intros Hlogin Hstatus Hbody w2 p' st' w'. subst p' st' w'.
  unfold handleLogin. unfold login_request in Hlogin. simpl.
  rewrite Hlogin, Hstatus, Hbody. simpl. fold w2.
  unfold handleLoginSuccess, fetchUserProfile.
  pose proof (axiosInstance_settles profile_api
                (request GET "/auth/profile" NoBody) w2) as Hs.
  destruct (axiosInstance profile_api _ w2) as [[profile|e|] w3] eqn:Hp;
    simpl in *; [| |done].
  - destruct (axiosInstance_Resolved_store _ _ _ _ _ Hp) as [Hkeep Htok].
    repeat split; try reflexivity.
    + unfold getItem in *. simpl. rewrite lookup_insert_ne by done.
      rewrite Hkeep by done. unfold w2. simpl. by rewrite lookup_insert_eq.
    + unfold getItem. simpl. by rewrite lookup_insert_eq.
    + unfold getItem in *. simpl. rewrite lookup_insert_ne by done.
      apply Htok. unfold w2. simpl. rewrite !lookup_insert_ne by done.
      rewrite lookup_insert_eq. by eexists.
  - repeat split; reflexivity.
Qed.

End Sessions.

(** ** The mount *)

Section Mount.
Context `{B : Backend}.

Lemma mount_is_effect_initialize w :
  run_effects None Dashboard_initial Dashboard_initial w
  = effect_initialize Dashboard_initial w.
Proof.
  unfold run_effects.
  by destruct (effect_initialize Dashboard_initial w) as [st1 w1].
Qed.

(** What the delivery of the profile can make of the state the first
    render left. *)
Lemma profile_delivered reply w :
  ∃ b u,
    fst (resume (ProfileRequest reply)
           (setIsAuthenticated true Dashboard_initial) w)
    = setUser u (setIsAuthenticated b Dashboard_initial).
Proof.
  unfold resume, fetchUserProfile_then.
  destruct (axiosInstance_deliver profile_api reply w) as [[res|e|] w1].
  - by exists true, (Some (body res)).
  - by exists false, None.
  - by exists true, None.
Qed.

(** While the profile is on its way a render changes nothing: the state
    has no user, no device and no ref. *)
Lemma waiting_render (b b0 : bool) (a : App) :
  dash a = setIsAuthenticated b Dashboard_initial →
  rendered a = Some (setIsAuthenticated b0 Dashboard_initial) →
  commit a = {| page := page a; dash := dash a;
                rendered := Some (dash a); world := world a |}.
Proof.
  intros Hd Hr. unfold commit. rewrite Hr, Hd.
  set (r := setIsAuthenticated b Dashboard_initial).
  set (prev := setIsAuthenticated b0 Dashboard_initial).
  assert (Hrun : run_effects (Some prev) r r (world a) = (r, world a)).
  { unfold run_effects.
    replace (session_changed prev r && signed_in prev) with false
      by (symmetry; unfold signed_in; simpl; rewrite (andb_false_r b0);
          apply andb_false_r).
    assert (Hsi : signed_in r = false)
      by (unfold signed_in; simpl; apply andb_false_r).
    assert (Hclean : ∀ w', effect_sensor_cleanup r w' = (r, w'))
      by reflexivity.
    assert (Hfetch : ∀ st w', effect_fetch r st w' = (st, w'))
      by (intros; unfold effect_fetch; by rewrite Hsi).
    assert (Hfeeds : ∀ st w', effect_feeds r st w' = (st, w'))
      by (intros; unfold effect_feeds; by rewrite Hsi).
    assert (Hsens : ∀ st w', effect_sensor r st w' = (st, w'))
      by reflexivity.
    assert (Hhist : ∀ st w', effect_history r st w' = (st, w'))
      by reflexivity.
    unfold when. cbn [andb].
    destruct (sensor_deps_changed prev r), (session_changed prev r),
      (history_deps_changed prev r);
      by rewrite ?Hclean, ?Hfetch, ?Hfeeds, ?Hsens, ?Hhist. }
  by rewrite Hrun.
Qed.

Lemma waiting_renders (b : bool) (n : nat) (a : App) :
  dash a = setIsAuthenticated b Dashboard_initial →
  (∃ b0, rendered a = Some (setIsAuthenticated b0 Dashboard_initial)) →
  dash (run a (replicate n Render)) = dash a
  ∧ world (run a (replicate n Render)) = world a
  ∧ page (run a (replicate n Render)) = page a
  ∧ ∃ b0, rendered (run a (replicate n Render))
          = Some (setIsAuthenticated b0 Dashboard_initial).
Proof.
  revert a. induction n as [|n IH]; intros a Hd [b0 Hr].
  { repeat split. by exists b0. }
  simpl. change (fold_left step (replicate n Render) (commit a))
    with (run (commit a) (replicate n Render)).
  rewrite (waiting_render b b0 a Hd Hr).
  destruct (IH {| page := page a; dash := dash a;
                  rendered := Some (dash a); world := world a |})
    as (H1 & H2 & H3 & H4); [exact Hd|exists b; simpl; by rewrite Hd|].
  exact (conj H1 (conj H2 (conj H3 H4))).
Qed.

Lemma render_after_profile (b b0 : bool) (u : option User) (w : World) :
  feed_log w = [] → in_flight w = [] →
  let prev := setIsAuthenticated b0 Dashboard_initial in
  let r := setUser u (setIsAuthenticated b Dashboard_initial) in
  let x := run_effects (Some prev) r r w in
  open_feeds (feed_log (snd x))
  = (if signed_in r && truthy (getItem "accessToken" w)
     then [(1%nat, EventsFeed); (0%nat, AlertsFeed)]
     else [])
  ∧ localStorage (snd x) = localStorage w
  ∧ if signed_in r
    then ∃ d al ev th,
           in_flight (snd x)
           = [DevicesRequest "" d; AlertsRequest al; EventsRequest ev;
              ThresholdsRequest th]
    else snd x = w.
Proof.
  intros Hw Hq prev r x. subst x.
  assert (Hclean : ∀ w', effect_sensor_cleanup r w' = (r, w'))
    by reflexivity.
  assert (Hsens : ∀ st w', effect_sensor r st w' = (st, w')) by reflexivity.
  assert (Hhist : ∀ st w', effect_history r st w' = (st, w')) by reflexivity.
  assert (Hprev : ∀ c, c && signed_in prev = false)
    by (intros c; unfold signed_in; simpl; rewrite (andb_false_r b0);
        apply andb_false_r).
  unfold run_effects. rewrite Hprev. cbn [when].
  destruct (signed_in r) eqn:Hsi.
  - assert (Hb : b = true) by (by destruct b).
    subst b.
    assert (Hsc : session_changed prev r = true).
    { unfold session_changed. destruct u as [usr|]; [|discriminate].
      apply orb_true_r. }
    assert (Hcl : when (sensor_deps_changed prev r) effect_sensor_cleanup r w
                  = (r, w)).
    { unfold when. destruct (sensor_deps_changed prev r); [apply Hclean|].
      reflexivity. }
    set (w3 := fetchThresholds_start
                 (fetchRecentEvents_start
                    (fetchRecentAlerts_start (fetchDevices_start r w)))).
    assert (Hfetch : effect_fetch r r w = (r, w3))
      by (unfold effect_fetch; by rewrite Hsi).
    assert (Hlog : feed_log w3 = []) by (rewrite <- Hw; reflexivity).
    assert (Hstore : localStorage w3 = localStorage w) by reflexivity.
    assert (Hfl : ∃ d al ev th,
              in_flight w3
              = [DevicesRequest "" d; AlertsRequest al; EventsRequest ev;
                 ThresholdsRequest th]).
    { unfold w3, fetchThresholds_start, fetchRecentEvents_start,
        fetchRecentAlerts_start, fetchDevices_start, axiosInstance_send,
        dispatch, enqueue. simpl. rewrite Hq. simpl. eauto 10. }
    clearbody w3.
    assert (Hfeeds : ∃ st5 w5,
              effect_feeds r r w3 = (st5, w5)
              ∧ open_feeds (feed_log w5)
                = (if truthy (getItem "accessToken" w)
                   then [(1%nat, EventsFeed); (0%nat, AlertsFeed)]
                   else [])
              ∧ localStorage w5 = localStorage w
              ∧ in_flight w5 = in_flight w3).
    { unfold effect_feeds. rewrite Hsi.
      unfold setupAlertsSSE, setupEventsSSE, getItem. rewrite Hstore.
      destruct (truthy (localStorage w !! "accessToken")) eqn:Htok.
      - simpl. rewrite Hstore, Htok. simpl. rewrite Hlog.
        eexists _, _. split; [reflexivity|]. simpl. by rewrite Hstore.
      - simpl. rewrite Hstore, Htok. simpl.
        eexists _, _. split; [reflexivity|]. by rewrite Hlog. }
    destruct Hfeeds as (st5 & w5 & Hfeeds & Ho & Hs & Hi).
    rewrite Hsc, Hcl. cbn [when]. rewrite Hfetch, Hfeeds.
    rewrite <- Hi in Hfl.
    destruct (sensor_deps_changed prev r), (history_deps_changed prev r);
      rewrite ?Hsens, ?Hhist; cbn [snd andb];
      (split; [exact Ho|]; split; [exact Hs|]; exact Hfl).
  - assert (Hfetch : ∀ st w', effect_fetch r st w' = (st, w'))
      by (intros; unfold effect_fetch; by rewrite Hsi).
    assert (Hfeeds : ∀ st w', effect_feeds r st w' = (st, w'))
      by (intros; unfold effect_feeds; by rewrite Hsi).
    unfold when.
    destruct (sensor_deps_changed _ _), (session_changed _ _),
      (history_deps_changed _ _);
      rewrite ?Hclean, ?Hfetch, ?Hfeeds, ?Hsens, ?Hhist; simpl;
      rewrite Hw; repeat split; reflexivity.
Qed.

(** X19.  On a fresh page load the first render opens no feed.  Unless the
    store holds the flag and an access token it sends nothing and changes
    nothing; if it does, the session is marked and the profile is requested,
    with the stored token, and not awaited.  Renders that happen while the
    reply is on its way change nothing.  Once the reply is delivered, the
    next render opens the alert feed and then the event feed, and nothing
    else, exactly when the delivery left a session with a profile and an
    access token in the store; it does so having sent the four requests for
    the lists and before any of them is answered. *)
Theorem mount_restores_the_session (ls : gmap string string)
    (href : string) (n : nat) :
  let w0 := World_initial ls href in
  let stored :=
    bool_decide (ls !! "isAuthenticated" = Some "true")
    && truthy (ls !! "accessToken") in
  let a1 := step (App_initial w0) Render in
  let waiting := run a1 (replicate n Render) in
  let a2 := step waiting (Deliver 0) in
  let a3 := step a2 Render in
  feed_log (world a1) = []
  ∧ dash a1
    = (if stored then setIsAuthenticated true Dashboard_initial
       else Dashboard_initial)
  ∧ world a1 = (if stored then fetchUserProfile_start w0 else w0)
  ∧ net_log (world a1)
    = (if stored
       then [{| nc_via := ViaInstance; nc_method := GET;
                nc_url := API_BASE +:+ "/auth/profile";
                nc_auth :=
                  Some ("Bearer " +:+ default "" (ls !! "accessToken"));
                nc_body := NoBody |}]
       else [])
  ∧ dash waiting = dash a1 ∧ world waiting = world a1
  ∧ open_feeds (feed_log (world a3))
    = (if signed_in (dash a2) && truthy (getItem "accessToken" (world a2))
       then [(1%nat, EventsFeed); (0%nat, AlertsFeed)]
       else [])
  ∧ localStorage (world a3) = localStorage (world a2)
  ∧ if signed_in (dash a2)
    then ∃ d al ev th,
           in_flight (world a3)
           = [DevicesRequest "" d; AlertsRequest al; EventsRequest ev;
              ThresholdsRequest th]
    else world a3 = world a2.
Proof.
  intros w0 stored a1 waiting a2 a3.
  assert (Ha1 : a1 = {| page := LoginPage_initial;
                        dash := fst (effect_initialize Dashboard_initial w0);
                        rendered := Some Dashboard_initial;
                        world := snd (effect_initialize Dashboard_initial w0)
                     |}).
  { unfold a1, step, commit. cbn [App_initial dash rendered world page].
    rewrite mount_is_effect_initialize.
    by destruct (effect_initialize Dashboard_initial w0). }
  assert (Hinit : effect_initialize Dashboard_initial w0
                  = if stored
                    then (setIsAuthenticated true Dashboard_initial,
                          fetchUserProfile_start w0)
                    else (Dashboard_initial, w0)) by reflexivity.
  rewrite Hinit in Ha1.
  assert (Hd1 : dash a1 = setIsAuthenticated stored Dashboard_initial)
    by (rewrite Ha1; by destruct stored).
  destruct (waiting_renders stored n a1 Hd1) as (Hwd & Hww & _ & b0 & Hwr).
  { exists false. by rewrite Ha1. }
  fold waiting in Hwd, Hww, Hwr.
  assert (Ha2 : ∃ b u,
            dash a2 = setUser u (setIsAuthenticated b Dashboard_initial)
            ∧ rendered a2 = Some (setIsAuthenticated b0 Dashboard_initial)
            ∧ feed_log (world a2) = [] ∧ in_flight (world a2) = []).
  { unfold a2, step. rewrite Hwd, Hww, Hwr, Ha1.
    cbn [dash world rendered page].
    destruct stored; cbn [fst snd].
    - unfold deliver, fetchUserProfile_start, axiosInstance_send, dispatch,
        enqueue. cbn [in_flight with_in_flight with_net_log w0 World_initial
        app lookup list_lookup delete list_delete].
      match goal with |- context [resume (ProfileRequest ?reply) ?st ?w] =>
        destruct (profile_delivered reply w) as (b & u & Hd);
        pose proof (resume_feeds (ProfileRequest reply) st w) as Hf;
        pose proof (axiosInstance_deliver_frame profile_api reply w)
          as (_ & _ & _ & Hq);
        assert (Hq' : in_flight (snd (resume (ProfileRequest reply) st w))
                      = in_flight w)
          by (unfold resume, fetchUserProfile_then;
              destruct (axiosInstance_deliver profile_api reply w)
                as [[?|?|] ?]; exact Hq);
        destruct (resume (ProfileRequest reply) st w) as [st2 w2] end.
      unfold feeds_of in Hf. cbn [fst snd] in *.
      injection Hf as _ _ _ Hf.
      exists b, u. by repeat split.
    - exists false, None. by repeat split. }
  destruct Ha2 as (b & u & Hd2 & Hr2 & Hf2 & Hq2).
  split; [rewrite Ha1; by destruct stored|].
  split; [rewrite Ha1; by destruct stored|].
  split; [rewrite Ha1; by destruct stored|].
  split.
  { rewrite Ha1. destruct stored eqn:Hs; [|reflexivity].
    apply andb_prop in Hs as [_ Ht].
    cbn [world snd]. unfold fetchUserProfile_start, axiosInstance_send,
      dispatch, enqueue, request_interceptor, getItem, wire. simpl.
    by rewrite Ht. }
  split; [exact Hwd|]. split; [exact Hww|].
  pose proof (render_after_profile b b0 u (world a2) Hf2 Hq2) as H.
  cbv zeta in H. rewrite <- Hd2 in H.
  unfold a3, step, commit. rewrite Hr2.
  destruct (run_effects _ _ _ _) as [st3 w3]. exact H.
Qed.

End Mount.

(** The demo page after it has settled on [dev-1] and [temperature]: the
    user switches to [humidity], and a humidity reading arrives on the feed,
    whose handler still compares with the empty type. *)
Lemma sensor_type_change_keeps_the_feed_witness :
  let B := Demo.backend 3 in
  let a := run (App_initial (Demo.page (Demo.store "fresh" "r0")))
             Demo.startup in
  let a1 := run a [SelectSensorType "humidity"; Render] in
  let a2 := step a1 (FeedMessage 2 "humidity") in
  selectedSensorType (dash a1) = "humidity"
  ∧ sensorHistory (dash a2)
    = if String.eqb (sensorType (Demo.reading "humidity" 41)) ""
      then slice_last 100
             (sensorHistory (dash a1) ++ [Demo.reading "humidity" 41])
      else sensorHistory (dash a1).
Proof.
  intros B a a1 a2.
  destruct (sensor_type_change_keeps_the_feed (B := B) a "humidity" 2 ""
              "humidity" (Demo.reading "humidity" 41))
    as (_ & _ & Ht & Hh).
  - vm_compute; reflexivity.
  - vm_compute; auto.
  - vm_compute; reflexivity.
  - split; [exact Ht|exact Hh].
Defined.

(** The settled demo page, [dev-2] chosen in place of [dev-1]. *)
Lemma selecting_a_device_switches_the_feed_witness :
  let B := Demo.backend 3 in
  let a := run (App_initial (World_initial (Demo.store "fresh" "r0")
                               "/dashboard"))
             Demo.startup in
  let a' := run a [SelectDevice "dev-2"; Render] in
  sensorSSERef (dash a') = Some (next_handle (feed_log (world a)))
  ∧ open_sensor_feeds (feed_log (world a'))
    = [(next_handle (feed_log (world a)), SensorFeed "")].
Proof.
  intros B a a'.
  destruct (selecting_a_device_switches_the_feed (B := B)
              (Demo.store "fresh" "r0") "/dashboard" Demo.startup
              "dev-2")
    as (_ & Href & Hopen & _).
  - vm_compute; reflexivity.
  - vm_compute; reflexivity.
  - vm_compute; reflexivity.
  - vm_compute; reflexivity.
  - vm_compute; reflexivity.
  - split; [exact Href|exact Hopen].
Defined.


(** Without that condition it need not: the page is loaded with a stored
    session, the user logs out while the profile is still on its way, and
    the reply, arriving afterwards, puts the user and the profile back. *)
Example profile_lands_after_logout :
  let B := Demo.backend 3 in
  let a := run (App_initial (Demo.page (Demo.store "fresh" "r0")))
             [Render; ClickLogout; Deliver 0] in
  isAuthenticated (dash a) = false
  ∧ user (dash a) = Some Demo.alice
  ∧ localStorage (world a) = {["user" := "{alice}"]}.
Proof. vm_compute. repeat split; reflexivity. Qed.

(** Alice logging in on the demo server from an empty store. *)
Lemma accepted_login_signs_in_or_clears_witness :
  let B := Demo.backend 3 in
  let p :=
    {| lp_username := "alice"; lp_password := "secret"; error := "";
       loading := false |} in
  let result := handleLogin p Dashboard_initial (Demo.page ∅) in
  error (fst (fst result)) = ""
  ∧ loading (fst (fst result)) = false
  ∧ user (snd (fst result)) = Some Demo.alice
  ∧ getItem "isAuthenticated" (snd result) = Some "true".
Proof.
  intros B p result.
  destruct (accepted_login_signs_in_or_clears (B := B) p Dashboard_initial
              (Demo.page ∅)
              (snd (axiosInstance login_api (login_request p) (Demo.page ∅)))
              {| status := 200; body := Some Demo.issued |} Demo.issued)
    as (He & Hl & Hrest).
  - vm_compute; reflexivity.
  - reflexivity.
  - reflexivity.
  - split; [exact He|]. split; [exact Hl|].
    vm_compute in Hrest. destruct Hrest as (_ & Hu & Hflag & _).
    split; vm_compute; [exact Hu|exact Hflag].
Defined.

(** Restoring a session on the demo server: with a token the server accepts
    the two session feeds are opened; with a stale pair the profile request
    fails, the store is emptied and nothing is opened. *)
Example restore_demo_session :
  let B := Demo.backend 3 in
  let a := run (App_initial (Demo.page (Demo.store "fresh" "r0")))
             [Render; Deliver 0; Render] in
  let b := run (App_initial (Demo.page (Demo.store "stale" "r9")))
             [Render; Deliver 0; Render] in
  open_feeds (feed_log (world a)) = [(1%nat, EventsFeed); (0%nat, AlertsFeed)]
  ∧ open_feeds (feed_log (world b)) = []
  ∧ localStorage (world b) = ∅.
Proof. vm_compute. repeat split; reflexivity. Qed.
